(** * The Webfaction fabfile: a model of [fabfile.py] and its properties

    The fabfile is a deployment script: every task is a sequence of calls to
    the outside world (shell commands on the remote host, the hosting
    provider's XML-RPC interface, the local file system, the operator at the
    terminal) with a little string processing in between.  The development
    has three layers:

    - [Text]: the Python string operations the script uses ([strip],
      [replace], [split], [startswith], the [%] operator with a mapping on
      its right, the regular-expression substitution of the template
      renderer);
    - [Script]: programs as trees of requests to the outside world, with the
      two ways of running them (all possible conversations, and the
      conversation with one given world);
    - [Fabfile]: the functions of [fabfile.py], in the order of the source.

    Text is ASCII; the console output of the script ([print], [_print],
    [print_command]) is left out everywhere except for the start-up
    message. *)

From Stdlib Require Import ZArith Lia Ascii String List Bool.
From stdpp Require Import base option list gmap strings pretty.
From Equations Require Import Equations.

Set Default Proof Using "Type".
Set Warnings "-register-all".
Local Open Scope string_scope.

(* ===================================================================== *)
(** * Python text operations                                             *)
(* ===================================================================== *)

Module Text.

(** [s.startswith(p)] *)
Definition startswith (p s : string) : bool := String.prefix p s.

(** [sub in s] for two strings. *)
Fixpoint contains (sub s : string) : bool :=
  startswith sub s ||
  match s with
  | EmptyString => false
  | String _ r => contains sub r
  end.

(** [c in s] for a single character. *)
Fixpoint has_char (c : ascii) (s : string) : bool :=
  match s with
  | EmptyString => false
  | String d r => Ascii.eqb c d || has_char c r
  end.

(** [s.replace(c, by)] for a pattern of one character. *)
Fixpoint replace_char (c : ascii) (by_ : string) (s : string) : string :=
  match s with
  | EmptyString => EmptyString
  | String d r =>
      if Ascii.eqb d c then by_ +:+ replace_char c by_ r
      else String d (replace_char c by_ r)
  end.

(** [s.split(sep)] for a separator of one character: never empty, one more
    field than there are separators. *)
Fixpoint split_on (sep : ascii) (s : string) : list string :=
  match s with
  | EmptyString => [EmptyString]
  | String c r =>
      if Ascii.eqb c sep then EmptyString :: split_on sep r
      else match split_on sep r with
           | h :: t => String c h :: t
           | [] => [String c EmptyString]
           end
  end.

(** [sep.join(fields)] *)
Fixpoint join_with (sep : string) (fields : list string) : string :=
  match fields with
  | [] => EmptyString
  | [f] => f
  | f :: rest => f +:+ sep +:+ join_with sep rest
  end.

Definition LF : ascii := ascii_of_nat 10.
Definition CR : ascii := ascii_of_nat 13.

(** Whitespace as [unicode.strip()] sees it, within ASCII: tab, line feed,
    vertical tab, form feed, carriage return, the four separators
    FS GS RS US, and the space. *)
Definition py_isspace (c : ascii) : bool :=
  let n := nat_of_ascii c in
  ((9 <=? n) && (n <=? 13) || (28 <=? n) && (n <=? 32))%nat.

Fixpoint lstrip (s : string) : string :=
  match s with
  | EmptyString => EmptyString
  | String c r => if py_isspace c then lstrip r else s
  end.

Fixpoint rstrip (s : string) : string :=
  match s with
  | EmptyString => EmptyString
  | String c r =>
      match rstrip r with
      | EmptyString => if py_isspace c then EmptyString else String c EmptyString
      | r' => String c r'
      end
  end.

(** [s.strip()] *)
Definition strip (s : string) : string := rstrip (lstrip s).

Definition all_space (s : string) : bool :=
  forallb py_isspace (list_ascii_of_string s).

(** ** The [%] operator with a mapping on the right

    [fmt % mapping] scans [fmt] from left to right.  The model covers the
    conversions the fabfile can reach with a mapping: [%%] and [%(key)s].
    The mapping is given by what [str()] of each stored value is.  Any other
    conversion specifier (flags, width, precision, another conversion
    character, or a conversion without a key) stops the scan with
    [FmtOther]: what Python does there is not modelled. *)

Inductive fmt_result :=
| FmtOk (out : string)
| FmtKeyError (key : string)      (* KeyError: the mapping lacks [key] *)
| FmtValueError                   (* ValueError: incomplete format (key) *)
| FmtOther.                       (* outside the modelled fragment *)

Definition fmt_cons (c : ascii) (r : fmt_result) : fmt_result :=
  match r with
  | FmtOk out => FmtOk (String c out)
  | FmtKeyError key => FmtKeyError key
  | FmtValueError => FmtValueError
  | FmtOther => FmtOther
  end.

Definition fmt_app (s : string) (r : fmt_result) : fmt_result :=
  match r with
  | FmtOk out => FmtOk (s +:+ out)
  | FmtKeyError key => FmtKeyError key
  | FmtValueError => FmtValueError
  | FmtOther => FmtOther
  end.

(** Where the scanner is: in plain text, just after a [%], inside the
    parentheses of a key (with the nesting depth and the key read so far,
    reversed), or after a key whose value has been found. *)
Inductive fmt_state :=
| InText
| AfterPercent
| InKey (depth : nat) (rkey : string)
| AfterKey (value : string).

Definition mapping := string -> option string.

Fixpoint format_from (m : mapping) (st : fmt_state) (s : string) : fmt_result :=
  match s with
  | EmptyString =>
      match st with
      | InText => FmtOk EmptyString
      | _ => FmtValueError
      end
  | String c r =>
      match st with
      | InText =>
          if Ascii.eqb c "%" then format_from m AfterPercent r
          else fmt_cons c (format_from m InText r)
      | AfterPercent =>
          if Ascii.eqb c "%" then fmt_cons "%" (format_from m InText r)
          else if Ascii.eqb c "(" then format_from m (InKey 0 EmptyString) r
          else FmtOther
      | InKey depth rkey =>
          if Ascii.eqb c ")" then
            match depth with
            | O =>
                let key := String.rev rkey in
                match m key with
                | Some v => format_from m (AfterKey v) r
                | None => FmtKeyError key
                end
            | S d => format_from m (InKey d (String c rkey)) r
            end
          else if Ascii.eqb c "(" then format_from m (InKey (S depth) (String c rkey)) r
          else format_from m (InKey depth (String c rkey)) r
      | AfterKey v =>
          if Ascii.eqb c "s" then fmt_app v (format_from m InText r)
          else FmtOther
      end
  end.

(** [fmt % m] *)
Definition py_format (fmt : string) (m : mapping) : fmt_result :=
  format_from m InText fmt.

(** ** The regular expression of the template renderer

    [\w] without the UNICODE flag: letters, digits and the underscore. *)
Definition is_word (c : ascii) : bool :=
  let n := nat_of_ascii c in
  ((48 <=? n) && (n <=? 57) || (65 <=? n) && (n <=? 90)
   || (97 <=? n) && (n <=? 122) || (n =? 95))%nat.

(** The longest run of word characters at the front of [s], and the rest. *)
Fixpoint span_word (s : string) : string * string :=
  match s with
  | EmptyString => (EmptyString, EmptyString)
  | String c r =>
      if is_word c then let '(w, rest) := span_word r in (String c w, rest)
      else (EmptyString, s)
  end.

(** Does [s] start with a match of [\(\w+\)s]?  If so, the name between the
    parentheses and what follows the match.  [\w+] is greedy but cannot run
    over the closing parenthesis, so the match is unique. *)
Definition placeholder_at (s : string) : option (string * string) :=
  match s with
  | String "(" r =>
      match span_word r with
      | (String c w, String ")" (String "s" rest)) => Some (String c w, rest)
      | _ => None
      end
  | _ => None
  end.

(** [re.sub(r"%(?!\(\w+\)s)", "%%", s)]: every [%] that is not followed by
    a placeholder body is doubled, everything else is kept. *)
Fixpoint escape_percent (s : string) : string :=
  match s with
  | EmptyString => EmptyString
  | String c r =>
      if Ascii.eqb c "%" then
        match placeholder_at r with
        | Some _ => String "%" (escape_percent r)
        | None => String "%" (String "%" (escape_percent r))
        end
      else String c (escape_percent r)
  end.

Definition inspect {A} (a : A) : {b | a = b} := exist _ a eq_refl.

(** The substitution as the specification words it: one pass over the
    template in which every placeholder [%(name)s] is replaced by the value
    of [name] (a missing name is a [KeyError]) and every other character,
    [%] included, is copied as it is. *)
Equations? substitute_spec (m : mapping) (t : string) : fmt_result
  by wf (String.length t) lt :=
  substitute_spec m EmptyString := FmtOk EmptyString;
  substitute_spec m (String c r)
    with inspect (if Ascii.eqb c "%" then placeholder_at r else None) := {
    | exist _ (Some p) H =>
        match m (fst p) with
        | Some v => fmt_app v (substitute_spec m (snd p))
        | None => FmtKeyError (fst p)
        end
    | exist _ None _ => fmt_cons c (substitute_spec m r) }.
Proof.
  assert (Hspan : forall x w rest, span_word x = (w, rest) ->
                  String.length rest <= String.length x).
  { induction x as [|a x IH]; intros w rest Hx; simpl in Hx.
    - injection Hx as <- <-. simpl. lia.
    - destruct (is_word a).
      + destruct (span_word x) as [w' rest'] eqn:E. injection Hx as <- <-.
        specialize (IH _ _ eq_refl). simpl. lia.
      + injection Hx as <- <-. simpl. lia. }
  destruct (Ascii.eqb c "%"); [|discriminate].
  unfold placeholder_at in H.
  destruct r as [|a r]; [discriminate|].
  destruct (span_word r) as [w rest] eqn:E.
  specialize (Hspan _ _ _ E).
  destruct a as [[] [] [] [] [] [] [] []]; try discriminate.
  destruct w as [|c' w]; [discriminate|].
  destruct rest as [|a1 rest]; [discriminate|].
  destruct a1 as [[] [] [] [] [] [] [] []]; try discriminate.
  destruct rest as [|a2 rest]; [discriminate|].
  destruct a2 as [[] [] [] [] [] [] [] []]; try discriminate.
  injection H as <- <-. simpl in *. lia.
Defined.

End Text.

(* ===================================================================== *)
(** * Scripts: programs that talk to the outside world                   *)
(* ===================================================================== *)

Module Script.

(** Python values that cross the XML-RPC boundary: arguments of the calls
    and fields of the structs that come back. *)
Inductive pyval :=
| VNone
| VBool (b : bool)
| VInt (n : Z)
| VStr (s : string)
| VList (l : list pyval).

(** Python's [==] on these values ([True == 1] included). *)
Fixpoint py_eqb (a b : pyval) : bool :=
  match a, b with
  | VNone, VNone => true
  | VBool x, VBool y => Bool.eqb x y
  | VBool x, VInt n | VInt n, VBool x => Z.eqb (if x then 1 else 0) n
  | VInt x, VInt y => Z.eqb x y
  | VStr x, VStr y => String.eqb x y
  | VList xs, VList ys =>
      (fix go (xs ys : list pyval) : bool :=
         match xs, ys with
         | [], [] => true
         | x :: xs', y :: ys' => py_eqb x y && go xs' ys'
         | _, _ => false
         end) xs ys
  | _, _ => false
  end.

(** A struct returned by the control panel: a Python [dict]. *)
Abbreviation struct := (gmap string pyval).

(** An optional string attribute as a Python value. *)
Definition of_opt (o : option string) : pyval :=
  match o with Some s => VStr s | None => VNone end.

(** [str(x)] for an attribute that is [None] or a string. *)
Definition str_opt (o : option string) : string :=
  match o with Some s => s | None => "None" end.

(** Truth value of an attribute that is [None] or a string. *)
Definition truthy (o : option string) : bool :=
  match o with Some (String _ _) => true | _ => false end.

(** ** Requests and answers

    One constructor for each way the fabfile reaches outside the Python
    process.  The remote calls carry the shell context Fabric would apply:
    the [cd] directories and the [prefix] commands in force, innermost
    first. *)
Inductive request :=
| ReqRun (cwd prefixes : list string) (command : string)
    (* fabric.api.run *)
| ReqExists (cwd prefixes : list string) (path : string)
    (* fabric.contrib.files.exists *)
| ReqUploadTemplate (filename destination : string) (context : Text.mapping)
    (use_sudo backup : bool)
    (* fabric.contrib.files.upload_template *)
| ReqLocal (command : string)
    (* fabric.api.local *)
| ReqRsync (remote_dir : string) (exclude : list string)
    (* fabric.contrib.project.rsync_project, from the current directory *)
| ReqConfirm (question : string)
    (* fabric.contrib.console.confirm *)
| ReqGetpass (prompt : string)
    (* getpass.getpass *)
| ReqLocalExists (path : string)
    (* os.path.exists *)
| ReqFabfileDir
    (* os.path.dirname(os.path.abspath(__file__)) *)
| ReqReadLocal (path : string)
    (* open(path, "r").read() *)
| ReqLogin (user : string) (password : string)
    (* server.login *)
| ReqRpc (method : string) (args : list pyval).
    (* any other method of the XML-RPC server proxy *)

(** What comes back.  [AFail] is a call that does not return: a remote
    command with a non-zero status (Fabric aborts the run), an XML-RPC
    fault, an I/O error. *)
Inductive answer :=
| AUnit
| ABool (b : bool)
| AStr (s : string)
| AStructs (l : list struct)
| AFail.

Inductive failure :=
| Abort (msg : string) (args : list pyval)
    (* fabric.api.abort(msg % args): SystemExit *)
| Raise (exc : string)
    (* an uncaught Python exception, by class name *)
| CallFailed (r : request)
    (* the outside world did not answer [r] in its expected shape *)
| Unmodelled.
    (* Python behaviour outside the model (see [Text.FmtOther]) *)

(** A script: it returns, stops, or asks and continues with the answer. *)
Inductive Prog (A : Type) :=
| Ret (a : A)
| Fail (f : failure)
| Ask (r : request) (k : answer -> Prog A).

Arguments Ret {A} a.
Arguments Fail {A} f.
Arguments Ask {A} r k.

Fixpoint bind {A B} (p : Prog A) (f : A -> Prog B) : Prog B :=
  match p with
  | Ret a => f a
  | Fail e => Fail e
  | Ask r k => Ask r (fun a => bind (k a) f)
  end.

Inductive outcome (A : Type) :=
| Done (a : A)
| Stopped (f : failure).

Arguments Done {A} a.
Arguments Stopped {A} f.

Abbreviation event := (request * answer)%type.
Abbreviation trace := (list (request * answer)).

(** All conversations a script can have: the exchanges in order, and how
    the script ends. *)
Inductive runs {A} : Prog A -> trace -> outcome A -> Prop :=
| runs_ret a : runs (Ret a) [] (Done a)
| runs_fail f : runs (Fail f) [] (Stopped f)
| runs_ask r k a tr o : runs (k a) tr o -> runs (Ask r k) ((r, a) :: tr) o.

(** A script that asks nothing but requests in [P]. *)
Inductive issues_only {A} (P : request -> Prop) : Prog A -> Prop :=
| only_ret a : issues_only P (Ret a)
| only_fail f : issues_only P (Fail f)
| only_ask r k : P r -> (forall a, issues_only P (k a)) -> issues_only P (Ask r k).

(** A script that can stop only with a failure in [P]. *)
Inductive fails_only {A} (P : failure -> Prop) : Prog A -> Prop :=
| fo_ret a : fails_only P (Ret a)
| fo_fail f : P f -> fails_only P (Fail f)
| fo_ask r k : (forall a, fails_only P (k a)) -> fails_only P (Ask r k).

(** Every value a script can return is in [Q]. *)
Inductive returns_only {A} (Q : A -> Prop) : Prog A -> Prop :=
| ro_ret a : Q a -> returns_only Q (Ret a)
| ro_fail f : returns_only Q (Fail f)
| ro_ask r k : (forall a, returns_only Q (k a)) -> returns_only Q (Ask r k).

(** A script that stops whatever it is answered. *)
Definition never_returns {A} (p : Prog A) : Prop := returns_only (fun _ => False) p.

(** A request the other side refused, or did not answer as expected. *)
Definition call_failed (f : failure) : Prop :=
  match f with CallFailed _ => True | _ => False end.

(** A refused request, or the given exception. *)
Definition call_failed_or (exc : string) (f : failure) : Prop :=
  match f with
  | CallFailed _ => True
  | Raise x => x = exc
  | _ => False
  end.

(** A request that is neither a remote command, nor an upload, nor a call
    to the control panel. *)
Definition harmless (r : request) : Prop :=
  match r with
  | ReqRun _ _ _ | ReqUploadTemplate _ _ _ _ _ | ReqRpc _ _ | ReqLogin _ _ => False
  | _ => True
  end.

(** One world: a state and the way it answers. *)
Definition handler (W : Type) := request -> W -> answer * W.

Fixpoint exec {W A} (h : handler W) (p : Prog A) (w : W) : outcome A * W * trace :=
  match p with
  | Ret a => (Done a, w, [])
  | Fail f => (Stopped f, w, [])
  | Ask r k =>
      let '(a, w1) := h r w in
      let '(o, w2, tr) := exec h (k a) w1 in
      (o, w2, (r, a) :: tr)
  end.

Definition result_of {W A} (x : outcome A * W * trace) : outcome A := fst (fst x).
Definition world_of {W A} (x : outcome A * W * trace) : W := snd (fst x).
Definition trace_of {W A} (x : outcome A * W * trace) : trace := snd x.

(** ** Observations on traces *)

Definition is_run (p : string -> bool) (e : event) : bool :=
  match fst e with ReqRun _ _ c => p c | _ => false end.

Definition is_upload (e : event) : bool :=
  match fst e with ReqUploadTemplate _ _ _ _ _ => true | _ => false end.

Definition is_rpc (p : string -> bool) (e : event) : bool :=
  match fst e with ReqRpc m _ => p m | _ => false end.

(** The shell commands sent to the remote host, in order. *)
Fixpoint commands (tr : trace) : list string :=
  match tr with
  | [] => []
  | (ReqRun _ _ c, _) :: rest => c :: commands rest
  | _ :: rest => commands rest
  end.

(** The templates uploaded, as (local file, remote path), in order. *)
Fixpoint uploads (tr : trace) : list (string * string) :=
  match tr with
  | [] => []
  | (ReqUploadTemplate f d _ _ _, _) :: rest => (f, d) :: uploads rest
  | _ :: rest => uploads rest
  end.

(** The XML-RPC calls other than [login], with their answers, in order. *)
Fixpoint rpcs (tr : trace) : list (string * list pyval * answer) :=
  match tr with
  | [] => []
  | (ReqRpc m args, a) :: rest => (m, args, a) :: rpcs rest
  | _ :: rest => rpcs rest
  end.

End Script.

(* ===================================================================== *)
(** * The fabfile                                                        *)
(* ===================================================================== *)

Module Fabfile.
Import Text Script.

(** ** Config setup (lines 26-74) *)

(** The [FABRIC] setting as the start-up code meets it. *)
Inductive settings_source :=
| NoSettingsModule                       (* import_module raises ImportError *)
| NoFabricAttribute                      (* the module has no FABRIC *)
| Fabric (conf : gmap string pyval).

Inductive startup :=
| Exited (printed : string)              (* print(...); exit() *)
| Crashed (exc : string)                 (* an exception no handler catches *)
| Loaded (conf : gmap string pyval).     (* the code goes on with [conf] *)

(** [sys.argv[0].split(os.sep)[-1]]; [sep] is [os.sep], one character. *)
Definition last_component (sep : ascii) (path : string) : string :=
  List.last (split_on sep path) EmptyString.

(** [x[0]]: what it raises, if anything. *)
Definition first_item (v : pyval) : option string :=
  match v with
  | VList (_ :: _) => None
  | VStr (String _ _) => None
  | VList [] | VStr EmptyString => Some "IndexError"
  | VNone | VBool _ | VInt _ => Some "TypeError"
  end.

(** [for s in x]: what it raises, if anything. *)
Definition iterating (v : pyval) : option string :=
  match v with
  | VStr _ | VList _ => None
  | VNone | VBool _ | VInt _ => Some "TypeError"
  end.

(** [bool(x)] *)
Definition py_truthy (v : pyval) : bool :=
  match v with
  | VNone => false
  | VBool b => b
  | VInt n => negb (Z.eqb n 0)
  | VStr s => negb (String.eqb s EmptyString)
  | VList l => match l with [] => false | _ :: _ => true end
  end.

Definition no_hosts_message : string := "Aborting, no hosts defined.".

(** [sys.argv[0].split(os.sep)[-1] in ("fab", "fab-script.py")] *)
Definition launched_by_fab (sep : ascii) (argv0 : string) : bool :=
  existsb (String.eqb (last_component sep argv0)) ["fab"; "fab-script.py"].

(** Lines 27-39.  The inner handler turns [KeyError] and [ValueError] into
    [ImportError]; the outer one catches [ImportError] and
    [AttributeError].  Started by anything but [fab], [conf] stays the
    empty dictionary of line 27. *)
Definition load_conf (sep : ascii) (argv0 : string) (src : settings_source) : startup :=
  if launched_by_fab sep argv0 then
    match src with
    | NoSettingsModule | NoFabricAttribute => Exited no_hosts_message
    | Fabric conf =>
        match conf !! "HOSTS" with
        | None => Exited no_hosts_message
        | Some hosts =>
            match first_item hosts with
            | None => Loaded conf
            | Some exc =>
                if existsb (String.eqb exc) ["KeyError"; "ValueError"]
                then Exited no_hosts_message
                else Crashed exc
            end
        end
    end
  else Loaded ∅.

(** [env.proj_app = real_project_name("richardjackson")] (line 26) *)
Definition project_app : string := "richardjackson".

(** Line 58 iterates over [env.domains]: DOMAINS when it is set, else
    [env.live_host], which is a string when LIVE_SUBDOMAIN is truthy
    ([%s.%s] formats any two values) and LIVE_DOMAIN itself when not
    (lines 47-49 and 57). *)
Definition domains_raise (conf : gmap string pyval) : option string :=
  match conf !! "DOMAINS" with
  | Some domains => iterating domains
  | None =>
      if py_truthy (default VNone (conf !! "LIVE_SUBDOMAIN")) then None
      else iterating (default VNone (conf !! "LIVE_DOMAIN"))
  end.

(** Lines 41-74: the assignments to [env].  Two of them can raise on what
    [conf] holds: [join(env.venv_home, env.proj_name)] (line 53) asks
    PROJECT_NAME for [startswith], and line 58 iterates over
    [env.domains].  The others read [conf] with [get] and format with
    [%s]; [getuser()] is taken to succeed. *)
Definition module_body (conf : gmap string pyval) : startup :=
  match default (VStr project_app) (conf !! "PROJECT_NAME") with
  | VStr _ =>
      match domains_raise conf with
      | Some exc => Crashed exc
      | None => Loaded conf
      end
  | _ => Crashed "AttributeError"
  end.

(** Lines 26-74: what importing the fabfile does before any task can
    run. *)
Definition import_fabfile (sep : ascii) (argv0 : string) (src : settings_source)
  : startup :=
  match load_conf sep argv0 src with
  | Loaded conf => module_body conf
  | stopped => stopped
  end.

(** No host list is configured: no settings, no [FABRIC], or no [HOSTS]
    entry in it. *)
Definition hosts_missing (src : settings_source) : bool :=
  match src with
  | NoSettingsModule | NoFabricAttribute => true
  | Fabric conf => match conf !! "HOSTS" with None => true | Some _ => false end
  end.

(** The configured host list is there and has nothing in it. *)
Definition hosts_empty (src : settings_source) : bool :=
  match src with
  | Fabric conf => match conf !! "HOSTS" with Some (VList []) => true | _ => false end
  | _ => false
  end.

(** [env.hosts = conf.get("HOSTS", [""])] (line 46) *)
Definition env_hosts (conf : gmap string pyval) : pyval :=
  default (VList [VStr EmptyString]) (conf !! "HOSTS").

(** The attributes the fabfile reads from [conf] and never changes, with
    [host_string], which Fabric sets for the task, and the [str()] of every
    other entry of Fabric's [env]. *)
Record Config := {
  admin_pass : option string;
  user : string;
  key_filename : option string;
  live_subdomain : option string;
  live_domain : option string;
  proj_app : string;
  proj_name : string;
  deploy_tool : string;
  reqs_path : option string;
  locale : string;
  twitter_period : option Z;             (* None or an int *)
  num_workers : string;
  secret_key : string;
  nevercache_key : string;
  host_string : option string;
  others : gmap string string;
}.

(** [env]: the configuration and what the tasks change while they run: the
    two passwords asked for on first use, and the directories and command
    prefixes of the enclosing [with cd(...)] and [with prefix(...)] blocks,
    innermost first. *)
Record Env := {
  cfg :> Config;
  db_pass : option string;
  password : option string;
  cwd : list string;
  command_prefixes : list string;
}.

Definition set_db_pass (v : option string) (e : Env) : Env :=
  {| cfg := cfg e; db_pass := v; password := password e;
     cwd := cwd e; command_prefixes := command_prefixes e |}.

Definition set_password (v : option string) (e : Env) : Env :=
  {| cfg := cfg e; db_pass := db_pass e; password := v;
     cwd := cwd e; command_prefixes := command_prefixes e |}.

Definition set_cwd (v : list string) (e : Env) : Env :=
  {| cfg := cfg e; db_pass := db_pass e; password := password e;
     cwd := v; command_prefixes := command_prefixes e |}.

Definition set_command_prefixes (v : list string) (e : Env) : Env :=
  {| cfg := cfg e; db_pass := db_pass e; password := password e;
     cwd := cwd e; command_prefixes := v |}.

Definition endswith_slash (s : string) : bool :=
  match String.rev s with String "/" _ => true | _ => false end.

(** [posixpath.join(a, b)].  With [b = None] the call raises (it asks [b]
    for [startswith]); the result is then [None]. *)
Definition join (a : string) (b : option string) : option string :=
  match b with
  | None => None
  | Some b =>
      Some (if startswith "/" b then b
            else if String.eqb a EmptyString || endswith_slash a then a +:+ b
            else a +:+ "/" +:+ b)
  end.

Definition live_host (c : Config) : option string :=
  if truthy (live_subdomain c)
  then Some (str_opt (live_subdomain c) +:+ "." +:+ str_opt (live_domain c))
  else live_domain c.

Definition venv_home (c : Config) : string := "/home/" +:+ user c +:+ "/.virtualenvs".
Definition venv_path (c : Config) : string :=
  default EmptyString (join (venv_home c) (Some (proj_name c))).
Definition proj_path (c : Config) : string :=
  "/home/" +:+ user c +:+ "/webapps/" +:+ proj_name c.
Definition manage_cmd (c : Config) : string :=
  venv_path c +:+ "/bin/python " +:+ proj_path c +:+ "/manage.py".
Definition vcs_tools : list string := ["git"; "hg"].
Definition repo_path (c : Config) : string :=
  if String.eqb (deploy_tool c) "git"
  then "/home/" +:+ user c +:+ "/webapps/git_app/repos/" +:+ proj_name c +:+ ".git"
  else proj_path c.

Definition str_int (o : option Z) : string :=
  match o with Some n => pretty n | None => "None" end.

(** The entries of [env] the fabfile itself assigns, as [%(key)s] renders
    them. *)
Definition own_items (e : Env) : list (string * string) :=
  [ ("proj_app", proj_app e);
    ("db_pass", str_opt (db_pass e));
    ("admin_pass", str_opt (admin_pass e));
    ("user", user e);
    ("password", str_opt (password e));
    ("key_filename", str_opt (key_filename e));
    ("live_subdomain", str_opt (live_subdomain e));
    ("live_domain", str_opt (live_domain e));
    ("live_host", str_opt (live_host e));
    ("proj_name", proj_name e);
    ("venv_home", venv_home e);
    ("venv_path", venv_path e);
    ("proj_path", proj_path e);
    ("manage", manage_cmd e);
    ("deploy_tool", deploy_tool e);
    ("reqs_path", str_opt (reqs_path e));
    ("locale", locale e);
    ("twitter_period", str_int (twitter_period e));
    ("num_workers", num_workers e);
    ("secret_key", secret_key e);
    ("nevercache_key", nevercache_key e);
    ("repo_path", repo_path e) ].

Fixpoint assoc (key : string) (items : list (string * string)) : option string :=
  match items with
  | [] => None
  | (k, v) :: rest => if String.eqb k key then Some v else assoc key rest
  end.

(** [env] as the right operand of [%]. *)
Definition env_item (e : Env) : mapping :=
  fun key =>
    match assoc key (own_items e) with
    | Some v => Some v
    | None => others e !! key
    end.

(** ** The script monad: [env] threaded through a [Script.Prog] *)

Definition M (A : Type) : Type := Env -> Prog (A * Env).

Definition ret {A} (a : A) : M A := fun e => Ret (a, e).

Definition bindM {A B} (p : M A) (f : A -> M B) : M B :=
  fun e => bind (p e) (fun ae => f (fst ae) (snd ae)).

Definition stop {A} (f : failure) : M A := fun _ => Fail f.

Definition get_env : M Env := fun e => Ret (e, e).

Definition modify (f : Env -> Env) : M unit := fun e => Ret (tt, f e).

(** One request whose answer [decode] accepts. *)
Definition ask {A} (r : Env -> request) (decode : answer -> option A) : M A :=
  fun e =>
    Ask (r e) (fun a =>
      match decode a with
      | Some x => Ret (x, e)
      | None => Fail (CallFailed (r e))
      end).

Declare Scope script_scope.
Delimit Scope script_scope with script.
Notation "x <- p ;; q" := (bindM p (fun x => q))
  (at level 100, p at next level, right associativity) : script_scope.
Notation "p ;; q" := (bindM p (fun _ => q))
  (at level 100, right associativity) : script_scope.
Local Open Scope script_scope.

Definition when (b : bool) (p : M unit) : M unit := if b then p else ret tt.

(** [raise exc] *)
Definition raise {A} (exc : string) : M A := stop (Raise exc).

(** [abort(msg % args)] *)
Definition abort {A} (msg : string) (args : list pyval) : M A := stop (Abort msg args).

(** [fmt % env]: [KeyError] and [ValueError] propagate. *)
Definition format_env (fmt : string) : M string :=
  e <- get_env ;;
  match py_format fmt (env_item e) with
  | FmtOk s => ret s
  | FmtKeyError _ => raise "KeyError"
  | FmtValueError => raise "ValueError"
  | FmtOther => stop Unmodelled
  end.

Definition as_str (a : answer) : option string :=
  match a with AStr s => Some s | _ => None end.
Definition as_bool (a : answer) : option bool :=
  match a with ABool b => Some b | _ => None end.
Definition as_structs (a : answer) : option (list struct) :=
  match a with AStructs l => Some l | _ => None end.
Definition returned (a : answer) : option answer :=
  match a with AFail => None | _ => Some a end.

(** [with cd(path): body] *)
Definition with_cd {A} (path : string) (body : M A) : M A :=
  e <- get_env ;;
  modify (set_cwd (path :: cwd e)) ;;
  a <- body ;;
  modify (set_cwd (cwd e)) ;;
  ret a.

(** [with prefix(command): body] *)
Definition with_prefix {A} (command : string) (body : M A) : M A :=
  e <- get_env ;;
  modify (set_command_prefixes (command :: command_prefixes e)) ;;
  a <- body ;;
  modify (set_command_prefixes (command_prefixes e)) ;;
  ret a.

(** [run(command, show)] (lines 224-232): the remote command's output.
    Fabric aborts when the command fails. *)
Definition run (command : string) : M string :=
  ask (fun e => ReqRun (cwd e) (command_prefixes e) command) as_str.

(** [exists(path)] *)
Definition exists_ (path : string) : M bool :=
  ask (fun e => ReqExists (cwd e) (command_prefixes e) path) as_bool.

Definition local_ (command : string) : M unit :=
  _ <- ask (fun _ => ReqLocal command) returned ;; ret tt.

Definition confirm (question : string) : M bool :=
  ask (fun _ => ReqConfirm question) as_bool.

Definition getpass (prompt : string) : M string :=
  ask (fun _ => ReqGetpass prompt) as_str.

(** A method of the server proxy. *)
Definition rpc (method : string) (args : list pyval) : M answer :=
  ask (fun _ => ReqRpc method args) returned.

(** ** Template setup (lines 85-99) *)

Definition templates : list (string * list (string * string)) :=
  [ ("supervisor",
      [ ("local_path", "deploy/supervisor.conf.template");
        ("remote_path", "/home/%(user)s/etc/supervisor/conf.d/%(proj_name)s.conf");
        ("reload_command", "supervisorctl update gunicorn_%(proj_name)s") ]);
    ("gunicorn",
      [ ("local_path", "deploy/gunicorn.conf.py.template");
        ("remote_path", "%(proj_path)s/gunicorn.conf.py") ]);
    ("settings",
      [ ("local_path", "deploy/local_settings.py.template");
        ("remote_path", "%(proj_path)s/%(proj_app)s/local_settings.py") ]) ].

(** ** Wrappers for the Webfaction API (lines 106-152) *)

(** [get_webf_session] returns the session id ([server] is the proxy
    itself and [account] is never used). *)
Definition get_webf_session : M string :=
  e <- get_env ;;
  (match password e with
   | None =>
       p <- getpass ("Enter Webfaction password for user " +:+ user e +:+ ": ") ;;
       modify (set_password (Some p))
   | Some _ => ret tt
   end) ;;
  e <- get_env ;;
  ask (fun _ => ReqLogin (user e) (str_opt (password e))) as_str.

(** [key_map.get(obj_type, "name")] *)
Definition key_of (obj_type : string) : string :=
  if String.eqb obj_type "domain" then "domain"
  else if String.eqb obj_type "db_user" then "username"
  else "name".

(** [[item for item in obj_list if item[key] == obj_name]]: [None] when
    some [item[key]] raises [KeyError]. *)
Fixpoint select (key : string) (obj_name : pyval) (obj_list : list struct)
  : option (list struct) :=
  match obj_list with
  | [] => Some []
  | item :: rest =>
      match item !! key with
      | None => None
      | Some v =>
          match select key obj_name rest with
          | None => None
          | Some found => Some (if py_eqb v obj_name then item :: found else found)
          end
      end
  end.

(** What [get_webf_obj] does with the list the API returned: the object,
    [False] (here [None]), or an exception. *)
Inductive lookup_result :=
| Found (obj : struct)
| NotFound
| LookupRaises (exc : string).

Definition find_in (obj_type : string) (obj_name : pyval) (subdomain : option string)
    (obj_list : list struct) : lookup_result :=
  let key := key_of obj_type in
  match select key obj_name obj_list with
  | None => LookupRaises "KeyError"
  | Some [] => NotFound
  | Some (obj :: _) =>
      match String.eqb key "domain", subdomain with
      | true, Some sub =>
          match obj !! "subdomains" with
          | None => LookupRaises "KeyError"
          | Some (VList l) => if existsb (py_eqb (VStr sub)) l then Found obj else NotFound
          | Some (VStr s) => if contains sub s then Found obj else NotFound
          | Some _ => LookupRaises "TypeError"
          end
      | _, _ => Found obj
      end
  end.

Definition get_webf_obj (session : string) (obj_type : string) (obj_name : pyval)
    (subdomain : option string) : M (option struct) :=
  obj_list <- ask (fun _ => ReqRpc ("list_" +:+ obj_type +:+ "s") [VStr session]) as_structs ;;
  match find_in obj_type obj_name subdomain obj_list with
  | Found obj => ret (Some obj)
  | NotFound => ret None
  | LookupRaises exc => raise exc
  end.

(** Truth value of what [get_webf_obj] returned: [False], or a [dict]. *)
Definition found (r : option struct) : bool :=
  match r with
  | Some obj => negb (bool_decide (obj = ∅))
  | None => false
  end.

Definition del_webf_obj (session : string) (obj_type : string) (obj_name : pyval)
    (args : list pyval) : M answer :=
  rpc ("delete_" +:+ obj_type) (VStr session :: obj_name :: args).

(** [obj[key]] *)
Definition item (obj : struct) (key : string) : M pyval :=
  match obj !! key with
  | Some v => ret v
  | None => raise "KeyError"
  end.

(** ** Context for virtualenv and project (lines 159-205) *)

Definition virtualenv {A} (body : M A) : M A :=
  e <- get_env ;;
  with_cd (venv_path e)
    (with_prefix ("source " +:+ venv_path e +:+ "/bin/activate") body).

Definition project {A} (body : M A) : M A :=
  virtualenv (e <- get_env ;; with_cd (proj_path e) body).

(** [pip(packages, show)] (lines 335-341) *)
Definition pip (packages : string) : M string :=
  virtualenv (run ("pip install " +:+ packages)).

(** The request [pip] sends. *)
Definition pip_request (packages : string) (e : Env) : request :=
  ReqRun (venv_path e :: cwd e)
         (("source " +:+ venv_path e +:+ "/bin/activate") :: command_prefixes e)
         ("pip install " +:+ packages).

(** The request of [get_reqs]. *)
Definition cat_request (path : string) (e : Env) : request :=
  ReqRun (cwd e) (command_prefixes e) ("cat " +:+ path).

(** The command that reinstalls the manifest (line 205). *)
Definition reinstall (e : Env) : string :=
  "pip install -r " +:+ proj_path e +:+ "/" +:+ str_opt (reqs_path e).

(** One turn of the loop of lines 193-201: does it [break] on [req]? *)
Definition breaks_on (req : string) : bool :=
  if startswith "-e" req then negb (contains "@" req)
  else if negb (String.eqb (strip req) EmptyString) && negb (startswith "#" req)
  then negb (has_char ">" req || has_char "=" req || has_char "<" req)
  else false.

(** The [for ... else]: [true] when the loop runs to its [else] branch. *)
Fixpoint all_pinned (reqs : list string) : bool :=
  match reqs with
  | [] => true
  | req :: rest => if breaks_on req then false else all_pinned rest
  end.

(** A pinned line as the specification words it: an editable line has an
    [@], any other line that is not blank has one of [>], [=], [<]. *)
Definition pinned_line (req : string) : bool :=
  if startswith "-e" req then contains "@" req
  else if String.eqb (strip req) EmptyString then true
  else has_char ">" req || has_char "=" req || has_char "<" req.

(** A line that names a package from the index: not blank, not a comment,
    not editable. *)
Definition plain_requirement (req : string) : bool :=
  negb (startswith "-e" req) && negb (String.eqb (strip req) EmptyString)
  && negb (startswith "#" req).

(** An editable line without [@], or a plain requirement without a version
    comparison. *)
Definition loose_line (req : string) : bool :=
  (startswith "-e" req && negb (contains "@" req))
  || (plain_requirement req
      && negb (has_char ">" req || has_char "=" req || has_char "<" req)).

(** Lines 185-187: what is done before the [yield]. *)
Definition read_old_reqs : M (string * string) :=
  e <- get_env ;;
  match join (proj_path e) (reqs_path e) with
  | None => raise "AttributeError"
  | Some path =>
      old_reqs <- (if truthy (reqs_path e) then run ("cat " +:+ path) else ret EmptyString) ;;
      ret (path, old_reqs)
  end.

(** Lines 189-205: what is done after the [yield]. *)
Definition check_new_reqs (path old_reqs : string) : M unit :=
  if negb (String.eqb old_reqs EmptyString) then
    new_reqs <- run ("cat " +:+ path) ;;
    if String.eqb old_reqs new_reqs && all_pinned (split_on LF new_reqs) then ret tt
    else
      e <- get_env ;;
      _ <- pip ("-r " +:+ proj_path e +:+ "/" +:+ str_opt (reqs_path e)) ;;
      ret tt
  else ret tt.

(** [with update_changed_requirements(): body] *)
Definition update_changed_requirements (body : M unit) : M unit :=
  saved <- read_old_reqs ;;
  body ;;
  check_new_reqs (fst saved) (snd saved).

(** ** Utils and wrappers for various commands (lines 212-394) *)

(** [dict([(k, v % env) for k, v in data.items()])] *)
Fixpoint inject (data : list (string * string)) : M (list (string * string)) :=
  match data with
  | [] => ret []
  | (k, v) :: rest =>
      v' <- format_env v ;;
      rest' <- inject rest ;;
      ret ((k, v') :: rest')
  end.

Fixpoint inject_all (ts : list (string * list (string * string)))
  : M (list (string * list (string * string))) :=
  match ts with
  | [] => ret []
  | (name, data) :: rest =>
      data' <- inject data ;;
      rest' <- inject_all rest ;;
      ret ((name, data') :: rest')
  end.

Definition get_templates : M (list (string * list (string * string))) :=
  inject_all templates.

Fixpoint lookup_template (name : string) (ts : list (string * list (string * string)))
  : option (list (string * string)) :=
  match ts with
  | [] => None
  | (n, data) :: rest => if String.eqb n name then Some data else lookup_template name rest
  end.

(** [clean = lambda s: s.replace("\n", "").replace("\r", "").strip()] *)
Definition clean (s : string) : string :=
  strip (replace_char CR EmptyString (replace_char LF EmptyString s)).

(** A text with its line breaks taken out, wherever they are. *)
Definition unbroken (s : string) : string :=
  replace_char CR EmptyString (replace_char LF EmptyString s).

(** The three line-ending styles. *)
Definition line_endings : list string :=
  [String LF EmptyString; String CR (String LF EmptyString); String CR EmptyString].

(** What [get_templates] returns (see [get_templates_eq]). *)
Definition injected (e : Env) : list (string * list (string * string)) :=
  [ ("supervisor",
      [ ("local_path", "deploy/supervisor.conf.template");
        ("remote_path",
         "/home/" +:+ user e +:+ "/etc/supervisor/conf.d/" +:+ proj_name e +:+ ".conf");
        ("reload_command", "supervisorctl update gunicorn_" +:+ proj_name e) ]);
    ("gunicorn",
      [ ("local_path", "deploy/gunicorn.conf.py.template");
        ("remote_path", proj_path e +:+ "/gunicorn.conf.py") ]);
    ("settings",
      [ ("local_path", "deploy/local_settings.py.template");
        ("remote_path", proj_path e +:+ "/" +:+ proj_app e +:+ "/local_settings.py") ]) ].

(** [db_pass()] (lines 326-332) *)
Definition db_pass_ : M (option string) :=
  e <- get_env ;;
  (if negb (truthy (db_pass e))
   then p <- getpass "Enter the database password: " ;; modify (set_db_pass (Some p))
   else ret tt) ;;
  e <- get_env ;;
  ret (db_pass e).

(** What [upload_template_and_reload] has in hand at line 277. *)
Record template_state := {
  local_path : string;
  remote_path : string;
  reload_command : option string;
  remote_data : string;
  local_data : string;
}.

(** Lines 261-263: the template next to the current directory, or else
    next to the fabfile. *)
Definition locate_template (lp : string) : M string :=
  here <- ask (fun _ => ReqLocalExists lp) as_bool ;;
  if here then ret lp
  else project_root <- ask (fun _ => ReqFabfileDir) as_str ;;
       ret (default EmptyString (join project_root (Some lp))).

(** Lines 266-269: the remote copy, or the empty string. *)
Definition fetch_remote (rp : string) : M string :=
  there <- exists_ rp ;;
  if there then run ("cat " +:+ rp) else ret EmptyString.

(** Lines 270-276: the local template, escaped and rendered with [env]. *)
Definition render_local (lp : string) : M string :=
  text <- ask (fun _ => ReqReadLocal lp) as_str ;;
  let escaped := escape_percent text in
  (if contains "%(db_pass)s" escaped
   then p <- db_pass_ ;; modify (set_db_pass p)
   else ret tt) ;;
  format_env escaped.

(** Lines 259-276: the descriptor, the remote copy and the rendering of the
    local template. *)
Definition read_template (name : string) : M template_state :=
  ts <- get_templates ;;
  match lookup_template name ts with
  | None => raise "KeyError"
  | Some template =>
      match assoc "local_path" template, assoc "remote_path" template with
      | Some lp, Some rp =>
          lp <- locate_template lp ;;
          remote <- fetch_remote rp ;;
          rendered <- render_local lp ;;
          ret {| local_path := lp; remote_path := rp;
                 reload_command := assoc "reload_command" template;
                 remote_data := remote; local_data := rendered |}
      | _, _ => raise "KeyError"
      end
  end.

(** Lines 277-282: compare, and upload and reload on a difference. *)
Definition push_template (t : template_state) : M unit :=
  if String.eqb (clean (remote_data t)) (clean (local_data t)) then ret tt
  else
    _ <- ask (fun e => ReqUploadTemplate (local_path t) (remote_path t) (env_item e)
                         false false) returned ;;
    if truthy (reload_command t)
    then _ <- run (str_opt (reload_command t)) ;; ret tt
    else ret tt.

Definition upload_template_and_reload (name : string) : M unit :=
  t <- read_template name ;;
  push_template t.

Definition rsync_upload : M unit :=
  e <- get_env ;;
  _ <- ask (fun _ => ReqRsync (proj_path e)
              ["*.pyc"; "*.pyo"; "*.db"; ".DS_Store"; ".coverage";
               "local_settings.py"; "/static"; "/.git"; "/.hg"]) returned ;;
  ret tt.

Definition vcs_upload : M unit :=
  e <- get_env ;;
  if String.eqb (deploy_tool e) "git" then
    let remote := "ssh://" +:+ user e +:+ "@" +:+ str_opt (host_string e) +:+ repo_path e in
    there <- exists_ (repo_path e) ;;
    (if there then ret tt
     else _ <- run ("mkdir -p " +:+ repo_path e) ;;
          _ <- with_cd (repo_path e) (run "git init --bare") ;;
          ret tt) ;;
    local_ ("git push -f " +:+ remote +:+ " master") ;;
    with_cd (repo_path e)
      (_ <- run ("GIT_WORK_TREE=" +:+ proj_path e +:+ " git checkout -f master") ;;
       _ <- run ("GIT_WORK_TREE=" +:+ proj_path e +:+ " git reset --hard") ;;
       ret tt)
  else if String.eqb (deploy_tool e) "hg" then
    abort "Mercurial is not currently supported" []
  else ret tt.

Definition DQ : string := String (ascii_of_nat 34) EmptyString.

(** [python(code, show)] (lines 364-378) *)
Definition python (code : string) : M string :=
  e <- get_env ;;
  let setup := "import os;os.environ['DJANGO_SETTINGS_MODULE']='" +:+ proj_app e
               +:+ ".settings';import django;django.setup();" in
  let full_code := "python -c " +:+ DQ +:+ setup +:+ replace_char "`" "\\`" code +:+ DQ in
  project (run full_code).

(** [manage(command)] *)
Definition manage (command : string) : M string :=
  e <- get_env ;;
  run (manage_cmd e +:+ " " +:+ command).

(** ** Install and configure (lines 401-586)

    [create] and [remove] are cut where the comments of the source cut
    them.  The pieces that only use the project's names take the
    configuration as an argument: nothing ever changes it. *)

(** [if obj: abort(msg % obj[key])] *)
Definition abort_if_found (r : option struct) (msg key : string) : M unit :=
  match r with
  | Some obj => if found r then v <- item obj key ;; abort msg [v] else ret tt
  | None => ret tt
  end.

Definition static_name (c : Config) : string := proj_name c +:+ "_static".

(** Set up virtualenv (lines 449-459) *)
Definition replace_question (c : Config) : string :=
  "Virtualenv already exists in host server: " +:+ proj_name c
  +:+ String LF "Would you like to replace it?".

Definition create_virtualenv : M unit :=
  e <- get_env ;;
  _ <- run ("mkdir -p " +:+ venv_home e) ;;
  with_cd (venv_home e)
    (there <- exists_ (proj_name e) ;;
     (if there then
        yes <- confirm (replace_question e) ;;
        if yes then _ <- run ("rm -rf " +:+ proj_name e) ;; ret tt
        else raise "TypeError"      (* [abort()] without its argument *)
      else ret tt) ;;
     _ <- run ("virtualenv " +:+ proj_name e) ;;
     _ <- run ("touch " +:+ proj_name e +:+ "/lib/python2.7/sitecustomize.py") ;;
     ret tt).

(** What [create_virtualenv] asks the host and the operator when the
    virtualenv is already there. *)
Definition mkdir_request (e : Env) : request :=
  ReqRun (cwd e) (command_prefixes e) ("mkdir -p " +:+ venv_home e).
Definition venv_request (e : Env) : request :=
  ReqExists (venv_home e :: cwd e) (command_prefixes e) (proj_name e).
Definition replace_request (e : Env) : request := ReqConfirm (replace_question e).
Definition clear_request (e : Env) : request :=
  ReqRun (venv_home e :: cwd e) (command_prefixes e) ("rm -rf " +:+ proj_name e).

(** Database (lines 467-475) *)
Definition create_database (e : Config) (ssn : string) : M unit :=
  db_user <- get_webf_obj ssn "db_user" (VStr (proj_name e)) None ;;
  abort_if_found db_user "Database user %s already exists." "username" ;;
  db <- get_webf_obj ssn "db" (VStr (proj_name e)) None ;;
  abort_if_found db "Databse %s already exists." "name" ;;
  e1 <- get_env ;;
  (match db_pass e1 with
   | None => p <- db_pass_ ;; modify (set_db_pass p)
   | Some _ => ret tt
   end) ;;
  e2 <- get_env ;;
  _ <- rpc "create_db" [VStr ssn; VStr (proj_name e); VStr "postgresql"; of_opt (db_pass e2)] ;;
  ret tt.

(** Custom app (lines 478-481) *)
Definition create_custom_app (e : Config) (ssn : string) : M unit :=
  app <- get_webf_obj ssn "app" (VStr (proj_name e)) None ;;
  abort_if_found app "App %s already exists." "name" ;;
  _ <- rpc "create_app" [VStr ssn; VStr (proj_name e); VStr "custom_app_with_port";
                         VBool true; VStr EmptyString] ;;
  ret tt.

(** Static app (lines 484-489) *)
Definition create_static_app (e : Config) (ssn : string) : M unit :=
  static_app <- get_webf_obj ssn "app" (VStr (static_name e)) None ;;
  abort_if_found static_app "Static app %s already exists." "name" ;;
  _ <- rpc "create_app" [VStr ssn; VStr (static_name e); VStr "symlink54"; VBool false;
                         VStr (proj_path e +:+ "/static")] ;;
  ret tt.

(** Domain and subdomain (lines 492-495) *)
Definition create_domain (e : Config) (ssn : string) : M unit :=
  dom <- get_webf_obj ssn "domain" (of_opt (live_domain e)) (live_subdomain e) ;;
  (if found dom then abort "Domain %s already exists." [of_opt (live_host e)] else ret tt) ;;
  _ <- rpc "create_domain" [VStr ssn; of_opt (live_domain e); of_opt (live_subdomain e)] ;;
  ret tt.

(** Site record (lines 498-503) *)
Definition create_site (e : Config) (ssn : string) : M unit :=
  site <- get_webf_obj ssn "website" (VStr (proj_name e)) None ;;
  abort_if_found site "Website: %s already exists." "name" ;;
  _ <- rpc "create_website"
         [VStr ssn; VStr (proj_name e); of_opt (host_string e); VBool false;
          VList [of_opt (live_host e)];
          VList [VStr (proj_name e); VStr "/"];
          VList [VStr (static_name e); VStr "/static"]] ;;
  ret tt.

(** Upload project files (lines 507-510) *)
Definition upload_project : M unit :=
  e <- get_env ;;
  if existsb (String.eqb (deploy_tool e)) vcs_tools then vcs_upload else rsync_upload.

(** Install project-specific requirements and bootstrap the DB
    (lines 514-538) *)
Definition install_and_bootstrap : M unit :=
  e <- get_env ;;
  upload_template_and_reload "settings" ;;
  project
    ((if truthy (reqs_path e)
      then _ <- pip ("-r " +:+ proj_path e +:+ "/" +:+ str_opt (reqs_path e)) ;; ret tt
      else ret tt) ;;
     _ <- pip "gunicorn setproctitle psycopg2 django-compressor python-memcached" ;;
     (* Bootstrap the DB *)
     _ <- manage "createdb --noinput --nodata" ;;
     (match live_host e with
      | None => raise "TypeError"   (* [str + None] *)
      | Some host =>
          _ <- python ("from django.conf import settings;"
                       +:+ "from django.contrib.sites.models import Site;"
                       +:+ "site, _ = Site.objects.get_or_create(id=settings.SITE_ID);"
                       +:+ "site.domain = '" +:+ host +:+ "';"
                       +:+ "site.save();") ;;
          ret tt
      end) ;;
     (if truthy (admin_pass e)
      then _ <- python ("from django.contrib.auth import get_user_model;"
                        +:+ "User = get_user_model();"
                        +:+ "u, _ = User.objects.get_or_create(username='admin');"
                        +:+ "u.is_staff = u.is_superuser = True;"
                        +:+ "u.set_password('" +:+ str_opt (admin_pass e) +:+ "');"
                        +:+ "u.save();") ;;
           ret tt
      else ret tt)).

Definition create : M bool :=
  e <- get_env ;;
  create_virtualenv ;;
  (* Create elements with the Webfaction API *)
  ssn <- get_webf_session ;;
  create_database e ssn ;;
  create_custom_app e ssn ;;
  create_static_app e ssn ;;
  create_domain e ssn ;;
  create_site e ssn ;;
  upload_project ;;
  install_and_bootstrap ;;
  ret true.

(** [obj = get_webf_obj(...)] and [if obj: del_webf_obj(...)]
    (lines 553-555, 556-558, 562-564, 565-567, 568-570) *)
Definition remove_if_found (ssn ty : string) (name : pyval) (sub : option string)
    (args : list pyval) : M unit :=
  obj <- get_webf_obj ssn ty name sub ;;
  if found obj then _ <- del_webf_obj ssn ty name args ;; ret tt else ret tt.

(** Lines 559-561: the main app is deleted under the name the API gave. *)
Definition remove_main_app (e : Config) (ssn : string) : M unit :=
  main_app <- get_webf_obj ssn "app" (VStr (proj_name e)) None ;;
  match main_app with
  | Some obj =>
      if found main_app
      then name <- item obj "name" ;; _ <- del_webf_obj ssn "app" name [] ;; ret tt
      else ret tt
  | None => ret tt
  end.

(** Lines 571-573 *)
Definition cron_line (c : Config) (n : Z) : string :=
  "*/" +:+ pretty n +:+ " * * * * " +:+ manage_cmd c +:+ " poll_twitter".

Definition remove_cronjob (e : Config) (ssn : string) : M unit :=
  match twitter_period e with
  | Some n => _ <- rpc "delete_cronjob" [VStr ssn; VStr (cron_line e n)] ;; ret tt
  | None => ret tt
  end.

(** [if exists(path): run(command)] *)
Definition run_if_exists (path command : string) : M unit :=
  there <- exists_ path ;;
  if there then _ <- run command ;; ret tt else ret tt.

Fixpoint remove_templates (ts : list (string * list (string * string))) : M unit :=
  match ts with
  | [] => ret tt
  | (_, template) :: rest =>
      match assoc "remote_path" template with
      | None => raise "KeyError"
      | Some rp => run_if_exists rp ("rm " +:+ rp) ;; remove_templates rest
      end
  end.

(** Delete files/folders, update supervisor (lines 576-586) *)
Definition remove_files : M unit :=
  e <- get_env ;;
  run_if_exists (venv_path e) ("rm -rf " +:+ venv_path e) ;;
  run_if_exists (repo_path e) ("rm -rf " +:+ repo_path e) ;;
  ts <- get_templates ;;
  remove_templates ts ;;
  _ <- run "supervisorctl update" ;;
  ret tt.

Definition remove : M unit :=
  e <- get_env ;;
  (* Delete Webfaction API objects *)
  ssn <- get_webf_session ;;
  remove_if_found ssn "website" (VStr (proj_name e)) None [of_opt (host_string e)] ;;
  remove_if_found ssn "domain" (of_opt (live_domain e)) (live_subdomain e)
    [of_opt (live_subdomain e)] ;;
  remove_main_app e ssn ;;
  remove_if_found ssn "app" (VStr (static_name e)) None [] ;;
  remove_if_found ssn "db" (VStr (proj_name e)) None [VStr "postgresql"] ;;
  remove_if_found ssn "db_user" (VStr (proj_name e)) None [VStr "postgresql"] ;;
  remove_cronjob e ssn ;;
  remove_files.

(** ** The order of the calls to the control panel

    What [create] and [remove] do with the control panel, step by step: a
    check that stops the run when the object is there, a creation that
    makes the same check first, a sweep that deletes the object when it is
    there, a plain call. *)
Inductive step :=
| Check (ty : string) (name : pyval) (sub : option string) (msg : string)
| Create (ty : string) (name : pyval) (sub : option string) (msg : string) (method : string)
| Sweep (ty : string) (name : pyval) (sub : option string) (args : list pyval)
| Call (method : string) (name : pyval).

Definition create_steps (c : Config) : list step :=
  [ Check "db_user" (VStr (proj_name c)) None "Database user %s already exists.";
    Create "db" (VStr (proj_name c)) None "Databse %s already exists." "create_db";
    Create "app" (VStr (proj_name c)) None "App %s already exists." "create_app";
    Create "app" (VStr (static_name c)) None "Static app %s already exists." "create_app";
    Create "domain" (of_opt (live_domain c)) (live_subdomain c) "Domain %s already exists."
      "create_domain";
    Create "website" (VStr (proj_name c)) None "Website: %s already exists."
      "create_website" ].

Definition remove_sweeps (c : Config) : list step :=
  [ Sweep "website" (VStr (proj_name c)) None [of_opt (host_string c)];
    Sweep "domain" (of_opt (live_domain c)) (live_subdomain c) [of_opt (live_subdomain c)];
    Sweep "app" (VStr (proj_name c)) None [];
    Sweep "app" (VStr (static_name c)) None [];
    Sweep "db" (VStr (proj_name c)) None [VStr "postgresql"];
    Sweep "db_user" (VStr (proj_name c)) None [VStr "postgresql"] ].

Definition remove_steps (c : Config) : list step :=
  remove_sweeps c ++
  match twitter_period c with
  | Some n => [Call "delete_cronjob" (VStr (cron_line c n))]
  | None => []
  end.

Definition list_request (ssn ty : string) : request :=
  ReqRpc ("list_" +:+ ty +:+ "s") [VStr ssn].

Definition delete_request (ssn ty : string) (name : pyval) (args : list pyval) : request :=
  ReqRpc ("delete_" +:+ ty) (VStr ssn :: name :: args).

Definition is_rpc_request (r : request) : bool :=
  match r with ReqRpc _ _ => true | _ => false end.

(** A request that does not go to the control panel's objects. *)
Definition off_panel (r : request) : Prop := is_rpc_request r = false.

(** An answer to a list call that the lookup cannot use. *)
Definition unusable (ty : string) (name : pyval) (sub : option string) (a : answer) : Prop :=
  match a with
  | AStructs l => exists exc, find_in ty name sub l = LookupRaises exc
  | _ => True
  end.

(** How the script stopped, if it did. *)
Definition stop_of {A} (o : outcome A) : option failure :=
  match o with Done _ => None | Stopped f => Some f end.

(** [follows ssn steps tr o]: the conversation [tr], ending in [o], takes
    the steps in order.  Requests that do not go to the control panel may
    come between two steps, and between the check and the call of a
    creation; the conversation may end early. *)
Inductive follows (ssn : string) : list step -> trace -> option failure -> Prop :=
| fl_end steps o :
    follows ssn steps [] o
| fl_skip steps r a rest o :
    off_panel r ->
    follows ssn steps rest o ->
    follows ssn steps ((r, a) :: rest) o
| fl_check_found ty name sub msg steps l obj args :
    find_in ty name sub l = Found obj ->
    follows ssn (Check ty name sub msg :: steps)
      [(list_request ssn ty, AStructs l)] (Some (Abort msg args))
| fl_check_free ty name sub msg steps l rest o :
    find_in ty name sub l = NotFound ->
    follows ssn steps rest o ->
    follows ssn (Check ty name sub msg :: steps)
      ((list_request ssn ty, AStructs l) :: rest) o
| fl_check_broken ty name sub msg steps a f :
    unusable ty name sub a ->
    follows ssn (Check ty name sub msg :: steps) [(list_request ssn ty, a)] (Some f)
| fl_create_found ty name sub msg m steps l obj args :
    find_in ty name sub l = Found obj ->
    follows ssn (Create ty name sub msg m :: steps)
      [(list_request ssn ty, AStructs l)] (Some (Abort msg args))
| fl_create_free ty name sub msg m steps l mid args a rest o :
    find_in ty name sub l = NotFound ->
    Forall (fun ev => off_panel (fst ev)) mid ->
    (a = AFail -> rest = []) ->
    follows ssn steps rest o ->
    follows ssn (Create ty name sub msg m :: steps)
      ((list_request ssn ty, AStructs l) :: mid
       ++ (ReqRpc m (VStr ssn :: name :: args), a) :: rest)%list o
| fl_create_stopped ty name sub msg m steps l mid f :
    find_in ty name sub l = NotFound ->
    Forall (fun ev => off_panel (fst ev)) mid ->
    follows ssn (Create ty name sub msg m :: steps)
      ((list_request ssn ty, AStructs l) :: mid) (Some f)
| fl_create_broken ty name sub msg m steps a f :
    unusable ty name sub a ->
    follows ssn (Create ty name sub msg m :: steps) [(list_request ssn ty, a)] (Some f)
| fl_sweep_absent ty name sub args steps l rest o :
    find_in ty name sub l = NotFound ->
    follows ssn steps rest o ->
    follows ssn (Sweep ty name sub args :: steps)
      ((list_request ssn ty, AStructs l) :: rest) o
| fl_sweep_present ty name sub args steps l obj a rest o :
    find_in ty name sub l = Found obj ->
    (a = AFail -> rest = []) ->
    follows ssn steps rest o ->
    follows ssn (Sweep ty name sub args :: steps)
      ((list_request ssn ty, AStructs l) :: (delete_request ssn ty name args, a) :: rest) o
| fl_sweep_broken ty name sub args steps a f :
    unusable ty name sub a ->
    follows ssn (Sweep ty name sub args :: steps) [(list_request ssn ty, a)] (Some f)
| fl_call method name steps args a rest o :
    (a = AFail -> rest = []) ->
    follows ssn steps rest o ->
    follows ssn (Call method name :: steps)
      ((ReqRpc method (VStr ssn :: name :: args), a) :: rest) o.

(** The steps of [create]: checks and creations, no creation through a
    list method. *)
Definition guard_step (s : step) : Prop :=
  match s with
  | Check _ _ _ _ => True
  | Create _ _ _ _ m => startswith "list_" m = false
  | _ => False
  end.

(** The steps of [remove]: sweeps, and the call that deletes the cron job. *)
Definition sweep_step (s : step) : Prop :=
  match s with
  | Sweep ty _ _ _ => ty <> "cronjob"
  | Call m _ => m = "delete_cronjob"
  | _ => False
  end.

(** The kind of object a step lists, if it lists any. *)
Definition listed (s : step) : option string :=
  match s with
  | Check ty _ _ _ | Create ty _ _ _ _ | Sweep ty _ _ _ => Some ty
  | Call _ _ => None
  end.

(** A call to the control panel carries the session id first. *)
Definition carries (ssn : string) (r : request) : Prop :=
  match r with
  | ReqRpc _ args => exists xs, args = VStr ssn :: xs
  | _ => True
  end.

Definition check_step (s : step) : Prop :=
  match s with Check _ _ _ _ => True | _ => False end.

(** A call that creates an object of the control panel. *)
Definition is_create_call (r : request) : bool :=
  match r with
  | ReqRpc m _ => startswith "create_" m
  | _ => false
  end.


(** A piece of script that makes the one call [method] for [name], after
    requests that do not go to the control panel, unless it stops before
    the call. *)
Definition one_call {W} (ssn method : string) (name : pyval)
    (x : outcome (unit * Env) * W * trace) : Prop :=
  exists mid, Forall (fun ev => off_panel (fst ev)) mid /\
    ((exists f, result_of x = Stopped f /\ trace_of x = mid) \/
     (exists args a,
        trace_of x = (mid ++ [(ReqRpc method (VStr ssn :: name :: args), a)])%list /\
        match a with
        | AFail => exists f, result_of x = Stopped f
        | _ => exists e2, result_of x = Done (tt, e2)
        end)).

(** The part of a run that takes the steps [ss]: when it returns, the rest
    of the conversation may follow any further steps; when it stops, the
    conversation ends there. *)
Definition takes {W A} (ssn : string) (ss : list step) (x : outcome A * W * trace) : Prop :=
  match result_of x with
  | Done _ =>
      forall rest tr2 o2, follows ssn rest tr2 o2 ->
                          follows ssn (ss ++ rest)%list (trace_of x ++ tr2)%list o2
  | Stopped f => forall rest, follows ssn (ss ++ rest)%list (trace_of x) (Some f)
  end.

(** ** Deployment (lines 593-604) *)

Definition pid_path (c : Config) : string := proj_path c +:+ "/gunicorn.pid".

Definition restart_command (c : Config) : string :=
  "supervisorctl restart gunicorn_" +:+ proj_name c.

Definition reload_all_command : string := "supervisorctl update".

(** The question [restart] asks the host. *)
Definition marker_request (e : Env) : request :=
  ReqExists (cwd e) (command_prefixes e) (pid_path e).

Definition restart : M unit :=
  e <- get_env ;;
  there <- exists_ (pid_path e) ;;
  if there then _ <- run (restart_command e) ;; ret tt
  else _ <- run reload_all_command ;; ret tt.

(** ** The other tasks *)

(** [backup(filename)] (lines 344-351) *)
Definition backup (filename : string) : M string :=
  e <- get_env ;;
  run ("pg_dump -U " +:+ proj_name e +:+ " -Fc " +:+ proj_name e +:+ " > " +:+ filename).

(** [restore(filename)] (lines 354-361) *)
Definition restore (filename : string) : M string :=
  e <- get_env ;;
  run ("pg_restore -U " +:+ proj_name e +:+ " -c -d " +:+ proj_name e +:+ " " +:+ filename).

(** [s.split("\n")[-1]] *)
Definition last_line (s : string) : string := List.last (split_on LF s) EmptyString.

(** [static()] (lines 381-386) *)
Definition static : M string :=
  out <- python ("from django.conf import settings;" +:+ "print(settings.STATIC_ROOT)") ;;
  ret (last_line out).

(** [install] (lines 401-435) *)
Definition install : M unit :=
  (* Install git *)
  ssn <- get_webf_session ;;
  e <- get_env ;;
  _ <- rpc "create_app" [VStr ssn; VStr "git_app"; VStr "git_230"; VBool false;
                         of_opt (password e)] ;;
  (* Install Python requirements *)
  _ <- run "easy_install-2.7 pip" ;;
  _ <- run "pip install -U pip virtualenv virtualenvwrapper supervisor" ;;
  (* Start supervisor *)
  let remote_path := "/home/" +:+ user e +:+ "/etc" in
  _ <- run ("mkdir -p " +:+ remote_path +:+ "/supervisor/conf.d") ;;
  let remote_path := remote_path +:+ "/supervisord.conf" in
  _ <- ask (fun e => ReqUploadTemplate "deploy/supervisord.conf.template" remote_path
                       (env_item e) false false) returned ;;
  _ <- run ("mkdir -p /home/" +:+ user e +:+ "/tmp") ;;
  _ <- run ("mkdir -p /home/" +:+ user e +:+ "/logs") ;;
  _ <- run "supervisord" ;;
  (* Set up virtualenv *)
  _ <- run ("mkdir -p " +:+ venv_home e) ;;
  let bashrc := "/home/" +:+ user e +:+ "/.bashrc" in
  _ <- run ("echo 'export WORKON_HOME=" +:+ venv_home e +:+ "' >> " +:+ bashrc) ;;
  _ <- run ("echo 'export VIRTUALENVWRAPPER_PYTHON=/usr/local/bin/python2.7' >> " +:+ bashrc) ;;
  _ <- run ("echo 'source $HOME/bin/virtualenvwrapper.sh' >> " +:+ bashrc) ;;
  (* Memcache (with 50 MB of RAM) *)
  _ <- run "memcached -d -m 50 -s $HOME/memcached.sock -P $HOME/memcached.pid" ;;
  ret tt.

(** [setup_twitter] (lines 669-684) *)
Definition setup_twitter : M unit :=
  e <- get_env ;;
  match twitter_period e with
  | Some n =>
      ssn <- get_webf_session ;;
      _ <- rpc "create_cronjob" [VStr ssn; VStr (cron_line e n)] ;;
      _ <- manage "poll_twitter" ;;
      ret tt
  | None => abort "TWITTER_PERIOD not set correctly in deployment settings." []
  end.

(** [s.rsplit("/", 1)[0]]: what stands before the last slash, or all of
    [s] when it has none. *)
Definition rsplit_head (s : string) : string :=
  match rev (split_on "/" s) with
  | _ :: (_ :: _) as init => join_with "/" (rev init)
  | _ => s
  end.

(** The body of the [with update_changed_requirements()] block of
    [rollback] (lines 698-711). *)
Definition revert_files : M unit :=
  e <- get_env ;;
  if existsb (String.eqb (deploy_tool e)) vcs_tools then
    with_cd (repo_path e)
      (if String.eqb (deploy_tool e) "git" then
         _ <- run ("GIT_WORK_TREE=" +:+ proj_path e +:+ " git checkout -f "
                   +:+ "`cat " +:+ proj_path e +:+ "/last.commit`") ;;
         ret tt
       else if String.eqb (deploy_tool e) "hg" then
         _ <- run "hg update -C `cat last.commit`" ;; ret tt
       else ret tt) ;;
    project
      (static_dir <- static ;;
       with_cd (default EmptyString (join static_dir (Some "..")))
         (_ <- run ("tar -xf " +:+ proj_path e +:+ "/static.tar") ;; ret tt))
  else
    with_cd (rsplit_head (proj_path e))
      (_ <- run ("rm -rf " +:+ proj_name e) ;;
       _ <- run ("tar -xf " +:+ proj_name e +:+ ".tar") ;;
       ret tt).

(** [rollback] (lines 687-714) *)
Definition rollback : M unit :=
  update_changed_requirements revert_files ;;
  e <- get_env ;;
  _ <- with_cd (proj_path e) (restore "last.db") ;;
  restart.

(** [deploy], lines 617-622: the project has to be there. *)
Definition create_question (c : Config) : string :=
  "Project does not exist in host server: " +:+ proj_name c
  +:+ String LF "Would you like to create it?".

Definition ensure_created : M unit :=
  e <- get_env ;;
  there <- exists_ (proj_path e) ;;
  if there then ret tt
  else
    yes <- confirm (create_question e) ;;
    if yes then _ <- create ;; ret tt
    else raise "TypeError".         (* [abort()] without its argument *)

(** [deploy], lines 625-642: backup current version of the project. *)
Definition backup_current : M unit :=
  e <- get_env ;;
  _ <- with_cd (proj_path e) (backup "last.db") ;;
  if existsb (String.eqb (deploy_tool e)) vcs_tools then
    with_cd (repo_path e)
      (if String.eqb (deploy_tool e) "git" then
         _ <- run ("git rev-parse HEAD > " +:+ proj_path e +:+ "/last.commit") ;; ret tt
       else if String.eqb (deploy_tool e) "hg" then
         _ <- run "hg id -i > last.commit" ;; ret tt
       else ret tt) ;;
    project
      (static_dir <- static ;;
       there <- exists_ static_dir ;;
       if there
       then _ <- run ("tar -cf static.tar --exclude='*.thumbnails' " +:+ static_dir) ;; ret tt
       else ret tt)
  else
    with_cd (default EmptyString (join (proj_path e) (Some "..")))
      (_ <- run ("tar -cf " +:+ proj_name e +:+ ".tar "
                 +:+ "--exclude='*.pyc' --exclude='*.pio' --exclude='*.thumbnails'"
                 +:+ " " +:+ proj_name e) ;;
       ret tt).

(** [deploy], lines 645-650: push the project under the requirements
    guard, then create the STATIC_ROOT. *)
Definition push_latest : M unit :=
  update_changed_requirements upload_project ;;
  static_dir <- static ;;
  _ <- run ("mkdir -p " +:+ static_dir) ;;
  ret tt.

(** ** Words for the statements about [get_webf_obj] *)

(** [item[key] == obj_name], for an item that has the key. *)
Definition matches (key : string) (obj_name : pyval) (item : struct) : bool :=
  match item !! key with
  | Some v => py_eqb v obj_name
  | None => false
  end.

(** [subdomain in obj["subdomains"]], for a list or a string of subdomains. *)
Definition has_subdomain (subdomain : string) (obj : struct) : bool :=
  match obj !! "subdomains" with
  | Some (VList l) => existsb (py_eqb (VStr subdomain)) l
  | Some (VStr s) => contains subdomain s
  | _ => false
  end.

(** A request that asks the operator for a password. *)
Definition is_getpass (r : request) : bool :=
  match r with ReqGetpass _ => true | _ => false end.

(** The prompts of [get_webf_session] and of [db_pass]. *)
Definition session_prompt (c : Config) : request :=
  ReqGetpass ("Enter Webfaction password for user " +:+ user c +:+ ": ").
Definition db_prompt : request := ReqGetpass "Enter the database password: ".

(** [env] inside [with project():]: the project directory inside the
    virtualenv directory, and the activation as a prefix. *)
Definition in_project (e : Env) : Env :=
  set_cwd (proj_path e :: venv_path e :: cwd e)
    (set_command_prefixes (("source " +:+ venv_path e +:+ "/bin/activate")
                           :: command_prefixes e) e).

(** The command of [python(code)]. *)
Definition python_command (c : Config) (code : string) : string :=
  "python -c " +:+ DQ
  +:+ ("import os;os.environ['DJANGO_SETTINGS_MODULE']='" +:+ proj_app c
       +:+ ".settings';import django;django.setup();")
  +:+ replace_char "`" "\\`" code +:+ DQ.

(** ** Words for the statements about the tasks *)

(** A call that creates or deletes the cron job carries the session and
    the cron line of the configuration, and nothing else. *)
Definition cron_call (c : Config) (r : request) : Prop :=
  match r with
  | ReqRpc m args =>
      m = "create_cronjob" \/ m = "delete_cronjob" ->
      exists n ssn, twitter_period c = Some n /\ args = [VStr ssn; VStr (cron_line c n)]
  | _ => True
  end.

(** A request of the login: the password prompt or the login itself. *)
Definition signs_in (r : request) : Prop :=
  match r with ReqGetpass _ | ReqLogin _ _ => True | _ => False end.

(** The one call [install] makes to the control panel. *)
Definition git_app_call (ssn : string) (pw : pyval) : request :=
  ReqRpc "create_app" [VStr ssn; VStr "git_app"; VStr "git_230"; VBool false; pw].

(** [e1] is [e] but for the two passwords. *)
Definition same_but_passwords (e e1 : Env) : Prop :=
  cfg e1 = cfg e /\ cwd e1 = cwd e /\ command_prefixes e1 = command_prefixes e.

(** A task that, when it returns, has changed nothing in [env] but the two
    passwords. *)
Definition keeps_env {A} (e : Env) (p : Prog (A * Env)) : Prop :=
  returns_only (fun ae => same_but_passwords e (snd ae)) p.

(** How a run that looks objects up in the control panel can stop: on a
    refused request, or on a list the lookup cannot read. *)
Definition lookup_failure (f : failure) : Prop :=
  match f with
  | CallFailed _ => True
  | Raise exc => exc = "KeyError" \/ exc = "TypeError"
  | _ => False
  end.

(** The messages [create] aborts with. *)
Definition create_messages : list string :=
  [ "Database user %s already exists."; "Databse %s already exists.";
    "App %s already exists."; "Static app %s already exists.";
    "Domain %s already exists."; "Website: %s already exists.";
    "Mercurial is not currently supported" ].

(** How [create] can stop. *)
Definition create_failure (f : failure) : Prop :=
  match f with
  | CallFailed _ => True
  | Raise exc => exc = "KeyError" \/ exc = "TypeError"
  | Abort msg _ => In msg create_messages
  | Unmodelled => False
  end.

(** The requests of the database dump and of its restoration. *)
Definition dump_request (e : Env) : request :=
  ReqRun (proj_path e :: cwd e) (command_prefixes e)
    ("pg_dump -U " +:+ proj_name e +:+ " -Fc " +:+ proj_name e +:+ " > " +:+ "last.db").

Definition restore_request (e : Env) : request :=
  ReqRun (proj_path e :: cwd e) (command_prefixes e)
    ("pg_restore -U " +:+ proj_name e +:+ " -c -d " +:+ proj_name e +:+ " " +:+ "last.db").

(** The questions of [deploy] about the project directory. *)
Definition project_request (e : Env) : request :=
  ReqExists (cwd e) (command_prefixes e) (proj_path e).
Definition create_request (e : Env) : request := ReqConfirm (create_question e).

(** [if exists(path): run(command)] on a host where [path] is there or
    not: what is asked and answered. *)
Definition checked_run (e : Env) (there : bool) (path command : string) : trace :=
  (ReqExists (cwd e) (command_prefixes e) path, ABool there)
  :: (if there then [(ReqRun (cwd e) (command_prefixes e) command, AStr EmptyString)] else []).

(** ** Words for the order of the calls *)

(** The calls to the control panel that satisfy [p], in the order they
    were made: the method and the argument after the session. *)
Fixpoint calls_of (p : request -> bool) (tr : trace) : list (string * pyval) :=
  match tr with
  | [] => []
  | (ReqRpc m args, _) :: rest =>
      if p (ReqRpc m args) then (m, nth 1 args VNone) :: calls_of p rest
      else calls_of p rest
  | _ :: rest => calls_of p rest
  end.

(** Any call whose method starts with [delete_]. *)
Definition is_delete_method (r : request) : bool :=
  match r with
  | ReqRpc m _ => startswith "delete_" m
  | _ => false
  end.

(** What the steps create, and what they delete, in order. *)
Fixpoint creations (ss : list step) : list (string * pyval) :=
  match ss with
  | [] => []
  | Create _ name _ _ m :: rest => (m, name) :: creations rest
  | _ :: rest => creations rest
  end.

Fixpoint deletions (ss : list step) : list (string * pyval) :=
  match ss with
  | [] => []
  | Sweep ty name _ _ :: rest => ("delete_" +:+ ty, name) :: deletions rest
  | Call m name :: rest => (m, name) :: deletions rest
  | _ :: rest => deletions rest
  end.

(** The steps of [create], with methods that create. *)
Definition creating_step (s : step) : Prop :=
  match s with
  | Check _ _ _ _ => True
  | Create _ _ _ _ m => startswith "create_" m = true
  | _ => False
  end.

End Fabfile.

(* ===================================================================== *)
(** * Worlds to run the scripts in                                       *)
(* ===================================================================== *)

Module Sim.
Import Text Script Fabfile.

(** A world that answers from a prepared list, and fails when the list is
    used up. *)
Definition scripted : handler (list answer) :=
  fun _ w =>
    match w with
    | [] => (AFail, [])
    | a :: rest => (a, rest)
    end.

(** A simulated host: the files on the remote side, the files next to the
    fabfile, what the control panel lists, and an operator who always gives
    the same answers. *)
Record world := {
  remote_files : gmap string string;
  local_files : gmap string string;
  fabfile_dir : string;
  panel : gmap string (list struct);     (* "list_dbs" to what it returns *)
  operator_confirms : bool;
  operator_password : string;
}.

Definition set_remote_files (fs : gmap string string) (w : world) : world :=
  {| remote_files := fs; local_files := local_files w; fabfile_dir := fabfile_dir w;
     panel := panel w; operator_confirms := operator_confirms w;
     operator_password := operator_password w |}.

(** A relative path is taken from the innermost [cd] directory. *)
Definition resolve (cwd : list string) (path : string) : string :=
  if startswith "/" path then path
  else match cwd with
       | [] => path
       | d :: _ => d +:+ "/" +:+ path
       end.

Fixpoint drop_chars (n : nat) (s : string) : string :=
  match n, s with
  | S k, String _ r => drop_chars k r
  | _, _ => s
  end.

(** The host.  [cat path] prints the file or fails; every other command
    succeeds in silence and leaves the files alone.  [upload_template]
    does what Fabric documents: it reads the local file, renders it with
    [text % context] and writes the result to the destination.  The
    control panel lists what [panel] holds and accepts every other call
    without changing. *)
Definition host : handler world :=
  fun r w =>
    match r with
    | ReqRun cwd _ command =>
        if startswith "cat " command then
          match remote_files w !! resolve cwd (drop_chars 4 command) with
          | Some text => (AStr text, w)
          | None => (AFail, w)
          end
        else (AStr EmptyString, w)
    | ReqExists cwd _ path =>
        (ABool (bool_decide (is_Some (remote_files w !! resolve cwd path))), w)
    | ReqUploadTemplate filename destination context _ _ =>
        match local_files w !! filename with
        | None => (AFail, w)
        | Some text =>
            match py_format text context with
            | FmtOk out => (AUnit, set_remote_files (<[destination := out]> (remote_files w)) w)
            | _ => (AFail, w)
            end
        end
    | ReqLocal _ => (AUnit, w)
    | ReqRsync _ _ => (AUnit, w)
    | ReqConfirm _ => (ABool (operator_confirms w), w)
    | ReqGetpass _ => (AStr (operator_password w), w)
    | ReqLocalExists path => (ABool (bool_decide (is_Some (local_files w !! path))), w)
    | ReqFabfileDir => (AStr (fabfile_dir w), w)
    | ReqReadLocal path =>
        match local_files w !! path with
        | Some text => (AStr text, w)
        | None => (AFail, w)
        end
    | ReqLogin _ _ => (AStr "session", w)
    | ReqRpc method _ =>
        if startswith "list_" method
        then (AStructs (default [] (panel w !! method)), w)
        else (AUnit, w)
    end.



(** A project to try things on. *)
Definition demo_config : Config :=
  {| admin_pass := None; user := "bob"; key_filename := None;
     live_subdomain := Some "www"; live_domain := Some "example.com";
     proj_app := "site"; proj_name := "demo"; deploy_tool := "rsync";
     reqs_path := Some "requirements.txt"; locale := "en_US.UTF-8";
     twitter_period := None; num_workers := "3"; secret_key := EmptyString;
     nevercache_key := EmptyString; host_string := Some "web1.example.com";
     others := ∅ |}.

(** The same project with no [REQUIREMENTS_PATH] in its settings. *)
Definition bare_config : Config :=
  {| admin_pass := None; user := "bob"; key_filename := None;
     live_subdomain := Some "www"; live_domain := Some "example.com";
     proj_app := "site"; proj_name := "demo"; deploy_tool := "rsync";
     reqs_path := None; locale := "en_US.UTF-8";
     twitter_period := None; num_workers := "3"; secret_key := EmptyString;
     nevercache_key := EmptyString; host_string := Some "web1.example.com";
     others := ∅ |}.

(** The same project deployed with git. *)
Definition git_config : Config :=
  {| admin_pass := None; user := "bob"; key_filename := None;
     live_subdomain := Some "www"; live_domain := Some "example.com";
     proj_app := "site"; proj_name := "demo"; deploy_tool := "git";
     reqs_path := Some "requirements.txt"; locale := "en_US.UTF-8";
     twitter_period := Some 5%Z; num_workers := "3"; secret_key := EmptyString;
     nevercache_key := EmptyString; host_string := Some "web1.example.com";
     others := ∅ |}.

Definition git_env : Env :=
  {| cfg := git_config; db_pass := Some "secret"; password := Some "pw";
     cwd := []; command_prefixes := [] |}.

Definition bare_env : Env :=
  {| cfg := bare_config; db_pass := Some "secret"; password := Some "pw";
     cwd := []; command_prefixes := [] |}.

(** A project with neither LIVE_DOMAIN nor LIVE_SUBDOMAIN. *)
Definition no_host_env : Env :=
  {| cfg := {| admin_pass := None; user := "bob"; key_filename := None;
               live_subdomain := None; live_domain := None;
               proj_app := "site"; proj_name := "demo"; deploy_tool := "rsync";
               reqs_path := Some "requirements.txt"; locale := "en_US.UTF-8";
               twitter_period := None; num_workers := "3"; secret_key := EmptyString;
               nevercache_key := EmptyString; host_string := Some "web1.example.com";
               others := ∅ |};
     db_pass := Some "secret"; password := Some "pw"; cwd := []; command_prefixes := [] |}.

(** [e] with REQUIREMENTS_PATH set to the empty string. *)
Definition set_reqs_empty (e : Env) : Env :=
  {| cfg := {| admin_pass := admin_pass e; user := user e; key_filename := key_filename e;
               live_subdomain := live_subdomain e; live_domain := live_domain e;
               proj_app := proj_app e; proj_name := proj_name e;
               deploy_tool := deploy_tool e; reqs_path := Some EmptyString;
               locale := locale e; twitter_period := twitter_period e;
               num_workers := num_workers e; secret_key := secret_key e;
               nevercache_key := nevercache_key e; host_string := host_string e;
               others := others e |};
     db_pass := db_pass e; password := password e; cwd := cwd e;
     command_prefixes := command_prefixes e |}.

Definition demo_env : Env :=
  {| cfg := demo_config; db_pass := Some "secret"; password := Some "pw";
     cwd := []; command_prefixes := [] |}.

(** The same host with a supervisor template that has a placeholder and a
    literal percent sign, written doubled as [upload_template] wants it. *)
Definition percent_world : world :=
  {| remote_files := ∅;
     local_files := {[ "deploy/supervisor.conf.template" := "; keeps 100%% of %(proj_name)s" ]};
     fabfile_dir := "/src"; panel := ∅; operator_confirms := false;
     operator_password := "typed" |}.

Definition demo_world : world :=
  {| remote_files := ∅; local_files := ∅; fabfile_dir := "/src";
     panel := ∅; operator_confirms := false; operator_password := "typed" |}.

(** A host where the gunicorn template names a port that [env] does not
    have. *)
Definition port_world : world :=
  {| remote_files := ∅;
     local_files := {[ "deploy/gunicorn.conf.py.template" := "bind = '127.0.0.1:%(gunicorn_port)s'" ]};
     fabfile_dir := "/src"; panel := ∅; operator_confirms := false;
     operator_password := "typed" |}.

(** A host with a gunicorn template that has a placeholder and no literal
    percent sign. *)
Definition plain_world : world :=
  {| remote_files := ∅;
     local_files := {[ "deploy/gunicorn.conf.py.template" := "proc_name = '%(proj_name)s'" ]};
     fabfile_dir := "/src"; panel := ∅; operator_confirms := false;
     operator_password := "typed" |}.

(** A host where the project's gunicorn has written its process id. *)
Definition running_world : world :=
  {| remote_files := {[ "/home/bob/webapps/demo/gunicorn.pid" := "4242" ]};
     local_files := ∅; fabfile_dir := "/src"; panel := ∅;
     operator_confirms := false; operator_password := "typed" |}.

(** A host with the template of the specification's example, a literal
    percent sign and a placeholder, as the gunicorn template. *)
Definition example_world : world :=
  {| remote_files := ∅;
     local_files := {[ "deploy/gunicorn.conf.py.template" := "100% done (%(user)s)" ]};
     fabfile_dir := "/src"; panel := ∅; operator_confirms := false;
     operator_password := "typed" |}.

(** A control panel that already has a database with the project's name. *)
Definition taken_world : world :=
  {| remote_files := ∅; local_files := ∅; fabfile_dir := "/src";
     panel := {[ "list_dbs" := [ {[ "name" := VStr "demo" ]} ] ]};
     operator_confirms := false; operator_password := "typed" |}.


End Sim.

(* ===================================================================== *)
(** * Facts about the text operations                                    *)
(* ===================================================================== *)

Module TextFacts.
Import Text.

Lemma append_cons (x : ascii) (a b : string) : String x a +:+ b = String x (a +:+ b).
Proof. reflexivity. Qed.

Lemma append_nil_l (b : string) : EmptyString +:+ b = b.
Proof. reflexivity. Qed.

Lemma append_assoc (a b c : string) : (a +:+ b) +:+ c = a +:+ (b +:+ c).
Proof.
  induction a as [|x a IH]; [reflexivity|].
  rewrite !append_cons, IH. reflexivity.
Qed.

Lemma append_nil_r (a : string) : a +:+ EmptyString = a.
Proof.
  induction a as [|x a IH]; [reflexivity|].
  rewrite append_cons, IH. reflexivity.
Qed.

Lemma rev_app_rev_app (s a b : string) :
  String.rev_app (String.rev_app s a) b = String.rev_app a (s +:+ b).
Proof.
  revert a b. induction s as [|c s IH]; intros a b; simpl.
  - reflexivity.
  - rewrite IH, append_cons. reflexivity.
Qed.

Lemma rev_rev_app (s : string) : String.rev (String.rev_app s EmptyString) = s.
Proof.
  unfold String.rev. rewrite rev_app_rev_app. simpl. apply append_nil_r.
Qed.

Definition all_word (s : string) : bool := forallb is_word (list_ascii_of_string s).

Lemma span_word_shape (s w rest : string) :
  span_word s = (w, rest) ->
  s = w +:+ rest /\ all_word w = true.
Proof.
  revert w rest. induction s as [|c s IH]; intros w rest H; simpl in H.
  - injection H as <- <-. split; reflexivity.
  - destruct (is_word c) eqn:Hc.
    + destruct (span_word s) as [w' rest'] eqn:E. injection H as <- <-.
      destruct (IH _ _ eq_refl) as [Hs Hw]. split; [now rewrite append_cons, <- Hs|].
      unfold all_word. simpl. rewrite Hc. exact Hw.
    + injection H as <- <-. split; reflexivity.
Qed.

Lemma placeholder_at_shape (s name rest : string) :
  placeholder_at s = Some (name, rest) ->
  s = String "(" (name +:+ String ")" (String "s" rest)) /\ all_word name = true.
Proof.
  unfold placeholder_at. intros H.
  destruct s as [|a s]; [discriminate|].
  destruct (span_word s) as [w r] eqn:E.
  apply span_word_shape in E as [-> Hw].
  destruct a as [[] [] [] [] [] [] [] []]; try discriminate.
  destruct w as [|c w]; [discriminate|].
  destruct r as [|a1 r]; [discriminate|].
  destruct a1 as [[] [] [] [] [] [] [] []]; try discriminate.
  destruct r as [|a2 r]; [discriminate|].
  destruct a2 as [[] [] [] [] [] [] [] []]; try discriminate.
  injection H as <- <-. split; [reflexivity | exact Hw].
Qed.

Lemma is_word_plain (c : ascii) :
  is_word c = true ->
  Ascii.eqb c "%" = false /\ Ascii.eqb c "(" = false /\ Ascii.eqb c ")" = false.
Proof.
  destruct c as [[] [] [] [] [] [] [] []]; vm_compute; intros H;
    try discriminate; repeat split.
Qed.

(** Escaping leaves the body of a placeholder alone. *)
Lemma escape_word (name tail : string) :
  all_word name = true ->
  (forall tail', escape_percent (String ")" (String "s" tail'))
                 = String ")" (String "s" (escape_percent tail'))) ->
  escape_percent (name +:+ String ")" (String "s" tail))
  = name +:+ String ")" (String "s" (escape_percent tail)).
Proof.
  intros Hw Hs. induction name as [|c name IH].
  - rewrite !append_nil_l. apply Hs.
  - unfold all_word in Hw. simpl in Hw. apply andb_true_iff in Hw as [Hc Hw].
    rewrite !append_cons. simpl.
    destruct (is_word_plain c Hc) as (-> & _ & _).
    f_equal. apply IH. exact Hw.
Qed.

Lemma escape_placeholder (name tail : string) :
  all_word name = true ->
  escape_percent (String "(" (name +:+ String ")" (String "s" tail)))
  = String "(" (name +:+ String ")" (String "s" (escape_percent tail))).
Proof.
  intros Hw. simpl. f_equal. apply escape_word; [exact Hw | reflexivity].
Qed.

(** The scanner reads a key of word characters up to its parenthesis. *)
Lemma format_key (m : mapping) (name rkey tail : string) :
  all_word name = true ->
  format_from m (InKey 0 rkey) (name +:+ String ")" tail)
  = match m (String.rev (String.rev_app name rkey)) with
    | Some v => format_from m (AfterKey v) tail
    | None => FmtKeyError (String.rev (String.rev_app name rkey))
    end.
Proof.
  revert rkey. induction name as [|c name IH]; intros rkey Hw.
  - reflexivity.
  - unfold all_word in Hw. simpl in Hw. apply andb_true_iff in Hw as [Hc Hw].
    rewrite append_cons. simpl.
    destruct (is_word_plain c Hc) as (_ & -> & ->).
    apply IH. exact Hw.
Qed.

Lemma format_placeholder (m : mapping) (name tail : string) :
  all_word name = true ->
  format_from m InText (String "%" (String "(" (name +:+ String ")" (String "s" tail))))
  = match m name with
    | Some v => fmt_app v (format_from m InText tail)
    | None => FmtKeyError name
    end.
Proof.
  intros Hw. simpl. rewrite format_key by exact Hw. rewrite rev_rev_app.
  destruct (m name); reflexivity.
Qed.

Lemma render_is_substitution (m : mapping) (t : string) :
  py_format (escape_percent t) m = substitute_spec m t.
Proof.
  unfold py_format.
  funelim (substitute_spec m t); try clear Heqcall.
  - reflexivity.
  - (* a placeholder *)
    match goal with
    | Hp : (if _ then _ else _) = Some _, IH : string -> _ |- _ =>
        rename Hp into Hat; pose proof (IH EmptyString) as IHrest; clear IH
    end.
    destruct (Ascii.eqb_spec c "%") as [->|]; [|discriminate].
    destruct p as [name rest]. simpl fst in *; simpl snd in *.
    pose proof (placeholder_at_shape _ _ _ Hat) as [-> Hw].
    change (escape_percent (String "%" ?x)) with
      (match placeholder_at x with
       | Some _ => String "%" (escape_percent x)
       | None => String "%" (String "%" (escape_percent x)) end).
    rewrite Hat. rewrite escape_placeholder by exact Hw.
    rewrite format_placeholder by exact Hw.
    destruct (m name); [|reflexivity]. rewrite IHrest. reflexivity.
  - (* any other character *)
    match goal with
    | Hp : (if _ then _ else _) = None, IH : format_from _ _ _ = _ |- _ =>
        rename Hp into Hat; rename IH into IHrest
    end.
    destruct (Ascii.eqb c "%") eqn:Hc.
    + apply Ascii.eqb_eq in Hc as ->. simpl. rewrite Hat. simpl.
      rewrite IHrest. reflexivity.
    + simpl. rewrite Hc. simpl. rewrite Hc, IHrest. reflexivity.
Qed.

Lemma substitute_spec_outcome (m : mapping) (t : string) :
  (exists out, substitute_spec m t = FmtOk out) \/
  (exists key, substitute_spec m t = FmtKeyError key /\ m key = None).
Proof.
  funelim (substitute_spec m t); try clear Heqcall.
  - left. eexists. reflexivity.
  - match goal with
    | IH : string -> _ |- _ => pose proof (IH EmptyString) as IHrest; clear IH
    end.
    destruct (m p.1) as [v|] eqn:Hm.
    + destruct IHrest as [[out ->] | [key [-> Hk]]].
      * left. eexists. reflexivity.
      * right. exists key. split; [reflexivity | exact Hk].
    + right. exists p.1. split; [reflexivity | exact Hm].
  - match goal with
    | IH : _ \/ _ |- _ => destruct IH as [[out ->] | [key [-> Hk]]]
    end.
    + left. eexists. reflexivity.
    + right. exists key. split; [reflexivity | exact Hk].
Qed.

(** ** [replace], [strip] and [clean] *)

Lemma replace_char_app (c : ascii) (by_ a b : string) :
  replace_char c by_ (a +:+ b) = replace_char c by_ a +:+ replace_char c by_ b.
Proof.
  induction a as [|x a IH]; [reflexivity|].
  rewrite append_cons. simpl. rewrite IH.
  destruct (Ascii.eqb x c); [now rewrite append_assoc | reflexivity].
Qed.

Lemma has_char_removed (c : ascii) (s : string) :
  has_char c (replace_char c EmptyString s) = false.
Proof.
  induction s as [|x s IH]; [reflexivity|]. simpl.
  destruct (Ascii.eqb x c) eqn:E; [exact IH|].
  simpl. rewrite IH. rewrite Ascii.eqb_sym, E. reflexivity.
Qed.

Lemma has_char_replace_other (c d : ascii) (s : string) :
  has_char c s = false -> has_char c (replace_char d EmptyString s) = false.
Proof.
  induction s as [|x s IH]; [reflexivity|]. simpl. intros H.
  apply orb_false_iff in H as [Hx Hs].
  destruct (Ascii.eqb x d); [now apply IH|].
  simpl. rewrite Hx. now apply IH.
Qed.

Lemma has_char_lstrip (c : ascii) (s : string) :
  has_char c s = false -> has_char c (lstrip s) = false.
Proof.
  induction s as [|x s IH]; [reflexivity|]. simpl. intros H.
  destruct (py_isspace x); [|exact H].
  apply orb_false_iff in H as [_ Hs]. now apply IH.
Qed.

Lemma has_char_rstrip (c : ascii) (s : string) :
  has_char c s = false -> has_char c (rstrip s) = false.
Proof.
  induction s as [|x s IH]; [reflexivity|]. simpl. intros H.
  apply orb_false_iff in H as [Hx Hs]. specialize (IH Hs).
  destruct (rstrip s) as [|y r].
  - destruct (py_isspace x); [reflexivity|]. simpl. now rewrite Hx.
  - simpl. rewrite Hx. exact IH.
Qed.

Lemma all_space_cons (x : ascii) (s : string) :
  all_space (String x s) = py_isspace x && all_space s.
Proof. reflexivity. Qed.

Lemma lstrip_all_space (s : string) : all_space s = true -> lstrip s = EmptyString.
Proof.
  induction s as [|x s IH]; [reflexivity|]. rewrite all_space_cons.
  intros H. apply andb_true_iff in H as [Hx Hs]. simpl. rewrite Hx. now apply IH.
Qed.

Lemma rstrip_all_space (s : string) : all_space s = true -> rstrip s = EmptyString.
Proof.
  induction s as [|x s IH]; [reflexivity|]. rewrite all_space_cons.
  intros H. apply andb_true_iff in H as [Hx Hs]. simpl. rewrite (IH Hs), Hx. reflexivity.
Qed.

Lemma rstrip_app_space (s w : string) :
  all_space w = true -> rstrip (s +:+ w) = rstrip s.
Proof.
  intros Hw. induction s as [|x s IH].
  - rewrite append_nil_l. now apply rstrip_all_space.
  - rewrite append_cons. simpl. rewrite IH. reflexivity.
Qed.

Lemma lstrip_app (s w : string) :
  lstrip (s +:+ w) = if all_space s then lstrip w else lstrip s +:+ w.
Proof.
  induction s as [|x s IH]; [reflexivity|].
  rewrite append_cons, all_space_cons. simpl.
  destruct (py_isspace x); [exact IH | reflexivity].
Qed.

Lemma strip_app_space (s w : string) :
  all_space w = true -> strip (s +:+ w) = strip s.
Proof.
  intros Hw. unfold strip. rewrite lstrip_app.
  destruct (all_space s) eqn:Hs.
  - rewrite (lstrip_all_space _ Hw), (lstrip_all_space _ Hs). reflexivity.
  - now apply rstrip_app_space.
Qed.

Lemma all_space_replace (c : ascii) (w : string) :
  all_space w = true -> all_space (replace_char c EmptyString w) = true.
Proof.
  induction w as [|x w IH]; [reflexivity|]. rewrite all_space_cons.
  intros H. apply andb_true_iff in H as [Hx Hw]. simpl.
  destruct (Ascii.eqb x c); [now apply IH|].
  rewrite all_space_cons, Hx. now apply IH.
Qed.

End TextFacts.

(* ===================================================================== *)
(** * Facts about scripts                                                *)
(* ===================================================================== *)

Module ScriptFacts.
Import Text Script Fabfile.

Local Open Scope list_scope.

Lemma exec_bind {W A B} (h : handler W) (p : Prog A) (f : A -> Prog B) (w : W) :
  exec h (bind p f) w =
  match exec h p w with
  | (Done a, w1, tr1) =>
      let '(o, w2, tr2) := exec h (f a) w1 in (o, w2, tr1 ++ tr2)
  | (Stopped e, w1, tr1) => (Stopped e, w1, tr1)
  end.
Proof.
  revert w. induction p as [a | e | r k IH]; intros w; simpl.
  - destruct (exec h (f a) w) as [[o w2] tr2]. reflexivity.
  - reflexivity.
  - destruct (h r w) as [a w1]. rewrite IH.
    destruct (exec h (k a) w1) as [[[x | e] w2] tr1].
    + destruct (exec h (f x) w2) as [[o w3] tr2]. reflexivity.
    + reflexivity.
Qed.

(** Running in a world is one of the conversations. *)
Lemma exec_runs {W A} (h : handler W) (p : Prog A) (w : W) :
  runs p (trace_of (exec h p w)) (result_of (exec h p w)).
Proof.
  revert w. induction p as [a | e | r k IH]; intros w; simpl.
  - constructor.
  - constructor.
  - destruct (h r w) as [a w1]. specialize (IH a w1).
    destruct (exec h (k a) w1) as [[o w2] tr]. constructor. exact IH.
Qed.

(** Every conversation happens in the world that answers from its list. *)
Lemma runs_scripted {A} (p : Prog A) (tr : trace) (o : outcome A) :
  runs p tr o ->
  forall rest, exec Sim.scripted p (map snd tr ++ rest) = (o, rest, tr).
Proof.
  induction 1 as [a | f | r k a tr o _ IH]; intros rest; simpl.
  - reflexivity.
  - reflexivity.
  - rewrite IH. reflexivity.
Qed.

Lemma commands_app (a b : trace) : commands (a ++ b) = commands a ++ commands b.
Proof.
  induction a as [|[r x] a IH]; [reflexivity|].
  simpl. destruct r; simpl; rewrite ?IH; reflexivity.
Qed.

Lemma uploads_app (a b : trace) : uploads (a ++ b) = uploads a ++ uploads b.
Proof.
  induction a as [|[r x] a IH]; [reflexivity|].
  simpl. destruct r; simpl; rewrite ?IH; reflexivity.
Qed.

Lemma rpcs_app (a b : trace) : rpcs (a ++ b) = rpcs a ++ rpcs b.
Proof.
  induction a as [|[r x] a IH]; [reflexivity|].
  simpl. destruct r; simpl; rewrite ?IH; reflexivity.
Qed.

End ScriptFacts.
Module MonadFacts.
Import Text Script Fabfile ScriptFacts.
Local Open Scope list_scope.
Local Open Scope script_scope.

Lemma exec_bindM {W A B} (h : handler W) (p : M A) (f : A -> M B) (e : Env) (w : W) :
  exec h (bindM p f e) w =
  match exec h (p e) w with
  | (Done (a, e1), w1, tr1) =>
      let '(o, w2, tr2) := exec h (f a e1) w1 in (o, w2, tr1 ++ tr2)
  | (Stopped s, w1, tr1) => (Stopped s, w1, tr1)
  end.
Proof.
  unfold bindM. rewrite exec_bind.
  destruct (exec h (p e) w) as [[[[a e1] | s] w1] tr1]; reflexivity.
Qed.

Lemma exec_ret {W A} (h : handler W) (a : A) (e : Env) (w : W) :
  exec h (ret a e) w = (Done (a, e), w, []).
Proof. reflexivity. Qed.

Lemma exec_stop {W A} (h : handler W) (f : failure) (e : Env) (w : W) :
  exec h (@stop A f e) w = (Stopped f, w, []).
Proof. reflexivity. Qed.

Lemma exec_raise {W A} (h : handler W) (x : string) (e : Env) (w : W) :
  exec h (@raise A x e) w = (Stopped (Raise x), w, []).
Proof. reflexivity. Qed.

Lemma exec_abort {W A} (h : handler W) (msg : string) (args : list pyval) (e : Env) (w : W) :
  exec h (@abort A msg args e) w = (Stopped (Abort msg args), w, []).
Proof. reflexivity. Qed.

Lemma exec_get_env {W} (h : handler W) (e : Env) (w : W) :
  exec h (get_env e) w = (Done (e, e), w, []).
Proof. reflexivity. Qed.

Lemma exec_modify {W} (h : handler W) (f : Env -> Env) (e : Env) (w : W) :
  exec h (modify f e) w = (Done (tt, f e), w, []).
Proof. reflexivity. Qed.

Lemma exec_ask {W A} (h : handler W) (r : Env -> request) (d : answer -> option A)
    (e : Env) (w : W) :
  exec h (ask r d e) w =
  match d (fst (h (r e) w)) with
  | Some x => (Done (x, e), snd (h (r e) w), [(r e, fst (h (r e) w))])
  | None => (Stopped (CallFailed (r e)), snd (h (r e) w), [(r e, fst (h (r e) w))])
  end.
Proof.
  unfold ask. simpl. destruct (h (r e) w) as [a w1]. simpl.
  destruct (d a); reflexivity.
Qed.

Lemma get_templates_eq (e : Env) : get_templates e = Ret (injected e, e).
Proof.
  unfold injected.
  replace ("supervisorctl update gunicorn_" +:+ proj_name e)
    with ("supervisorctl update gunicorn_" +:+ (proj_name e +:+ EmptyString))
    by now rewrite TextFacts.append_nil_r.
  vm_compute. reflexivity.
Qed.

Lemma exec_get_templates {W} (h : handler W) (e : Env) (w : W) :
  exec h (get_templates e) w = (Done (injected e, e), w, []).
Proof. rewrite get_templates_eq. reflexivity. Qed.

(** ** Scripts that only ask certain requests *)

Lemma only_weaken {A} (P Q : request -> Prop) (p : Prog A) :
  (forall r, P r -> Q r) -> issues_only P p -> issues_only Q p.
Proof. intros HPQ. induction 1; constructor; auto. Qed.

Lemma only_bind {A B} (P : request -> Prop) (p : Prog A) (f : A -> Prog B) :
  issues_only P p -> (forall a, issues_only P (f a)) -> issues_only P (bind p f).
Proof.
  intros Hp Hf. induction Hp as [a | x | r k Hr _ IH]; simpl.
  - apply Hf.
  - constructor.
  - constructor; [exact Hr | exact IH].
Qed.

Lemma only_bindM {A B} (P : request -> Prop) (p : M A) (f : A -> M B) (e : Env) :
  issues_only P (p e) -> (forall a e1, issues_only P (f a e1)) ->
  issues_only P (bindM p f e).
Proof. intros Hp Hf. unfold bindM. apply only_bind; [exact Hp | intros [a e1]; apply Hf]. Qed.

Lemma only_ret {A} (P : request -> Prop) (a : A) (e : Env) : issues_only P (ret a e).
Proof. constructor. Qed.

Lemma only_stop {A} (P : request -> Prop) (f : failure) (e : Env) :
  issues_only P (@stop A f e).
Proof. constructor. Qed.

Lemma only_ask {A} (P : request -> Prop) (r : Env -> request) (d : answer -> option A)
    (e : Env) :
  P (r e) -> issues_only P (ask r d e).
Proof. intros Hr. constructor; [exact Hr|]. intros a. destruct (d a); constructor. Qed.

Lemma only_trace {W A} (P : request -> Prop) (h : handler W) (p : Prog A) (w : W) :
  issues_only P p -> Forall (fun ev => P (fst ev)) (trace_of (exec h p w)).
Proof.
  intros Hp. revert w. induction Hp as [a | x | r k Hr _ IH]; intros w; simpl.
  - constructor.
  - constructor.
  - destruct (h r w) as [a w1]. specialize (IH a w1).
    destruct (exec h (k a) w1) as [[o w2] tr]. constructor; [exact Hr | exact IH].
Qed.

Lemma no_uploads (tr : trace) :
  Forall (fun ev => match fst ev with ReqUploadTemplate _ _ _ _ _ => False | _ => True end) tr ->
  uploads tr = [].
Proof.
  induction 1 as [|[r a] tr Hr _ IH]; [reflexivity|].
  destruct r; simpl in *; try exact IH. contradiction.
Qed.

Lemma no_rpcs (tr : trace) :
  Forall (fun ev => match fst ev with ReqRpc _ _ => False | _ => True end) tr ->
  rpcs tr = [].
Proof.
  induction 1 as [|[r a] tr Hr _ IH]; [reflexivity|].
  destruct r; simpl in *; try exact IH. contradiction.
Qed.

(** ** The context managers *)

Lemma env_eta (e : Env) :
  {| cfg := cfg e; db_pass := db_pass e; password := password e;
     cwd := cwd e; command_prefixes := command_prefixes e |} = e.
Proof. destruct e; reflexivity. Qed.

Lemma exec_with_cd {W A} (h : handler W) (path : string) (body : M A) (e : Env) (w : W) :
  exec h (with_cd path body e) w =
  match exec h (body (set_cwd (path :: cwd e) e)) w with
  | (Done (a, e1), w1, tr) => (Done (a, set_cwd (cwd e) e1), w1, tr)
  | (Stopped f, w1, tr) => (Stopped f, w1, tr)
  end.
Proof.
  unfold with_cd. rewrite exec_bindM, exec_get_env. cbn beta iota.
  rewrite exec_bindM, exec_modify. cbn beta iota. rewrite exec_bindM.
  destruct (exec h (body (set_cwd (path :: cwd e) e)) w) as [[[[a e1] | f] w1] tr];
    [|reflexivity].
  rewrite exec_bindM, exec_modify. cbn beta iota. rewrite exec_ret.
  cbn [app]. rewrite app_nil_r. reflexivity.
Qed.

Lemma exec_with_prefix {W A} (h : handler W) (c : string) (body : M A) (e : Env) (w : W) :
  exec h (with_prefix c body e) w =
  match exec h (body (set_command_prefixes (c :: command_prefixes e) e)) w with
  | (Done (a, e1), w1, tr) => (Done (a, set_command_prefixes (command_prefixes e) e1), w1, tr)
  | (Stopped f, w1, tr) => (Stopped f, w1, tr)
  end.
Proof.
  unfold with_prefix. rewrite exec_bindM, exec_get_env. cbn beta iota.
  rewrite exec_bindM, exec_modify. cbn beta iota. rewrite exec_bindM.
  destruct (exec h (body (set_command_prefixes (c :: command_prefixes e) e)) w)
    as [[[[a e1] | f] w1] tr]; [|reflexivity].
  rewrite exec_bindM, exec_modify. cbn beta iota. rewrite exec_ret.
  cbn [app]. rewrite app_nil_r. reflexivity.
Qed.

Lemma exec_virtualenv {W A} (h : handler W) (body : M A) (e : Env) (w : W) :
  exec h (virtualenv body e) w =
  match exec h (body (set_command_prefixes
                        (("source " +:+ venv_path e +:+ "/bin/activate") :: command_prefixes e)
                        (set_cwd (venv_path e :: cwd e) e))) w with
  | (Done (a, e1), w1, tr) =>
      (Done (a, set_cwd (cwd e) (set_command_prefixes (command_prefixes e) e1)), w1, tr)
  | (Stopped f, w1, tr) => (Stopped f, w1, tr)
  end.
Proof.
  unfold virtualenv. rewrite exec_bindM, exec_get_env. cbn beta iota.
  rewrite exec_with_cd, exec_with_prefix. cbn [cwd command_prefixes set_cwd cfg].
  destruct (exec h _ w) as [[[[a e1] | f] w1] tr]; reflexivity.
Qed.

Lemma exec_pip {W} (h : handler W) (packages : string) (e : Env) (w : W) :
  exec h (pip packages e) w =
  (match fst (h (pip_request packages e) w) with
   | AStr out => Done (out, e)
   | _ => Stopped (CallFailed (pip_request packages e))
   end, snd (h (pip_request packages e) w),
   [(pip_request packages e, fst (h (pip_request packages e) w))]).
Proof.
  unfold pip. rewrite exec_virtualenv. unfold run. rewrite exec_ask.
  cbn [cwd command_prefixes set_cwd set_command_prefixes cfg db_pass password].
  fold (pip_request packages e).
  destruct (h (pip_request packages e) w) as [a w1]. cbn [fst snd].
  destruct a; cbn beta iota delta [as_str]; try reflexivity.
  unfold set_cwd, set_command_prefixes.
  cbn [cwd command_prefixes cfg db_pass password].
  destruct e; reflexivity.
Qed.
End MonadFacts.

(* ===================================================================== *)
(** * The template renderer                                              *)
(* ===================================================================== *)

Module Renderer.
Import Text Script Fabfile ScriptFacts MonadFacts.
Local Open Scope list_scope.
Local Open Scope script_scope.

Lemma lookup_descriptor (e : Env) (name : string) (template : list (string * string)) :
  lookup_template name (injected e) = Some template ->
  exists lp rp, assoc "local_path" template = Some lp /\
                assoc "remote_path" template = Some rp.
Proof.
  unfold injected, lookup_template.
  destruct (String.eqb "supervisor" name);
    [intros [= <-]; eexists _, _; split; reflexivity|].
  destruct (String.eqb "gunicorn" name);
    [intros [= <-]; eexists _, _; split; reflexivity|].
  destruct (String.eqb "settings" name);
    [intros [= <-]; eexists _, _; split; reflexivity|].
  discriminate.
Qed.

Lemma harmless_trace (tr : trace) :
  Forall (fun ev => harmless (fst ev)) tr ->
  uploads tr = [] /\ commands tr = [] /\ rpcs tr = [].
Proof.
  induction 1 as [|[r a] tr Hr _ IH]; [repeat split|].
  destruct r; simpl in *; try exact IH; contradiction.
Qed.

Lemma locate_harmless (lp : string) (e : Env) : issues_only harmless (locate_template lp e).
Proof.
  unfold locate_template. apply only_bindM; [apply only_ask; exact I|].
  intros [] e1; [apply only_ret|].
  apply only_bindM; [apply only_ask; exact I|]. intros; apply only_ret.
Qed.

Lemma db_pass_harmless (e : Env) : issues_only harmless (db_pass_ e).
Proof.
  unfold db_pass_. apply only_bindM; [constructor|]. intros e0 e1.
  apply only_bindM.
  - destruct (negb _); [|apply only_ret].
    apply only_bindM; [apply only_ask; exact I|]. intros; constructor.
  - intros _ e2. apply only_bindM; [constructor|]. intros; apply only_ret.
Qed.

Lemma format_env_harmless (fmt : string) (e : Env) : issues_only harmless (format_env fmt e).
Proof.
  unfold format_env. apply only_bindM; [constructor|]. intros e0 e1.
  destruct (py_format _ _); constructor.
Qed.

Lemma render_harmless (lp : string) (e : Env) : issues_only harmless (render_local lp e).
Proof.
  unfold render_local. apply only_bindM; [apply only_ask; exact I|].
  intros text e1. apply only_bindM.
  - destruct (contains _ _); [|apply only_ret].
    apply only_bindM; [apply db_pass_harmless|]. intros; constructor.
  - intros _ e2. apply format_env_harmless.
Qed.

(** The one command of the read phase: printing the remote copy. *)
Lemma exec_fetch_remote {W} (h : handler W) (rp : string) (e : Env) (w : W) o w' tr :
  exec h (fetch_remote rp e) w = (o, w', tr) ->
  uploads tr = [] /\ rpcs tr = [] /\
  (commands tr = [] \/ commands tr = ["cat " +:+ rp]) /\
  match o with Done (_, e1) => e1 = e | Stopped _ => True end.
Proof.
  unfold fetch_remote, exists_, run. rewrite exec_bindM, exec_ask.
  destruct (h _ w) as [a w1]. cbn [fst snd].
  destruct a as [| [] | | |]; cbn beta iota delta [as_bool];
    try (intros [= <- <- <-]; cbn; tauto).
  rewrite exec_ask. destruct (h _ w1) as [a w2]. cbn [fst snd].
  destruct a; cbn beta iota delta [as_str]; intros [= <- <- <-]; cbn; tauto.
Qed.

Lemma harmless_exec {W A} (h : handler W) (p : Prog A) (w : W) o w' tr :
  issues_only harmless p -> exec h p w = (o, w', tr) ->
  uploads tr = [] /\ commands tr = [] /\ rpcs tr = [].
Proof.
  intros Hp He. apply harmless_trace.
  pose proof (only_trace harmless h p w Hp) as Ht. rewrite He in Ht. exact Ht.
Qed.

(** The read phase uploads nothing and runs at most [cat] of the remote
    path. *)
Lemma read_template_quiet {W} (h : handler W) (name : string) (e : Env) (w : W) o w' tr :
  exec h (read_template name e) w = (o, w', tr) ->
  uploads tr = [] /\ rpcs tr = [] /\
  match o with
  | Done (t, _) => commands tr = [] \/ commands tr = ["cat " +:+ remote_path t]
  | Stopped _ => True
  end.
Proof.
  unfold read_template. rewrite exec_bindM, exec_get_templates. cbn beta iota.
  destruct (lookup_template name (injected e)) as [template|] eqn:Hl.
  2:{ rewrite exec_raise. intros [= <- <- <-]. cbn. tauto. }
  destruct (lookup_descriptor _ _ _ Hl) as (lp & rp & -> & ->).
  rewrite exec_bindM.
  destruct (exec h (locate_template lp e) w) as [[[[lp' e1] | f] w1] tr1] eqn:E1;
    pose proof (harmless_exec _ _ _ _ _ _ (locate_harmless lp e) E1) as (U1 & C1 & R1).
  2:{ intros [= <- <- <-]. tauto. }
  rewrite exec_bindM.
  destruct (exec h (fetch_remote rp e1) w1) as [[[[remote e2] | f] w2] tr2] eqn:E2;
    pose proof (exec_fetch_remote _ _ _ _ _ _ _ E2) as (U2 & R2 & C2 & _).
  2:{ intros [= <- <- <-]. rewrite uploads_app, rpcs_app, U1, U2, R1, R2. tauto. }
  rewrite exec_bindM.
  destruct (exec h (render_local lp' e2) w2) as [[[[rendered e3] | f] w3] tr3] eqn:E3;
    pose proof (harmless_exec _ _ _ _ _ _ (render_harmless lp' e2) E3) as (U3 & C3 & R3).
  2:{ intros [= <- <- <-]. rewrite !uploads_app, !rpcs_app, U1, U2, U3, R1, R2, R3. tauto. }
  rewrite exec_ret. intros [= <- <- <-].
  rewrite !uploads_app, !rpcs_app, !commands_app, U1, U2, U3, R1, R2, R3, C1, C3.
  cbn [remote_path app uploads rpcs commands]. rewrite !app_nil_r. tauto.
Qed.


(** ** Comparing the two copies *)

Lemma unbroken_app (a b : string) : unbroken (a +:+ b) = unbroken a +:+ unbroken b.
Proof. unfold unbroken. now rewrite !TextFacts.replace_char_app. Qed.

Lemma clean_unbroken (s : string) : clean s = strip (unbroken s).
Proof. reflexivity. Qed.

Lemma unbroken_line_ending (sep : string) : In sep line_endings -> unbroken sep = EmptyString.
Proof. intros [<- | [<- | [<- | []]]]; reflexivity. Qed.

Lemma unbroken_join (sep : string) (lines : list string) :
  unbroken sep = EmptyString ->
  unbroken (join_with sep lines) = join_with EmptyString (map unbroken lines).
Proof.
  intros Hsep. induction lines as [|f rest IH]; [reflexivity|].
  destruct rest as [|g rest]; [reflexivity|].
  change (join_with sep (f :: g :: rest)) with (f +:+ sep +:+ join_with sep (g :: rest)).
  rewrite !unbroken_app, Hsep, IH. reflexivity.
Qed.

Lemma clean_trailing_space (s ws : string) :
  all_space ws = true -> clean (s +:+ ws) = clean s.
Proof.
  intros Hws. rewrite !clean_unbroken, unbroken_app.
  apply TextFacts.strip_app_space.
  unfold unbroken. now do 2 apply TextFacts.all_space_replace.
Qed.

Lemma clean_line_endings (lines : list string) (sep1 sep2 : string) :
  In sep1 line_endings -> In sep2 line_endings ->
  clean (join_with sep1 lines) = clean (join_with sep2 lines).
Proof.
  intros H1 H2. rewrite !clean_unbroken.
  rewrite !unbroken_join by now apply unbroken_line_ending. reflexivity.
Qed.

Lemma clean_has_no_break (s : string) :
  has_char LF (clean s) = false /\ has_char CR (clean s) = false.
Proof.
  unfold clean, strip. split.
  - apply TextFacts.has_char_rstrip, TextFacts.has_char_lstrip,
      TextFacts.has_char_replace_other, TextFacts.has_char_removed.
  - apply TextFacts.has_char_rstrip, TextFacts.has_char_lstrip, TextFacts.has_char_removed.
Qed.

(** ** Lines 277-282 *)

Lemma push_template_same {W} (h : handler W) (t : template_state) (e : Env) (w : W) :
  clean (remote_data t) = clean (local_data t) ->
  exec h (push_template t e) w = (Done (tt, e), w, []).
Proof. intros Hc. unfold push_template. rewrite Hc, String.eqb_refl. reflexivity. Qed.

Lemma push_template_differ {W} (h : handler W) (t : template_state) (e : Env) (w : W) :
  String.eqb (clean (remote_data t)) (clean (local_data t)) = false ->
  let up := ReqUploadTemplate (local_path t) (remote_path t) (env_item e) false false in
  let rl := ReqRun (cwd e) (command_prefixes e) (str_opt (reload_command t)) in
  exec h (push_template t e) w =
  match fst (h up w) with
  | AFail => (Stopped (CallFailed up), snd (h up w), [(up, AFail)])
  | a =>
      if truthy (reload_command t) then
        (match fst (h rl (snd (h up w))) with
         | AStr _ => Done (tt, e)
         | _ => Stopped (CallFailed rl)
         end, snd (h rl (snd (h up w))), [(up, a); (rl, fst (h rl (snd (h up w))))])
      else (Done (tt, e), snd (h up w), [(up, a)])
  end.
Proof.
  intros Hc up rl. unfold push_template. rewrite Hc.
  rewrite exec_bindM, exec_ask. fold up.
  destruct (h up w) as [a w1]. cbn [fst snd].
  destruct a; cbn beta iota delta [returned]; try reflexivity.
  all: destruct (truthy (reload_command t)); [|rewrite exec_ret; reflexivity].
  all: unfold run; rewrite exec_bindM, exec_ask; fold rl.
  all: destruct (h rl w1) as [a w2]; cbn [fst snd].
  all: destruct a; cbn beta iota delta [as_str]; try reflexivity.
Qed.


(** ** The rendering of the local template *)

Lemma exec_db_pass {W} (h : handler W) (e : Env) (w : W) o w' tr :
  exec h (db_pass_ e) w = (o, w', tr) ->
  match o with
  | Done (p, e1) => p = db_pass e1 /\ cfg e1 = cfg e
  | Stopped _ => True
  end.
Proof.
  unfold db_pass_. rewrite exec_bindM, exec_get_env. cbn beta iota.
  rewrite exec_bindM.
  destruct (negb (truthy (db_pass e))).
  - unfold getpass. rewrite exec_bindM, exec_ask.
    destruct (h _ w) as [a w1]. cbn [fst snd].
    destruct a; cbn beta iota delta [as_str]; try (intros [= <- <- <-]; exact I).
    rewrite exec_modify. cbn beta iota.
    rewrite exec_bindM, exec_get_env. cbn beta iota. rewrite exec_ret.
    intros [= <- <- <-]. split; reflexivity.
  - rewrite exec_ret. cbn beta iota.
    rewrite exec_bindM, exec_get_env. cbn beta iota. rewrite exec_ret.
    intros [= <- <- <-]. split; reflexivity.
Qed.

Lemma exec_format_env {W} (h : handler W) (fmt : string) (e : Env) (w : W) :
  exec h (format_env fmt e) w =
  (match py_format fmt (env_item e) with
   | FmtOk s => Done (s, e)
   | FmtKeyError _ => Stopped (Raise "KeyError")
   | FmtValueError => Stopped (Raise "ValueError")
   | FmtOther => Stopped Unmodelled
   end, w, []).
Proof.
  unfold format_env. rewrite exec_bindM, exec_get_env. cbn beta iota.
  destruct (py_format fmt (env_item e)); reflexivity.
Qed.

(** What the renderer hands on is the one-pass substitution of the text it
    read, under [env] as it is after the password prompt. *)
Lemma render_local_result {W} (h : handler W) (lp : string) (e : Env) (w : W) s e1 w1 tr :
  exec h (render_local lp e) w = (Done (s, e1), w1, tr) ->
  exists text, In (ReqReadLocal lp, AStr text) tr /\
               substitute_spec (env_item e1) text = FmtOk s.
Proof.
  unfold render_local. rewrite exec_bindM, exec_ask.
  destruct (h _ w) as [a w0]. cbn [fst snd].
  destruct a as [| | text | |]; cbn beta iota delta [as_str]; try discriminate.
  rewrite exec_bindM.
  destruct (exec h ((if contains "%(db_pass)s" (escape_percent text)
                     then bindM db_pass_ (fun p => modify (set_db_pass p))
                     else ret tt) e) w0) as [[[[[] e2] | f] w2] tr2] eqn:E2;
    [|discriminate].
  rewrite exec_format_env, TextFacts.render_is_substitution.
  destruct (substitute_spec (env_item e2) text) as [out| | |] eqn:Hs; try discriminate.
  intros [= <- <- <- <-]. exists text. split; [left; reflexivity | exact Hs].
Qed.

(** C2: the substitution step of the renderer, [% env] applied to the
    escaped template, is the one-pass substitution of the specification:
    every placeholder [%(name)s] is replaced by the value of [name], and
    every other character, a literal [%] included, comes out unchanged (a
    missing name is the only way to fail).  The text the renderer compares
    and the example of the specification follow: [100% done (%(user)s)]
    with [user=bob] renders to [100% done (bob)]. *)
Theorem escaping_keeps_percent :
  (forall (m : mapping) (t : string),
     py_format (escape_percent t) m = substitute_spec m t) /\
  (forall (m : mapping) (t : string),
     (exists out, py_format (escape_percent t) m = FmtOk out) \/
     (exists key, py_format (escape_percent t) m = FmtKeyError key /\ m key = None)) /\
  (forall W (h : handler W) (lp : string) (e : Env) (w : W) s e1 w1 tr,
     exec h (render_local lp e) w = (Done (s, e1), w1, tr) ->
     exists text, In (ReqReadLocal lp, AStr text) tr /\
                  substitute_spec (env_item e1) text = FmtOk s) /\
  (forall m : mapping, m "user" = Some "bob" ->
     py_format (escape_percent "100% done (%(user)s)") m = FmtOk "100% done (bob)").
Proof.
  split; [exact TextFacts.render_is_substitution|].
  split; [intros m t; rewrite TextFacts.render_is_substitution;
          apply TextFacts.substitute_spec_outcome|].
  split; [intros W h lp e w s e1 w1 tr; apply render_local_result|].
  intros m Hm. unfold py_format. lazy. rewrite Hm. reflexivity.
Qed.

Lemma escaping_keeps_percent_witness :
  py_format (escape_percent "100% done (%(user)s)")
    (fun key => if String.eqb key "user" then Some "bob" else None)
  = FmtOk "100% done (bob)".
Proof.
  apply (proj2 (proj2 (proj2 escaping_keeps_percent))). reflexivity.
Defined.

(** The comparison of the renderer: the rendered text and the remote copy
    are compared after [clean] (line breaks deleted, surrounding
    whitespace stripped).  The
    read phase uploads nothing and runs nothing but [cat] of the remote
    path.  When the cleaned texts are equal nothing more happens; when they
    differ, [upload_template] is called for the template, the remote path
    and [env], and then the reload command is run if the descriptor names
    one.  Texts that differ only in trailing whitespace, or only in the
    line-ending style, are equal after [clean]. *)
Theorem upload_only_on_change :
  (forall W (h : handler W) (w : W) (e : Env) (name : string),
     let rd := exec h (read_template name e) w in
     let all := exec h (upload_template_and_reload name e) w in
     uploads (trace_of rd) = [] /\
     match result_of rd with
     | Stopped f => all = (Stopped f, world_of rd, trace_of rd)
     | Done (t, e1) =>
         (commands (trace_of rd) = [] \/
          commands (trace_of rd) = ["cat " +:+ remote_path t]) /\
         let w1 := world_of rd in
         let up := ReqUploadTemplate (local_path t) (remote_path t) (env_item e1)
                     false false in
         let rl := ReqRun (cwd e1) (command_prefixes e1) (str_opt (reload_command t)) in
         all =
         if String.eqb (clean (remote_data t)) (clean (local_data t))
         then (Done (tt, e1), w1, trace_of rd)
         else
           match fst (h up w1) with
           | AFail => (Stopped (CallFailed up), snd (h up w1), trace_of rd ++ [(up, AFail)])
           | a =>
               if truthy (reload_command t) then
                 (match fst (h rl (snd (h up w1))) with
                  | AStr _ => Done (tt, e1)
                  | _ => Stopped (CallFailed rl)
                  end, snd (h rl (snd (h up w1))),
                  trace_of rd ++ [(up, a); (rl, fst (h rl (snd (h up w1))))])
               else (Done (tt, e1), snd (h up w1), trace_of rd ++ [(up, a)])
           end
     end) /\
  (forall (t : template_state) (ws : string),
     all_space ws = true ->
     remote_data t = local_data t +:+ ws \/ local_data t = remote_data t +:+ ws ->
     String.eqb (clean (remote_data t)) (clean (local_data t)) = true) /\
  (forall (t : template_state) (lines : list string) (sep1 sep2 : string),
     In sep1 line_endings -> In sep2 line_endings ->
     remote_data t = join_with sep1 lines -> local_data t = join_with sep2 lines ->
     String.eqb (clean (remote_data t)) (clean (local_data t)) = true).
Proof.
  split; [|split].
  - intros W h w e name rd all.
    pose proof (read_template_quiet h name e w) as Hq.
    subst all. unfold upload_template_and_reload. rewrite exec_bindM.
    subst rd.
    destruct (exec h (read_template name e) w) as [[[[t e1] | f] w1] tr1].
    + destruct (Hq _ _ _ eq_refl) as (U & _ & C).
      split; [exact U|]. split; [exact C|].
      cbn [result_of world_of trace_of fst snd].
      destruct (String.eqb (clean (remote_data t)) (clean (local_data t))) eqn:Hc.
      * apply String.eqb_eq in Hc. rewrite (push_template_same h t e1 w1 Hc).
        rewrite app_nil_r. reflexivity.
      * rewrite (push_template_differ h t e1 w1 Hc).
        destruct (h _ w1) as [a w2]. cbn [fst snd].
        destruct a; try reflexivity;
          destruct (truthy (reload_command t)); reflexivity.
    + destruct (Hq _ _ _ eq_refl) as (U & _). split; [exact U | reflexivity].
  - intros t ws Hws [-> | ->]; apply String.eqb_eq.
    + now apply clean_trailing_space.
    + symmetry. now apply clean_trailing_space.
  - intros t lines sep1 sep2 H1 H2 -> ->. apply String.eqb_eq.
    now apply clean_line_endings.
Qed.

Lemma upload_only_on_change_witness :
  let t := {| local_path := "deploy/gunicorn.conf.py.template";
              remote_path := "/home/bob/webapps/demo/gunicorn.conf.py";
              reload_command := None;
              remote_data := "workers = 3" +:+ String CR (String LF "bind = 1");
              local_data := "workers = 3" +:+ String LF "bind = 1" |} in
  String.eqb (clean (remote_data t)) (clean (local_data t)) = true /\
  String.eqb (clean ("x = 1" +:+ "  ")) (clean "x = 1") = true.
Proof.
  split.
  - apply (proj2 (proj2 upload_only_on_change) _ ["workers = 3"; "bind = 1"]
             (String CR (String LF EmptyString)) (String LF EmptyString)).
    + right; left; reflexivity.
    + left; reflexivity.
    + reflexivity.
    + reflexivity.
  - apply (proj1 (proj2 upload_only_on_change)
             {| local_path := EmptyString; remote_path := EmptyString;
                reload_command := None;
                remote_data := "x = 1" +:+ "  "; local_data := "x = 1" |} "  ").
    + reflexivity.
    + left; reflexivity.
Defined.

(** C8: [clean] deletes every line feed and carriage return, wherever it
    stands.  So when the rendered text and the remote copy differ only in
    where their line breaks are, the comparison calls them equal: the
    renderer ends after its read phase, with no upload and no reload,
    although the two texts are different. *)
Theorem line_breaks_ignored :
  (forall s : string, has_char LF (clean s) = false /\ has_char CR (clean s) = false) /\
  (forall W (h : handler W) (w : W) (e : Env) (name : string) t e1 w1 tr1,
     exec h (read_template name e) w = (Done (t, e1), w1, tr1) ->
     unbroken (remote_data t) = unbroken (local_data t) ->
     exec h (upload_template_and_reload name e) w = (Done (tt, e1), w1, tr1) /\
     uploads tr1 = [] /\
     (commands tr1 = [] \/ commands tr1 = ["cat " +:+ remote_path t])) /\
  ("ab" +:+ String LF "cd" <> "a" +:+ String LF "bcd" /\
   unbroken ("ab" +:+ String LF "cd") = unbroken ("a" +:+ String LF "bcd")).
Proof.
  split; [exact clean_has_no_break|]. split.
  - intros W h w e name t e1 w1 tr1 Hrd Hu.
    destruct (read_template_quiet h name e w _ _ _ Hrd) as (U & _ & C).
    split; [|split; assumption].
    unfold upload_template_and_reload. rewrite exec_bindM, Hrd.
    rewrite (push_template_same h t e1 w1).
    + rewrite app_nil_r. reflexivity.
    + rewrite !clean_unbroken, Hu. reflexivity.
  - split; [discriminate | reflexivity].
Qed.

Lemma line_breaks_ignored_witness :
  exec Sim.scripted (upload_template_and_reload "gunicorn" Sim.demo_env)
    [ABool true; ABool true; AStr ("a" +:+ String LF "bcd"); AStr ("ab" +:+ String LF "cd")]
  = (Done (tt, Sim.demo_env), [],
     [ (ReqLocalExists "deploy/gunicorn.conf.py.template", ABool true);
       (ReqExists [] [] "/home/bob/webapps/demo/gunicorn.conf.py", ABool true);
       (ReqRun [] [] "cat /home/bob/webapps/demo/gunicorn.conf.py",
        AStr ("a" +:+ String LF "bcd"));
       (ReqReadLocal "deploy/gunicorn.conf.py.template", AStr ("ab" +:+ String LF "cd")) ]).
Proof.
  apply (proj1 (proj2 line_breaks_ignored) _ Sim.scripted _ Sim.demo_env "gunicorn"
           {| local_path := "deploy/gunicorn.conf.py.template";
              remote_path := "/home/bob/webapps/demo/gunicorn.conf.py";
              reload_command := None;
              remote_data := "a" +:+ String LF "bcd";
              local_data := "ab" +:+ String LF "cd" |}).
  - vm_compute. reflexivity.
  - reflexivity.
Defined.

(** C4 fails on the code.  The supervisor template here has a placeholder
    and a literal percent sign written [%%].  The first run finds no remote
    copy and uploads; [upload_template] renders the file itself and writes
    a single [%] where the renderer's own text keeps [%%].  The second run,
    with nothing changed in between, therefore finds a difference, uploads
    again and reloads again. *)
Theorem second_run_uploads_again :
  let task := upload_template_and_reload "supervisor" Sim.demo_env in
  let run1 := exec Sim.host task Sim.percent_world in
  let run2 := exec Sim.host task (world_of run1) in
  result_of run1 = Done (tt, Sim.demo_env) /\
  Sim.local_files (world_of run1) !! "deploy/supervisor.conf.template"
    = Sim.local_files Sim.percent_world !! "deploy/supervisor.conf.template" /\
  Sim.remote_files (world_of run1) !! "/home/bob/etc/supervisor/conf.d/demo.conf"
    = Some "; keeps 100% of demo" /\
  uploads (trace_of run2)
    = [("deploy/supervisor.conf.template", "/home/bob/etc/supervisor/conf.d/demo.conf")] /\
  commands (trace_of run2)
    = ["cat /home/bob/etc/supervisor/conf.d/demo.conf";
       "supervisorctl update gunicorn_demo"].
Proof. vm_compute. repeat split; reflexivity. Qed.

(** C3 fails on the code where it says that the rendered content is
    uploaded.  The comparison is as the claim has it ([upload_only_on_change]
    and [line_breaks_ignored]), but line 280 does not upload [local_data]:
    it hands the template file and [env] to [upload_template], which
    renders the raw file itself, without the escaping of line 273.  With
    the supervisor template [; keeps 100%% of %(proj_name)s] and no remote
    copy, the renderer's text is [; keeps 100%% of demo], the cleaned
    texts differ, and what the upload writes is [; keeps 100% of demo],
    which is not the rendered text, not even after [clean].  With the
    template of the specification's own example, [100% done (%(user)s)],
    the renderer's text is [100% done (bob)], and the upload stops in
    [upload_template] (the raw [% d] is no conversion a mapping can
    serve): nothing is written and no reload runs. *)
Theorem upload_is_not_the_rendering :
  let rd := exec Sim.host (read_template "supervisor" Sim.demo_env) Sim.percent_world in
  let all := exec Sim.host (upload_template_and_reload "supervisor" Sim.demo_env)
               Sim.percent_world in
  let rd' := exec Sim.host (read_template "gunicorn" Sim.demo_env) Sim.example_world in
  let all' := exec Sim.host (upload_template_and_reload "gunicorn" Sim.demo_env)
                Sim.example_world in
  (match result_of rd with
   | Done (t, _) =>
       remote_data t = EmptyString /\ local_data t = "; keeps 100%% of demo" /\
       String.eqb (clean (remote_data t)) (clean (local_data t)) = false /\
       match Sim.remote_files (world_of all) !! remote_path t with
       | Some written =>
           written = "; keeps 100% of demo" /\ written <> local_data t /\
           clean written <> clean (local_data t)
       | None => False
       end
   | Stopped _ => False
   end /\
   result_of all = Done (tt, Sim.demo_env) /\
   uploads (trace_of all)
   = [("deploy/supervisor.conf.template", "/home/bob/etc/supervisor/conf.d/demo.conf")]) /\
  (match result_of rd' with
   | Done (t, _) =>
       remote_data t = EmptyString /\ local_data t = "100% done (bob)" /\
       String.eqb (clean (remote_data t)) (clean (local_data t)) = false /\
       Sim.remote_files (world_of all') !! remote_path t = None
   | Stopped _ => False
   end /\
   result_of all'
   = Stopped (CallFailed (ReqUploadTemplate "deploy/gunicorn.conf.py.template"
                            "/home/bob/webapps/demo/gunicorn.conf.py"
                            (env_item Sim.demo_env) false false)) /\
   uploads (trace_of all')
   = [("deploy/gunicorn.conf.py.template", "/home/bob/webapps/demo/gunicorn.conf.py")] /\
   commands (trace_of all') = []).
Proof.
  vm_compute. repeat split; try reflexivity; discriminate.
Qed.

End Renderer.

(* ===================================================================== *)
(** * The requirements guard                                             *)
(* ===================================================================== *)

Module Requirements.
Import Text Script Fabfile ScriptFacts MonadFacts.
Local Open Scope list_scope.
Local Open Scope script_scope.

(** ** Pinned lines *)

Lemma loose_is_break (req : string) : loose_line req = breaks_on req.
Proof.
  unfold loose_line, breaks_on, plain_requirement.
  destruct (startswith "-e" req), (contains "@" req),
    (String.eqb (strip req) EmptyString), (startswith "#" req),
    (has_char ">" req || has_char "=" req || has_char "<" req); reflexivity.
Qed.

Lemma all_pinned_no_loose (reqs : list string) :
  all_pinned reqs = negb (existsb loose_line reqs).
Proof.
  induction reqs as [|req rest IH]; [reflexivity|].
  simpl. rewrite loose_is_break. destruct (breaks_on req); [reflexivity | exact IH].
Qed.

Lemma pinned_not_loose (req : string) : pinned_line req = true -> loose_line req = false.
Proof.
  unfold pinned_line, loose_line, plain_requirement.
  destruct (startswith "-e" req), (contains "@" req),
    (String.eqb (strip req) EmptyString), (startswith "#" req),
    (has_char ">" req || has_char "=" req || has_char "<" req);
    intros H; try discriminate; reflexivity.
Qed.

Lemma pinned_manifest (reqs : list string) :
  forallb pinned_line reqs = true -> all_pinned reqs = true.
Proof.
  rewrite all_pinned_no_loose. induction reqs as [|req rest IH]; [reflexivity|].
  simpl. intros H. apply andb_true_iff in H as [Hr Hrest].
  rewrite (pinned_not_loose _ Hr). simpl. now apply IH.
Qed.

Lemma loose_manifest (reqs : list string) :
  existsb loose_line reqs = true -> all_pinned reqs = false.
Proof. rewrite all_pinned_no_loose. now intros ->. Qed.

(** ** The two halves of the guard *)

Lemma exec_read_old_reqs {W} (h : handler W) (e : Env) (w : W) :
  exec h (read_old_reqs e) w =
  match join (proj_path e) (reqs_path e) with
  | None => (Stopped (Raise "AttributeError"), w, [])
  | Some path =>
      if truthy (reqs_path e) then
        (match fst (h (cat_request path e) w) with
         | AStr old => Done ((path, old), e)
         | _ => Stopped (CallFailed (cat_request path e))
         end, snd (h (cat_request path e) w),
         [(cat_request path e, fst (h (cat_request path e) w))])
      else (Done ((path, EmptyString), e), w, [])
  end.
Proof.
  unfold read_old_reqs. rewrite exec_bindM, exec_get_env. cbn beta iota.
  destruct (join (proj_path e) (reqs_path e)) as [path|]; [|reflexivity].
  rewrite exec_bindM. destruct (truthy (reqs_path e)).
  - unfold run. rewrite exec_ask. fold (cat_request path e).
    destruct (h (cat_request path e) w) as [a w1]. cbn [fst snd].
    destruct a; reflexivity.
  - reflexivity.
Qed.

Lemma exec_check_new_reqs {W} (h : handler W) (path old : string) (e : Env) (w : W) :
  exec h (check_new_reqs path old e) w =
  if String.eqb old EmptyString then (Done (tt, e), w, [])
  else
    let rq := cat_request path e in
    let w1 := snd (h rq w) in
    match fst (h rq w) with
    | AStr new =>
        if String.eqb old new && all_pinned (split_on LF new)
        then (Done (tt, e), w1, [(rq, AStr new)])
        else
          let pq := pip_request ("-r " +:+ proj_path e +:+ "/" +:+ str_opt (reqs_path e)) e in
          (match fst (h pq w1) with
           | AStr _ => Done (tt, e)
           | _ => Stopped (CallFailed pq)
           end, snd (h pq w1), [(rq, AStr new); (pq, fst (h pq w1))])
    | a => (Stopped (CallFailed rq), w1, [(rq, a)])
    end.
Proof.
  unfold check_new_reqs. destruct (String.eqb old EmptyString); [reflexivity|].
  cbn [negb]. unfold run. rewrite exec_bindM, exec_ask. fold (cat_request path e).
  cbn zeta. destruct (h (cat_request path e) w) as [a w1]. cbn [fst snd].
  destruct a as [| | new | |]; try reflexivity. cbn beta iota delta [as_str].
  destruct (String.eqb old new && all_pinned (split_on LF new)); [reflexivity|].
  rewrite exec_bindM, exec_get_env. cbn beta iota.
  rewrite exec_bindM, exec_pip.
  destruct (h _ w1) as [a w2]. cbn [fst snd]. destruct a; reflexivity.
Qed.

Lemma exec_guard {W} (h : handler W) (body : M unit) (e : Env) (w : W) :
  exec h (update_changed_requirements body e) w =
  match exec h (read_old_reqs e) w with
  | (Done ((path, old), e1), w1, tr1) =>
      match exec h (body e1) w1 with
      | (Done (_, e2), w2, tr2) =>
          let '(o, w3, tr3) := exec h (check_new_reqs path old e2) w2 in
          (o, w3, tr1 ++ tr2 ++ tr3)
      | (Stopped f, w2, tr2) => (Stopped f, w2, tr1 ++ tr2)
      end
  | (Stopped f, w1, tr1) => (Stopped f, w1, tr1)
  end.
Proof.
  unfold update_changed_requirements. rewrite exec_bindM.
  destruct (exec h (read_old_reqs e) w) as [[[[[path old] e1] | f] w1] tr1]; [|reflexivity].
  rewrite exec_bindM. cbn [fst snd].
  destruct (exec h (body e1) w1) as [[[[[] e2] | f] w2] tr2]; [|reflexivity].
  destruct (exec h (check_new_reqs path old e2) w2) as [[o w3] tr3]. reflexivity.
Qed.

(** ** The decision after the inner action

    With a snapshot [old] that is not empty, the guard reads the manifest
    again; the three rows of the decision table follow from what it reads. *)
Lemma decision_table {W} (h : handler W) (path old new : string) (e : Env) (w : W) :
  String.eqb old EmptyString = false ->
  fst (h (cat_request path e) w) = AStr new ->
  let tr := trace_of (exec h (check_new_reqs path old e) w) in
  (old = new -> forallb pinned_line (split_on LF new) = true ->
     commands tr = ["cat " +:+ path]) /\
  (old = new -> existsb loose_line (split_on LF new) = true ->
     commands tr = ["cat " +:+ path; reinstall e]) /\
  (old <> new -> commands tr = ["cat " +:+ path; reinstall e]).
Proof.
  intros Hold Hnew. rewrite exec_check_new_reqs, Hold. cbn zeta. rewrite Hnew.
  split; [|split].
  - intros -> Hp. rewrite String.eqb_refl, (pinned_manifest _ Hp). reflexivity.
  - intros -> Hl. rewrite (loose_manifest _ Hl), andb_false_r. reflexivity.
  - intros Hne. apply String.eqb_neq in Hne. rewrite Hne. reflexivity.
Qed.

(** A path configured as the empty string: nothing is read before the
    inner action. *)
Lemma empty_path_reads_nothing {W} (h : handler W) (e : Env) (w : W) :
  reqs_path e = Some EmptyString ->
  exists path, exec h (read_old_reqs e) w = (Done ((path, EmptyString), e), w, []).
Proof.
  intros Hp. rewrite exec_read_old_reqs, Hp. cbn. eexists. reflexivity.
Qed.

(** C1 fails on the code in its last part.  When no requirements path is
    configured, [env.reqs_path] is [None] and the first line of the guard,
    [join(env.proj_path, env.reqs_path)], raises before the [yield]: the
    inner action never runs and nothing is sent to the host. *)
Theorem guard_without_path_raises {W} (h : handler W) (body : M unit) (e : Env) (w : W) :
  reqs_path e = None ->
  exec h (update_changed_requirements body e) w = (Stopped (Raise "AttributeError"), w, []).
Proof.
  intros Hp. rewrite exec_guard, exec_read_old_reqs, Hp. reflexivity.
Qed.

Lemma guard_without_path_raises_witness :
  exec Sim.host (update_changed_requirements rsync_upload Sim.bare_env) Sim.demo_world
  = (Stopped (Raise "AttributeError"), Sim.demo_world, []).
Proof. apply guard_without_path_raises. reflexivity. Defined.

(** C9: when the snapshot taken before the inner action is the empty
    string, the guard does nothing after the inner action: no second read,
    no reinstall, whatever the manifest has become.  The snapshot is empty
    when the configured path is the empty string (nothing is read) and
    when the remote manifest is an empty file. *)
Theorem empty_snapshot_skips_check {W} (h : handler W) (body : M unit) (e : Env) (w : W)
    path e1 w1 tr1 :
  exec h (read_old_reqs e) w = (Done ((path, EmptyString), e1), w1, tr1) ->
  exec h (update_changed_requirements body e) w =
  (let '(o, w2, tr2) := exec h (body e1) w1 in
   (match o with Done (_, e2) => Done (tt, e2) | Stopped f => Stopped f end,
    w2, tr1 ++ tr2)) /\
  (truthy (reqs_path e) = false \/
   fst (h (cat_request path e) w) = AStr EmptyString).
Proof.
  intros Hrd. split.
  - rewrite exec_guard, Hrd.
    destruct (exec h (body e1) w1) as [[[[[] e2] | f] w2] tr2]; [|reflexivity].
    rewrite exec_check_new_reqs. cbn. rewrite app_nil_r. reflexivity.
  - rewrite exec_read_old_reqs in Hrd.
    destruct (join (proj_path e) (reqs_path e)) as [p|]; [|discriminate].
    destruct (truthy (reqs_path e)); [right | left; reflexivity].
    destruct (fst (h (cat_request p e) w)) eqn:Ha; try discriminate.
    injection Hrd as <- <- _ _ _. exact Ha.
Qed.

Lemma empty_snapshot_skips_check_witness :
  let answers := [AStr EmptyString; AUnit; AStr "django"] in
  exec Sim.scripted (update_changed_requirements rsync_upload Sim.demo_env) answers
  = (Done (tt, Sim.demo_env), [AStr "django"],
     [(cat_request "/home/bob/webapps/demo/requirements.txt" Sim.demo_env, AStr EmptyString);
      (ReqRsync "/home/bob/webapps/demo"
         ["*.pyc"; "*.pyo"; "*.db"; ".DS_Store"; ".coverage";
          "local_settings.py"; "/static"; "/.git"; "/.hg"], AUnit)]).
Proof.
  intros answers.
  exact (proj1 (empty_snapshot_skips_check Sim.scripted rsync_upload Sim.demo_env answers
                  "/home/bob/webapps/demo/requirements.txt" Sim.demo_env
                  [AUnit; AStr "django"]
                  [(cat_request "/home/bob/webapps/demo/requirements.txt" Sim.demo_env,
                    AStr EmptyString)]
                  eq_refl)).
Defined.

End Requirements.

(* ===================================================================== *)
(** * Restart                                                            *)
(* ===================================================================== *)

Module Restart.
Import Text Script Fabfile ScriptFacts MonadFacts.
Local Open Scope list_scope.
Local Open Scope script_scope.

Lemma exec_restart {W} (h : handler W) (e : Env) (w : W) :
  exec h (restart e) w =
  let w1 := snd (h (marker_request e) w) in
  match fst (h (marker_request e) w) with
  | ABool present =>
      let rq := ReqRun (cwd e) (command_prefixes e)
                  (if present then restart_command e else reload_all_command) in
      (match fst (h rq w1) with
       | AStr _ => Done (tt, e)
       | _ => Stopped (CallFailed rq)
       end, snd (h rq w1), [(marker_request e, ABool present); (rq, fst (h rq w1))])
  | a => (Stopped (CallFailed (marker_request e)), w1, [(marker_request e, a)])
  end.
Proof.
  unfold restart. rewrite exec_bindM, exec_get_env. cbn beta iota.
  unfold exists_. rewrite exec_bindM, exec_ask. fold (marker_request e).
  cbn zeta. destruct (h (marker_request e) w) as [a w1]. cbn [fst snd].
  destruct a as [| [] | | |]; try reflexivity.
  - cbn beta iota delta [as_bool]. unfold run. rewrite exec_bindM, exec_ask.
    destruct (h _ w1) as [a w2]. cbn [fst snd]. destruct a; reflexivity.
  - cbn beta iota delta [as_bool]. unfold run. rewrite exec_bindM, exec_ask.
    destruct (h _ w1) as [a w2]. cbn [fst snd]. destruct a; reflexivity.
Qed.

Lemma pid_path_absolute (e : Env) (dirs : list string) :
  Sim.resolve dirs (pid_path e) = pid_path e.
Proof. reflexivity. Qed.

Lemma restart_commands_not_cat (e : Env) (present : bool) :
  startswith "cat " (if present then restart_command e else reload_all_command) = false.
Proof. destruct present; reflexivity. Qed.

Lemma restart_is_not_update (name : string) :
  "supervisorctl restart gunicorn_" +:+ name <> "supervisorctl update".
Proof. intros H. apply (f_equal (String.get 14)) in H. vm_compute in H. discriminate. Qed.

(** C6: on the simulated host, whatever files it holds, [restart] asks
    once whether [/home/<user>/webapps/<proj_name>/gunicorn.pid] exists
    and then sends exactly one command: [supervisorctl restart
    gunicorn_<proj_name>] when the marker is there, [supervisorctl
    update] when it is not; the two commands are never the same.  For any
    other world the one command is chosen by the answer to the same
    question, and none is sent when the question is not answered. *)
Theorem restart_branches (w : Sim.world) (e : Env) (present : bool) :
  let marker := ("/home/" +:+ user e +:+ "/webapps/" +:+ proj_name e) +:+ "/gunicorn.pid" in
  (if present then is_Some (Sim.remote_files w !! marker)
   else Sim.remote_files w !! marker = None) ->
  exec Sim.host (restart e) w =
    (Done (tt, e), w,
     [(ReqExists (cwd e) (command_prefixes e) marker, ABool present);
      (ReqRun (cwd e) (command_prefixes e)
         (if present then "supervisorctl restart gunicorn_" +:+ proj_name e
          else "supervisorctl update"),
       AStr EmptyString)]) /\
  "supervisorctl restart gunicorn_" +:+ proj_name e <> "supervisorctl update" /\
  (forall W (h : handler W) (w' : W),
     commands (trace_of (exec h (restart e) w')) =
     match fst (h (ReqExists (cwd e) (command_prefixes e) marker) w') with
     | ABool true => ["supervisorctl restart gunicorn_" +:+ proj_name e]
     | ABool false => ["supervisorctl update"]
     | _ => []
     end).
Proof.
  intros marker Hp. split; [|split].
  - rewrite exec_restart.
    unfold marker_request. cbn [Sim.host fst snd].
    rewrite pid_path_absolute.
    change (pid_path e) with marker.
    assert (Hb : bool_decide (is_Some (Sim.remote_files w !! marker)) = present).
    { destruct present.
      - now apply bool_decide_eq_true.
      - apply bool_decide_eq_false. rewrite Hp. intros [x Hx]. discriminate. }
    rewrite Hb, restart_commands_not_cat. reflexivity.
  - apply restart_is_not_update.
  - intros W h w'. rewrite exec_restart. cbn zeta.
    change (marker_request e) with (ReqExists (cwd e) (command_prefixes e) marker).
    destruct (fst (h _ w')) as [| [] | | |]; reflexivity.
Qed.

Lemma restart_branches_witness :
  commands (trace_of (exec Sim.host (restart Sim.demo_env) Sim.running_world))
  = ["supervisorctl restart gunicorn_demo"] /\
  commands (trace_of (exec Sim.host (restart Sim.demo_env) Sim.demo_world))
  = ["supervisorctl update"].
Proof.
  split.
  - rewrite (proj1 (restart_branches Sim.running_world Sim.demo_env true
                      (ex_intro _ "4242" eq_refl))).
    reflexivity.
  - rewrite (proj1 (restart_branches Sim.demo_world Sim.demo_env false eq_refl)).
    reflexivity.
Defined.

End Restart.

(* ===================================================================== *)
(** * Start-up                                                           *)
(* ===================================================================== *)

Module Startup.
Import Text Script Fabfile.

(** Under [fab], with no host list configured (no settings module, no
    [FABRIC] in it, or no [HOSTS] in [FABRIC]), the module prints the
    no-hosts message and exits. *)
Lemma missing_hosts_exit (sep : ascii) (argv0 : string) (src : settings_source) :
  launched_by_fab sep argv0 = true -> hosts_missing src = true ->
  import_fabfile sep argv0 src = Exited no_hosts_message.
Proof.
  intros Hf Hm. unfold import_fabfile, load_conf. rewrite Hf.
  destruct src as [| | conf]; try reflexivity. simpl in Hm.
  destruct (conf !! "HOSTS"); [discriminate | reflexivity].
Qed.

(** Started by anything but [fab], [conf] is empty, [env.domains] is
    [None], and line 58 raises when it iterates over it: the import
    fails, whatever the settings are. *)
Lemma outside_fab_crashes (sep : ascii) (argv0 : string) (src : settings_source) :
  launched_by_fab sep argv0 = false ->
  import_fabfile sep argv0 src = Crashed "TypeError".
Proof. intros Hf. unfold import_fabfile, load_conf. rewrite Hf. reflexivity. Qed.

(** Whenever the import gets through, so that a task can run, the script
    was started by [fab] and [HOSTS] is configured and has a first
    element. *)
Lemma tasks_need_hosts (sep : ascii) (argv0 : string) (src : settings_source)
    (conf : gmap string pyval) :
  import_fabfile sep argv0 src = Loaded conf ->
  launched_by_fab sep argv0 = true /\ src = Fabric conf /\
  exists hosts, conf !! "HOSTS" = Some hosts /\ first_item hosts = None.
Proof.
  destruct (launched_by_fab sep argv0) eqn:Hf;
    [|rewrite (outside_fab_crashes _ _ _ Hf); discriminate].
  unfold import_fabfile, load_conf. rewrite Hf.
  destruct src as [| | conf0]; try discriminate.
  destruct (conf0 !! "HOSTS") as [hosts|] eqn:Hh; [|discriminate].
  destruct (first_item hosts) as [exc|] eqn:Hi.
  { destruct (existsb _ _); discriminate. }
  unfold module_body. destruct (default _ _); try discriminate.
  destruct (domains_raise conf0); [discriminate|].
  intros [= <-]. split; [reflexivity|]. split; [reflexivity|].
  exists hosts. split; assumption.
Qed.

(** The check reads the last component of [argv[0]] by the separator of
    the platform. *)
Example fab_script_by_separator :
  launched_by_fab "\" "C:\Python27\Scripts\fab-script.py" = true /\
  launched_by_fab "/" "C:\Python27\Scripts\fab-script.py" = false /\
  launched_by_fab "/" "/usr/local/bin/fab" = true /\
  launched_by_fab "/" "manage.py" = false.
Proof. repeat split. Qed.

(** C7 fails on the code for the empty host list.  Started by [fab] with
    [HOSTS = []] in the settings, [conf["HOSTS"][0]] raises [IndexError],
    which neither the inner handler ([KeyError], [ValueError]) nor the
    outer one ([ImportError], [AttributeError]) catches: the import dies
    with that exception and the no-hosts message is never printed.  The
    same holds for [HOSTS] given as an empty string. *)
Theorem empty_hosts_crash_at_startup (sep : ascii) (argv0 : string)
    (conf : gmap string pyval) :
  launched_by_fab sep argv0 = true ->
  conf !! "HOSTS" = Some (VList []) \/ conf !! "HOSTS" = Some (VStr EmptyString) ->
  load_conf sep argv0 (Fabric conf) = Crashed "IndexError" /\
  import_fabfile sep argv0 (Fabric conf) = Crashed "IndexError" /\
  import_fabfile sep argv0 (Fabric conf) <> Exited no_hosts_message.
Proof.
  intros Hf Hh.
  assert (Hl : load_conf sep argv0 (Fabric conf) = Crashed "IndexError").
  { unfold load_conf. rewrite Hf. destruct Hh as [-> | ->]; reflexivity. }
  unfold import_fabfile. rewrite Hl. repeat split. discriminate.
Qed.

Lemma empty_hosts_crash_at_startup_witness :
  hosts_empty (Fabric {[ "HOSTS" := VList [] ]}) = true /\
  import_fabfile "/" "/usr/bin/fab" (Fabric {[ "HOSTS" := VList [] ]}) = Crashed "IndexError".
Proof.
  split; [reflexivity|].
  exact (proj1 (proj2 (empty_hosts_crash_at_startup "/" "/usr/bin/fab"
                         {[ "HOSTS" := VList [] ]} eq_refl (or_introl eq_refl)))).
Defined.

End Startup.

(* ===================================================================== *)
(** * Provisioning and teardown                                          *)
(* ===================================================================== *)

Module Provisioning.
Import Text Script Fabfile ScriptFacts MonadFacts.
Local Open Scope list_scope.
Local Open Scope script_scope.

(** ** The lookup *)

Lemma py_eqb_str (v : pyval) (s : string) : py_eqb v (VStr s) = true -> v = VStr s.
Proof.
  destruct v; simpl; try discriminate.
  intros H. apply String.eqb_eq in H. now subst.
Qed.

Lemma select_has_key (key : string) (name : pyval) (l found : list struct) :
  select key name l = Some found ->
  Forall (fun obj => exists v, obj !! key = Some v /\ py_eqb v name = true) found.
Proof.
  revert found. induction l as [|obj l IH]; intros found; simpl.
  - intros [= <-]. constructor.
  - destruct (obj !! key) as [v|] eqn:Hk; [|discriminate].
    destruct (select key name l) as [f|]; [|discriminate].
    destruct (py_eqb v name) eqn:Hv; intros [= <-].
    + constructor; [exists v; split; assumption | now apply IH].
    + now apply IH.
Qed.

(** A found object has the key it was found by, with the name asked for. *)
Lemma found_has_key (ty : string) (name : pyval) (sub : option string)
    (l : list struct) (obj : struct) :
  find_in ty name sub l = Found obj ->
  exists v, obj !! key_of ty = Some v /\ py_eqb v name = true.
Proof.
  unfold find_in.
  destruct (select (key_of ty) name l) as [[|o rest]|] eqn:Hs; try discriminate.
  apply select_has_key in Hs. inversion Hs as [|? ? Ho _]; subst.
  destruct (String.eqb (key_of ty) "domain"), sub as [s|]; try (intros [= <-]; exact Ho).
  destruct (o !! "subdomains") as [[| | | x | xs]|]; try discriminate.
  - destruct (contains s x); [intros [= <-]; exact Ho | discriminate].
  - destruct (existsb _ xs); [intros [= <-]; exact Ho | discriminate].
Qed.

Lemma found_is_true (ty : string) (name : pyval) (sub : option string)
    (l : list struct) (obj : struct) :
  find_in ty name sub l = Found obj -> found (Some obj) = true.
Proof.
  intros H. destruct (found_has_key _ _ _ _ _ H) as (v & Hv & _).
  unfold found. rewrite bool_decide_eq_false_2; [reflexivity|].
  intros ->. rewrite lookup_empty in Hv. discriminate.
Qed.

Lemma exec_get_webf_obj {W} (h : handler W) (ssn ty : string) (name : pyval)
    (sub : option string) (e : Env) (w : W) :
  exec h (get_webf_obj ssn ty name sub e) w =
  (match fst (h (list_request ssn ty) w) with
   | AStructs l =>
       match find_in ty name sub l with
       | Found obj => Done (Some obj, e)
       | NotFound => Done (None, e)
       | LookupRaises exc => Stopped (Raise exc)
       end
   | _ => Stopped (CallFailed (list_request ssn ty))
   end, snd (h (list_request ssn ty) w),
   [(list_request ssn ty, fst (h (list_request ssn ty) w))]).
Proof.
  unfold get_webf_obj. rewrite exec_bindM, exec_ask. fold (list_request ssn ty).
  destruct (h (list_request ssn ty) w) as [a w1]. cbn [fst snd].
  destruct a as [| | | l |]; try reflexivity. cbn beta iota delta [as_structs].
  destruct (find_in ty name sub l); reflexivity.
Qed.

Lemma exec_rpc {W} (h : handler W) (m : string) (args : list pyval) (e : Env) (w : W) :
  exec h (rpc m args e) w =
  (match fst (h (ReqRpc m args) w) with
   | AFail => Stopped (CallFailed (ReqRpc m args))
   | a => Done (a, e)
   end, snd (h (ReqRpc m args) w), [(ReqRpc m args, fst (h (ReqRpc m args) w))]).
Proof.
  unfold rpc. rewrite exec_ask. destruct (h (ReqRpc m args) w) as [a w1].
  destruct a; reflexivity.
Qed.

(** ** Taking steps *)

Lemma follows_skip_all (ssn : string) (steps : list step) (tr1 tr2 : trace) o :
  Forall (fun ev => off_panel (fst ev)) tr1 ->
  follows ssn steps tr2 o -> follows ssn steps (tr1 ++ tr2) o.
Proof.
  induction 1 as [|[r a] tr1 Hr _ IH]; intros H2; [exact H2|].
  simpl. apply fl_skip; [exact Hr | now apply IH].
Qed.

Lemma takes_bindM {W A B} (h : handler W) (ssn : string) (ss1 ss2 : list step)
    (p : M A) (f : A -> M B) (e : Env) (w : W) :
  takes ssn ss1 (exec h (p e) w) ->
  (forall a e1 w1, takes ssn ss2 (exec h (f a e1) w1)) ->
  takes ssn (ss1 ++ ss2) (exec h (bindM p f e) w).
Proof.
  intros H1 H2. rewrite exec_bindM. unfold takes in *.
  destruct (exec h (p e) w) as [[[[a e1] | x] w1] tr1]; cbn [result_of trace_of fst snd] in *.
  - specialize (H2 a e1 w1).
    destruct (exec h (f a e1) w1) as [[[y | x] w2] tr2]; cbn [result_of trace_of fst snd] in *.
    + intros rest tr3 o3 H3. rewrite <- !app_assoc. apply H1, H2, H3.
    + intros rest. rewrite <- app_assoc. apply H1, H2.
  - intros rest. rewrite <- app_assoc. apply H1.
Qed.

Lemma takes_quiet {W A} (h : handler W) (ssn : string) (p : Prog A) (w : W) :
  issues_only off_panel p ->
  takes ssn [] (exec h p w).
Proof.
  intros Hp. pose proof (only_trace _ h p w Hp) as Ht. unfold takes.
  destruct (exec h p w) as [[[y | x] w1] tr1]; cbn [result_of trace_of fst snd] in *.
  - intros rest tr2 o2 H2. now apply follows_skip_all.
  - intros rest. rewrite <- (app_nil_r tr1). apply follows_skip_all; [exact Ht|].
    apply fl_end.
Qed.

Lemma takes_then {W A B} (h : handler W) (ssn : string) (ss : list step)
    (p : M A) (f : A -> M B) (e : Env) (w : W) :
  issues_only off_panel (p e) ->
  (forall a e1 w1, takes ssn ss (exec h (f a e1) w1)) ->
  takes ssn ss (exec h (bindM p f e) w).
Proof.
  intros Hp Hf. change ss with ([] ++ ss).
  apply takes_bindM; [now apply takes_quiet | exact Hf].
Qed.

Lemma takes_ret {W A} (h : handler W) (ssn : string) (a : A) (e : Env) (w : W) :
  takes ssn [] (exec h (ret a e) w).
Proof. intros rest tr2 o2 H2. exact H2. Qed.

(** A check: list, look up, stop if found. *)
Lemma takes_check {W} (h : handler W) (ssn ty : string) (name : pyval)
    (sub : option string) (msg : string) (e : Env) (w : W) :
  takes ssn [Check ty name sub msg]
    (exec h (bindM (get_webf_obj ssn ty name sub)
               (fun r => abort_if_found r msg (key_of ty)) e) w).
Proof.
  rewrite exec_bindM, exec_get_webf_obj. unfold takes.
  destruct (h (list_request ssn ty) w) as [a w1]. cbn [fst snd].
  destruct a as [| | | l |];
    try (intros rest; apply fl_check_broken; exact I).
  destruct (find_in ty name sub l) as [obj| |exc] eqn:Hf.
  - unfold abort_if_found. rewrite (found_is_true _ _ _ _ _ Hf).
    destruct (found_has_key _ _ _ _ _ Hf) as (v & Hv & _).
    unfold item. rewrite exec_bindM, Hv, exec_ret. cbn beta iota. rewrite exec_abort.
    intros rest. cbn. now apply fl_check_found with (obj := obj).
  - cbn. intros rest tr2 o2 H2. now apply fl_check_free.
  - intros rest. apply fl_check_broken. exists exc. exact Hf.
Qed.

(** The domain check stops with the host name instead. *)
Lemma takes_domain_check {W} (h : handler W) (ssn : string) (name : pyval)
    (sub : option string) (msg : string) (args : list pyval) (e : Env) (w : W) :
  takes ssn [Check "domain" name sub msg]
    (exec h (bindM (get_webf_obj ssn "domain" name sub)
               (fun r => if found r then abort msg args else ret tt) e) w).
Proof.
  rewrite exec_bindM, exec_get_webf_obj. unfold takes.
  destruct (h (list_request ssn "domain") w) as [a w1]. cbn [fst snd].
  destruct a as [| | | l |];
    try (intros rest; apply fl_check_broken; exact I).
  destruct (find_in "domain" name sub l) as [obj| |exc] eqn:Hf.
  - rewrite (found_is_true _ _ _ _ _ Hf). rewrite exec_abort.
    intros rest. cbn. now apply fl_check_found with (obj := obj).
  - cbn. intros rest tr2 o2 H2. now apply fl_check_free.
  - intros rest. apply fl_check_broken. exists exc. exact Hf.
Qed.

(** [bindM] is associative as far as running goes. *)
Lemma exec_bindM_assoc {W A B C} (h : handler W) (p : M A) (f : A -> M B) (g : B -> M C)
    (e : Env) (w : W) :
  exec h (bindM p (fun a => bindM (f a) g) e) w = exec h (bindM (bindM p f) g e) w.
Proof.
  rewrite !exec_bindM.
  destruct (exec h (p e) w) as [[[[a e1] | x] w1] tr1]; [|reflexivity].
  rewrite exec_bindM.
  destruct (exec h (f a e1) w1) as [[[[b e2] | x] w2] tr2]; [|reflexivity].
  destruct (exec h (g b e2) w2) as [[o w3] tr3]. now rewrite app_assoc.
Qed.

Lemma harmless_off_panel (r : request) : harmless r -> off_panel r.
Proof. destruct r; simpl; intros H; try reflexivity; contradiction. Qed.

(** A creation: list, look up, stop if found; then the call. *)
Lemma takes_create {W} (h : handler W) (ssn ty : string) (name : pyval)
    (sub : option string) (msg m : string) (stopper : option struct -> M unit)
    (k : M unit) (e : Env) (w : W) :
  (forall e1 w1, exec h (stopper None e1) w1 = (Done (tt, e1), w1, [])) ->
  (forall obj e1 w1, found (Some obj) = true ->
     (exists v, obj !! key_of ty = Some v) ->
     exists args, exec h (stopper (Some obj) e1) w1 = (Stopped (Abort msg args), w1, [])) ->
  (forall e1 w1, one_call ssn m name (exec h (k e1) w1)) ->
  takes ssn [Create ty name sub msg m]
    (exec h (bindM (get_webf_obj ssn ty name sub)
               (fun r => bindM (stopper r) (fun _ => k)) e) w).
Proof.
  intros Hnone Hfound Hk.
  rewrite exec_bindM, exec_get_webf_obj. unfold takes.
  destruct (h (list_request ssn ty) w) as [a w1]. cbn [fst snd].
  destruct a as [| | | l |];
    try (intros rest; apply fl_create_broken; exact I).
  destruct (find_in ty name sub l) as [obj| |exc] eqn:Hf.
  - destruct (found_has_key _ _ _ _ _ Hf) as (v & Hv & _).
    destruct (Hfound obj e w1 (found_is_true _ _ _ _ _ Hf) (ex_intro _ v Hv)) as [args Hs].
    rewrite exec_bindM, Hs. intros rest. cbn.
    now apply fl_create_found with (obj := obj).
  - rewrite exec_bindM, Hnone. cbn beta iota.
    destruct (Hk e w1) as (mid & Hmid & [(f & Ho & Ht) | (args & a & Ht & Ho)]);
      destruct (exec h (k e) w1) as [[o w2] tr2];
      cbn [result_of trace_of fst snd] in *; subst.
    + intros rest. cbn. now apply fl_create_stopped.
    + destruct a; destruct Ho as [x ->]; cbn.
      1-4: intros rest tr3 o3 H3; rewrite <- app_assoc;
           apply fl_create_free; [exact Hf | exact Hmid | discriminate | exact H3].
      intros rest. apply fl_create_free; [exact Hf | exact Hmid | reflexivity | apply fl_end].
  - intros rest. apply fl_create_broken. exists exc. exact Hf.
Qed.

Lemma abort_if_found_none {W} (h : handler W) (msg key : string) (e : Env) (w : W) :
  exec h (abort_if_found None msg key e) w = (Done (tt, e), w, []).
Proof. reflexivity. Qed.

Lemma abort_if_found_some {W} (h : handler W) (msg key : string) (obj : struct)
    (e : Env) (w : W) :
  found (Some obj) = true -> (exists v, obj !! key = Some v) ->
  exists args, exec h (abort_if_found (Some obj) msg key e) w
               = (Stopped (Abort msg args), w, []).
Proof.
  intros Hf [v Hv]. unfold abort_if_found. rewrite Hf. unfold item.
  rewrite exec_bindM, Hv, exec_ret. cbn beta iota. rewrite exec_abort.
  exists [v]. reflexivity.
Qed.

Lemma one_call_rpc {W} (h : handler W) (ssn m : string) (name : pyval)
    (args : list pyval) (e : Env) (w : W) :
  one_call ssn m name
    (exec h (bindM (rpc m (VStr ssn :: name :: args)) (fun _ => ret tt) e) w).
Proof.
  rewrite exec_bindM, exec_rpc. exists []. split; [constructor|]. right.
  exists args. destruct (h _ w) as [a w1]. cbn [fst snd]. exists a.
  destruct a; cbn; split; try reflexivity; eexists; reflexivity.
Qed.

(** A plain call. *)
Lemma takes_call {W} (h : handler W) (ssn m : string) (name : pyval)
    (args : list pyval) (e : Env) (w : W) :
  takes ssn [Call m name]
    (exec h (bindM (rpc m (VStr ssn :: name :: args)) (fun _ => ret tt) e) w).
Proof.
  rewrite exec_bindM, exec_rpc. unfold takes.
  destruct (h (ReqRpc m (VStr ssn :: name :: args)) w) as [a w1]. cbn [fst snd].
  destruct a; cbn.
  1-4: intros rest tr2 o2 H2; apply fl_call; [discriminate | exact H2].
  intros rest. apply fl_call; [reflexivity | apply fl_end].
Qed.

(** A sweep: list, look up, delete if found. *)
Lemma takes_sweep {W} (h : handler W) (ssn ty : string) (name : pyval)
    (sub : option string) (args : list pyval) (e : Env) (w : W) :
  takes ssn [Sweep ty name sub args] (exec h (remove_if_found ssn ty name sub args e) w).
Proof.
  unfold remove_if_found. rewrite exec_bindM, exec_get_webf_obj. unfold takes.
  destruct (h (list_request ssn ty) w) as [a w1]. cbn [fst snd].
  destruct a as [| | | l |];
    try (intros rest; apply fl_sweep_broken; exact I).
  destruct (find_in ty name sub l) as [obj| |exc] eqn:Hf.
  - rewrite (found_is_true _ _ _ _ _ Hf). unfold del_webf_obj.
    rewrite exec_bindM, exec_rpc. fold (delete_request ssn ty name args).
    destruct (h (delete_request ssn ty name args) w1) as [a w2]. cbn [fst snd].
    destruct a; cbn.
    1-4: intros rest tr2 o2 H2;
         apply fl_sweep_present with (obj := obj); [exact Hf | discriminate | exact H2].
    intros rest. apply fl_sweep_present with (obj := obj);
      [exact Hf | reflexivity | apply fl_end].
  - cbn. intros rest tr2 o2 H2. now apply fl_sweep_absent.
  - intros rest. apply fl_sweep_broken. exists exc. exact Hf.
Qed.

Lemma takes_main_app {W} (h : handler W) (ssn : string) (c : Config) (e : Env) (w : W) :
  takes ssn [Sweep "app" (VStr (proj_name c)) None []]
    (exec h (remove_main_app c ssn e) w).
Proof.
  unfold remove_main_app. rewrite exec_bindM, exec_get_webf_obj. unfold takes.
  destruct (h (list_request ssn "app") w) as [a w1]. cbn [fst snd].
  destruct a as [| | | l |];
    try (intros rest; apply fl_sweep_broken; exact I).
  destruct (find_in "app" (VStr (proj_name c)) None l) as [obj| |exc] eqn:Hf.
  - rewrite (found_is_true _ _ _ _ _ Hf).
    destruct (found_has_key _ _ _ _ _ Hf) as (v & Hv & Heq).
    apply py_eqb_str in Heq. subst v. change (key_of "app") with "name" in Hv.
    unfold item. rewrite exec_bindM, Hv, exec_ret. cbn beta iota.
    unfold del_webf_obj. rewrite exec_bindM, exec_rpc.
    fold (delete_request ssn "app" (VStr (proj_name c)) []).
    destruct (h (delete_request ssn "app" (VStr (proj_name c)) []) w1) as [a w2].
    cbn [fst snd]. destruct a; cbn.
    1-4: intros rest tr2 o2 H2;
         apply fl_sweep_present with (obj := obj); [exact Hf | discriminate | exact H2].
    intros rest. apply fl_sweep_present with (obj := obj);
      [exact Hf | reflexivity | apply fl_end].
  - cbn. intros rest tr2 o2 H2. now apply fl_sweep_absent.
  - intros rest. apply fl_sweep_broken. exists exc. exact Hf.
Qed.


(** ** The pieces that never call the control panel *)

Lemma only_with_cd {A} (P : request -> Prop) (path : string) (body : M A) (e : Env) :
  (forall e1, issues_only P (body e1)) -> issues_only P (with_cd path body e).
Proof.
  intros Hb. unfold with_cd. apply only_bindM; [apply only_ret|]. intros e0 e1.
  apply only_bindM; [apply only_ret|]. intros _ e2.
  apply only_bindM; [apply Hb|]. intros a e3.
  apply only_bindM; [apply only_ret|]. intros; apply only_ret.
Qed.

Lemma only_with_prefix {A} (P : request -> Prop) (c : string) (body : M A) (e : Env) :
  (forall e1, issues_only P (body e1)) -> issues_only P (with_prefix c body e).
Proof.
  intros Hb. unfold with_prefix. apply only_bindM; [apply only_ret|]. intros e0 e1.
  apply only_bindM; [apply only_ret|]. intros _ e2.
  apply only_bindM; [apply Hb|]. intros a e3.
  apply only_bindM; [apply only_ret|]. intros; apply only_ret.
Qed.

Lemma only_virtualenv {A} (P : request -> Prop) (body : M A) (e : Env) :
  (forall e1, issues_only P (body e1)) -> issues_only P (virtualenv body e).
Proof.
  intros Hb. unfold virtualenv. apply only_bindM; [apply only_ret|]. intros e0 e1.
  apply only_with_cd. intros e2. apply only_with_prefix. exact Hb.
Qed.

Lemma only_project {A} (P : request -> Prop) (body : M A) (e : Env) :
  (forall e1, issues_only P (body e1)) -> issues_only P (project body e).
Proof.
  intros Hb. unfold project. apply only_virtualenv. intros e1.
  apply only_bindM; [apply only_ret|]. intros e0 e2. apply only_with_cd. exact Hb.
Qed.

Lemma run_off_panel (c : string) (e : Env) : issues_only off_panel (run c e).
Proof. apply only_ask. reflexivity. Qed.

Lemma exists_off_panel (p : string) (e : Env) : issues_only off_panel (exists_ p e).
Proof. apply only_ask. reflexivity. Qed.

Lemma db_pass_off_panel (e : Env) : issues_only off_panel (db_pass_ e).
Proof.
  apply (only_weaken harmless); [exact harmless_off_panel | apply Renderer.db_pass_harmless].
Qed.

Create HintDb quiet discriminated.
#[local] Hint Resolve run_off_panel exists_off_panel db_pass_off_panel : quiet.

(** One step through a script by the shape of its head; the pieces already
    known to stay off the panel are taken from the hint base. *)
Ltac quiet_step :=
  lazymatch goal with
  | |- issues_only _ (ret _ _) => apply only_ret
  | |- issues_only _ (stop _ _) => apply only_stop
  | |- issues_only _ (raise _ _) => apply only_stop
  | |- issues_only _ (abort _ _ _) => apply only_stop
  | |- issues_only _ (get_env _) => apply only_ret
  | |- issues_only _ (modify _ _) => apply only_ret
  | |- issues_only _ (ask _ _ _) => apply only_ask; reflexivity
  | |- issues_only _ (bindM _ _ _) => apply only_bindM
  | |- issues_only _ (with_cd _ _ _) => apply only_with_cd
  | |- issues_only _ (with_prefix _ _ _) => apply only_with_prefix
  | |- issues_only _ (virtualenv _ _) => apply only_virtualenv
  | |- issues_only _ (project _ _) => apply only_project
  | |- issues_only _ ((if ?b then _ else _) _) => destruct b
  | |- issues_only _ (match ?x with _ => _ end _) => destruct x
  | |- issues_only _ _ => solve [auto 1 with quiet nocore]
  end.

Ltac quiet := repeat (intros; lazy beta; quiet_step).

Lemma session_off_panel (e : Env) : issues_only off_panel (get_webf_session e).
Proof. unfold get_webf_session, getpass. quiet. Qed.

Lemma create_virtualenv_off_panel (e : Env) : issues_only off_panel (create_virtualenv e).
Proof. unfold create_virtualenv, confirm. quiet. Qed.

Lemma pip_off_panel (p : string) (e : Env) : issues_only off_panel (pip p e).
Proof. unfold pip. quiet. Qed.

Lemma python_off_panel (c : string) (e : Env) : issues_only off_panel (python c e).
Proof. unfold python. quiet. Qed.

Lemma manage_off_panel (c : string) (e : Env) : issues_only off_panel (manage c e).
Proof. unfold manage. quiet. Qed.

#[local] Hint Resolve pip_off_panel python_off_panel manage_off_panel : quiet.

Lemma upload_project_off_panel (e : Env) : issues_only off_panel (upload_project e).
Proof. unfold upload_project, vcs_upload, rsync_upload, local_. quiet. Qed.

Lemma get_templates_off_panel (e : Env) : issues_only off_panel (get_templates e).
Proof. rewrite get_templates_eq. constructor. Qed.

#[local] Hint Resolve get_templates_off_panel : quiet.

Lemma renderer_off_panel (name : string) (e : Env) :
  issues_only off_panel (upload_template_and_reload name e).
Proof.
  unfold upload_template_and_reload, read_template, locate_template, fetch_remote,
    render_local, format_env, push_template.
  quiet.
Qed.

#[local] Hint Resolve renderer_off_panel : quiet.

Lemma install_off_panel (e : Env) : issues_only off_panel (install_and_bootstrap e).
Proof. unfold install_and_bootstrap. quiet. Qed.

Lemma run_if_exists_off_panel (p c : string) (e : Env) :
  issues_only off_panel (run_if_exists p c e).
Proof. unfold run_if_exists. quiet. Qed.

#[local] Hint Resolve run_if_exists_off_panel : quiet.

Lemma remove_templates_off_panel ts (e : Env) : issues_only off_panel (remove_templates ts e).
Proof.
  revert e. induction ts as [|[name template] ts IH]; intros e; simpl; [quiet|].
  destruct (assoc "remote_path" template); [|quiet].
  apply only_bindM; [apply run_if_exists_off_panel | intros; apply IH].
Qed.

#[local] Hint Resolve remove_templates_off_panel : quiet.

Lemma remove_files_off_panel (e : Env) : issues_only off_panel (remove_files e).
Proof. unfold remove_files. quiet. Qed.

(** ** The pieces of [create] *)

Lemma one_call_db {W} (h : handler W) (c : Config) (ssn : string) (e : Env) (w : W) :
  one_call ssn "create_db" (VStr (proj_name c))
    (exec h
       (bindM get_env (fun e1 =>
          bindM (match db_pass e1 with
                 | None => bindM db_pass_ (fun p => modify (set_db_pass p))
                 | Some _ => ret tt
                 end)
            (fun _ => bindM get_env (fun e2 =>
               bindM (rpc "create_db" [VStr ssn; VStr (proj_name c); VStr "postgresql";
                                       of_opt (db_pass e2)])
                 (fun _ => ret tt)))) e) w).
Proof.
  rewrite exec_bindM, exec_get_env. cbn beta iota. rewrite exec_bindM.
  set (ask_pass := match db_pass e with
                   | None => bindM db_pass_ (fun p => modify (set_db_pass p))
                   | Some _ => ret tt
                   end).
  assert (Hq : issues_only off_panel (ask_pass e)) by (subst ask_pass; quiet).
  pose proof (only_trace _ h _ w Hq) as Hmid.
  destruct (exec h (ask_pass e) w) as [[[[[] e1] | f] w1] mid];
    cbn [trace_of snd] in Hmid; exists mid; (split; [exact Hmid|]).
  - right. rewrite exec_bindM, exec_get_env. cbn beta iota.
    rewrite exec_bindM, exec_rpc.
    exists [VStr "postgresql"; of_opt (db_pass e1)].
    destruct (h _ w1) as [a w2]. cbn [fst snd]. exists a.
    destruct a; cbn; rewrite ?app_nil_r; split; try reflexivity; eexists; reflexivity.
  - left. exists f. cbn. split; reflexivity.
Qed.

Lemma takes_create_database {W} (h : handler W) (c : Config) (ssn : string)
    (e : Env) (w : W) :
  takes ssn
    [ Check "db_user" (VStr (proj_name c)) None "Database user %s already exists.";
      Create "db" (VStr (proj_name c)) None "Databse %s already exists." "create_db" ]
    (exec h (create_database c ssn e) w).
Proof.
  unfold create_database. rewrite exec_bindM_assoc.
  apply (takes_bindM h ssn [Check _ _ _ _] [Create _ _ _ _ _]).
  - exact (takes_check h ssn "db_user" _ None _ e w).
  - intros _ e1 w1.
    apply (takes_create h ssn "db" _ None _ "create_db"
             (fun r => abort_if_found r "Databse %s already exists." "name")).
    + intros; apply abort_if_found_none.
    + intros; now apply abort_if_found_some.
    + intros; apply one_call_db.
Qed.

Lemma takes_create_custom_app {W} (h : handler W) (c : Config) (ssn : string)
    (e : Env) (w : W) :
  takes ssn [Create "app" (VStr (proj_name c)) None "App %s already exists." "create_app"]
    (exec h (create_custom_app c ssn e) w).
Proof.
  unfold create_custom_app.
  apply (takes_create h ssn "app" _ None _ "create_app"
           (fun r => abort_if_found r "App %s already exists." "name")).
  - intros; apply abort_if_found_none.
  - intros; now apply abort_if_found_some.
  - intros; apply one_call_rpc.
Qed.

Lemma takes_create_static_app {W} (h : handler W) (c : Config) (ssn : string)
    (e : Env) (w : W) :
  takes ssn [Create "app" (VStr (static_name c)) None "Static app %s already exists."
               "create_app"]
    (exec h (create_static_app c ssn e) w).
Proof.
  unfold create_static_app.
  apply (takes_create h ssn "app" _ None _ "create_app"
           (fun r => abort_if_found r "Static app %s already exists." "name")).
  - intros; apply abort_if_found_none.
  - intros; now apply abort_if_found_some.
  - intros; apply one_call_rpc.
Qed.

Lemma takes_create_domain {W} (h : handler W) (c : Config) (ssn : string)
    (e : Env) (w : W) :
  takes ssn [Create "domain" (of_opt (live_domain c)) (live_subdomain c)
               "Domain %s already exists." "create_domain"]
    (exec h (create_domain c ssn e) w).
Proof.
  unfold create_domain.
  apply (takes_create h ssn "domain" _ _ _ "create_domain"
           (fun r => if found r
                     then abort "Domain %s already exists." [of_opt (live_host c)]
                     else ret tt)).
  - intros; reflexivity.
  - intros obj e1 w1 Hf _. rewrite Hf. eexists. reflexivity.
  - intros; apply one_call_rpc.
Qed.

Lemma takes_create_site {W} (h : handler W) (c : Config) (ssn : string)
    (e : Env) (w : W) :
  takes ssn [Create "website" (VStr (proj_name c)) None "Website: %s already exists."
               "create_website"]
    (exec h (create_site c ssn e) w).
Proof.
  unfold create_site.
  apply (takes_create h ssn "website" _ None _ "create_website"
           (fun r => abort_if_found r "Website: %s already exists." "name")).
  - intros; apply abort_if_found_none.
  - intros; now apply abort_if_found_some.
  - intros; apply one_call_rpc.
Qed.

Lemma exec_get_env_then {W A} (h : handler W) (k : Env -> M A) (e : Env) (w : W) :
  exec h (bindM get_env k e) w = exec h (k e e) w.
Proof.
  rewrite exec_bindM, exec_get_env. cbn beta iota.
  destruct (exec h (k e e) w) as [[o w1] tr]. reflexivity.
Qed.

(** What [takes] says of a whole run. *)
Lemma takes_all {W A} (h : handler W) (ssn : string) (ss : list step) (p : Prog A) (w : W) :
  takes ssn ss (exec h p w) ->
  follows ssn ss (trace_of (exec h p w)) (stop_of (result_of (exec h p w))).
Proof.
  unfold takes. destruct (exec h p w) as [[[a | f] w1] tr]; cbn.
  - intros H. specialize (H [] [] None (fl_end ssn [] None)).
    now rewrite !app_nil_r in H.
  - intros H. specialize (H []). now rewrite app_nil_r in H.
Qed.

(** A run that starts off the panel, logs in, and then takes the steps. *)
Lemma follows_after_login {W A B} (h : handler W) (ss : list step)
    (before : M B) (after : string -> M A) (e : Env) (w : W) :
  (forall e0, issues_only off_panel (before e0)) ->
  (forall ssn e1 w1, takes ssn ss (exec h (after ssn e1) w1)) ->
  let x := exec h (bindM before (fun _ => bindM get_webf_session after) e) w in
  exists ssn, follows ssn ss (trace_of x) (stop_of (result_of x)).
Proof.
  intros Hb Ha x. subst x. rewrite exec_bindM.
  pose proof (only_trace _ h _ w (Hb e)) as H0.
  destruct (exec h (before e) w) as [[[[b e0] | f] w0] tr0]; cbn [trace_of snd] in H0.
  2:{ exists EmptyString. cbn. rewrite <- (app_nil_r tr0).
      apply follows_skip_all; [exact H0 | apply fl_end]. }
  rewrite exec_bindM.
  pose proof (only_trace _ h _ w0 (session_off_panel e0)) as H1.
  destruct (exec h (get_webf_session e0) w0) as [[[[ssn e1] | f] w1] tr1];
    cbn [trace_of snd] in H1.
  2:{ exists EmptyString. cbn. rewrite <- (app_nil_r (tr0 ++ tr1)).
      apply follows_skip_all; [now apply Forall_app | apply fl_end]. }
  exists ssn. pose proof (takes_all h ssn ss _ w1 (Ha ssn e1 w1)) as H2.
  destruct (exec h (after ssn e1) w1) as [[o w2] tr2].
  cbn [trace_of result_of fst snd] in *.
  apply follows_skip_all; [exact H0|]. apply follows_skip_all; [exact H1 | exact H2].
Qed.

Lemma create_follows_steps {W} (h : handler W) (e : Env) (w : W) :
  let x := exec h (create e) w in
  exists ssn, follows ssn (create_steps e) (trace_of x) (stop_of (result_of x)).
Proof.
  unfold create. rewrite exec_get_env_then.
  apply (follows_after_login h (create_steps e) create_virtualenv).
  - exact create_virtualenv_off_panel.
  - intros ssn e1 w1. unfold create_steps.
    apply (takes_bindM h ssn [_; _] [_; _; _; _]); [apply takes_create_database|].
    intros _ e2 w2.
    apply (takes_bindM h ssn [_] [_; _; _]); [apply takes_create_custom_app|].
    intros _ e3 w3.
    apply (takes_bindM h ssn [_] [_; _]); [apply takes_create_static_app|].
    intros _ e4 w4.
    apply (takes_bindM h ssn [_] [_]); [apply takes_create_domain|].
    intros _ e5 w5.
    apply (takes_bindM h ssn [_] []); [apply takes_create_site|].
    intros _ e6 w6. apply takes_quiet. quiet.
    + apply upload_project_off_panel.
    + apply install_off_panel.
Qed.

Lemma remove_follows_steps {W} (h : handler W) (e : Env) (w : W) :
  let x := exec h (remove e) w in
  exists ssn, follows ssn (remove_steps e) (trace_of x) (stop_of (result_of x)).
Proof.
  unfold remove. rewrite exec_get_env_then.
  match goal with
  | |- context [exec h (bindM get_webf_session ?k e) w] =>
      pose proof (follows_after_login h (remove_steps e) (ret tt) k e w) as H
  end.
  cbn zeta in H. rewrite exec_bindM, exec_ret in H. cbn beta iota in H.
  destruct (exec h (bindM get_webf_session _ e) w) as [[o w1] tr] eqn:E.
  cbn [app] in H. apply H; [intros; apply only_ret|].
  intros ssn e1 w1'. unfold remove_steps, remove_sweeps.
  rewrite <- !app_comm_cons. cbn [app].
  apply (takes_bindM h ssn [_] (_ :: _)); [apply takes_sweep|]. intros _ e2 w2.
  apply (takes_bindM h ssn [_] (_ :: _)); [apply takes_sweep|]. intros _ e3 w3.
  apply (takes_bindM h ssn [_] (_ :: _)); [apply takes_main_app|]. intros _ e4 w4.
  apply (takes_bindM h ssn [_] (_ :: _)); [apply takes_sweep|]. intros _ e5 w5.
  apply (takes_bindM h ssn [_] (_ :: _)); [apply takes_sweep|]. intros _ e6 w6.
  apply (takes_bindM h ssn [_] _); [apply takes_sweep|]. intros _ e7 w7.
  unfold remove_cronjob.
  destruct (twitter_period e) as [n|].
  - apply (takes_bindM h ssn [_] []); [apply takes_call|]. intros _ e8 w8.
    apply takes_quiet, remove_files_off_panel.
  - apply (takes_bindM h ssn [] []); [apply takes_ret|]. intros _ e8 w8.
    apply takes_quiet, remove_files_off_panel.
Qed.

End Provisioning.

(* ===================================================================== *)
(** * What the conversations with the control panel look like            *)
(* ===================================================================== *)

Module Panel.
Import Text Script Fabfile ScriptFacts MonadFacts Provisioning.
Local Open Scope list_scope.
Local Open Scope script_scope.

(** ** Names of methods *)

Lemma chars_app (a b : string) :
  list_ascii_of_string (a +:+ b) = list_ascii_of_string a ++ list_ascii_of_string b.
Proof.
  induction a as [|x a IH]; [reflexivity|].
  rewrite TextFacts.append_cons. simpl. now rewrite IH.
Qed.

Lemma append_inj_r (a b c : string) : a +:+ c = b +:+ c -> a = b.
Proof.
  intros H. apply (f_equal list_ascii_of_string) in H.
  rewrite !chars_app in H. apply app_inv_tail in H.
  rewrite <- (string_of_list_ascii_of_string a), <- (string_of_list_ascii_of_string b).
  now rewrite H.
Qed.

Lemma list_request_inj (ssn ssn' ty ty' : string) :
  list_request ssn ty = list_request ssn' ty' -> ty = ty'.
Proof.
  unfold list_request. intros H.
  assert (H' : "list_" +:+ ty +:+ "s" = "list_" +:+ ty' +:+ "s") by congruence.
  apply (inj (String.app "list_")) in H'. now apply append_inj_r in H'.
Qed.

Lemma list_is_not_create (ssn ty m : string) (args : list pyval) :
  list_request ssn ty = ReqRpc m args -> startswith "create_" m = false.
Proof. intros [= <- _]. reflexivity. Qed.

Lemma list_is_not_delete (ssn ty m : string) (args : list pyval) :
  list_request ssn ty = ReqRpc m args -> startswith "delete_" m = false.
Proof. intros [= <- _]. reflexivity. Qed.

Lemma startswith_app (p s : string) : startswith p (p +:+ s) = true.
Proof.
  unfold startswith. induction p as [|c p IH].
  - destruct s; reflexivity.
  - rewrite TextFacts.append_cons. simpl. destruct (ascii_dec c c); [exact IH | congruence].
Qed.

Lemma list_starts_with_list (ssn ty m : string) (args : list pyval) :
  list_request ssn ty = ReqRpc m args -> startswith "list_" m = true.
Proof. intros [= <- _]. apply startswith_app. Qed.

Lemma delete_request_inj (ssn ty ty' : string) (name name' : pyval) (xs xs' : list pyval) :
  delete_request ssn ty name xs = delete_request ssn ty' name' xs' ->
  ty = ty' /\ name = name' /\ xs = xs'.
Proof.
  unfold delete_request. intros H.
  assert (H' : "delete_" +:+ ty = "delete_" +:+ ty') by congruence.
  apply (inj (String.app "delete_")) in H'.
  repeat split; congruence.
Qed.

Lemma off_panel_has_no_rpc (mid pre post : trace) (m : string) (args : list pyval) a :
  Forall (fun ev => off_panel (fst ev)) mid ->
  mid = pre ++ (ReqRpc m args, a) :: post -> False.
Proof.
  intros H ->. apply Forall_app in H as [_ H]. inversion H as [|? ? Hr _]. discriminate Hr.
Qed.

(** Where an event sits in [mid ++ x :: rest]. *)
Lemma split_around {A} (mid rest pre post : list A) (x y : A) :
  mid ++ x :: rest = pre ++ y :: post ->
  (exists k, mid = pre ++ y :: k /\ post = k ++ x :: rest) \/
  (mid = pre /\ x = y /\ rest = post) \/
  (exists k, pre = mid ++ x :: k /\ rest = k ++ y :: post).
Proof.
  revert pre. induction mid as [|m mid IH]; intros pre H.
  - destruct pre as [|p pre]; simpl in H.
    + injection H as -> ->. right; left. repeat split.
    + injection H as -> ->. right; right. exists pre. split; reflexivity.
  - destruct pre as [|p pre]; simpl in H.
    + injection H as <- <-. left. exists mid. split; reflexivity.
    + injection H as <- H. destruct (IH _ H) as [(k & -> & ->) | [(-> & -> & ->) | (k & -> & ->)]].
      * left. exists k. split; reflexivity.
      * right; left. repeat split.
      * right; right. exists k. split; reflexivity.
Qed.


Lemma list_is_off_panel_false (ssn ty : string) : ~ off_panel (list_request ssn ty).
Proof. discriminate. Qed.

Lemma list_not_in_mid (ssn ty : string) (a : answer) (mid : trace) :
  Forall (fun ev => off_panel (fst ev)) mid -> ~ In (list_request ssn ty, a) mid.
Proof.
  intros H Hin. apply (proj1 (List.Forall_forall _ _) H) in Hin. discriminate Hin.
Qed.

Lemma rpc_not_in_mid (m : string) (args : list pyval) (a : answer) (mid : trace) :
  Forall (fun ev => off_panel (fst ev)) mid -> ~ In (ReqRpc m args, a) mid.
Proof.
  intros H Hin. apply (proj1 (List.Forall_forall _ _) H) in Hin. discriminate Hin.
Qed.

Lemma cons_inv {A} (x y : A) (l l' : list A) : x :: l = y :: l' -> x = y /\ l = l'.
Proof. now intros [= -> ->]. Qed.

Lemma one_inv {A} (x y : A) (pre post : list A) : [x] = pre ++ y :: post -> pre = [] /\ x = y /\ post = [].
Proof.
  destruct pre as [|p pre]; simpl.
  - now intros [= -> <-].
  - intros [= _ H]. destruct pre; discriminate.
Qed.

(** The conversation is [x :: rest] and an event sits at [pre ++ _ :: post]:
    it is the first one, or it sits in [rest]. *)
Ltac first_or_later Ht Hhd Htl p pre :=
  destruct pre as [|p pre]; simpl in Ht; apply cons_inv in Ht as [Hhd Htl].

(** ** Creations come after their checks *)

Lemma follows_create_checked (ssn : string) (steps : list step) (tr : trace) o :
  follows ssn steps tr o -> Forall guard_step steps ->
  forall pre m args a post,
    tr = pre ++ (ReqRpc m args, a) :: post ->
    startswith "create_" m = true ->
    exists ty name sub msg xs l pre1 mid,
      In (Create ty name sub msg m) steps /\
      args = VStr ssn :: name :: xs /\
      pre = pre1 ++ (list_request ssn ty, AStructs l) :: mid /\
      Forall (fun ev => off_panel (fst ev)) mid /\
      find_in ty name sub l = NotFound.
Proof.
  induction 1 as
    [ steps o
    | steps r a0 rest o Hr _ IH
    | ty name sub msg steps l obj args0 Hf
    | ty name sub msg steps l rest o Hf _ IH
    | ty name sub msg steps a0 f Hu
    | ty name sub msg m steps l obj args0 Hf
    | ty name sub msg m steps l mid args0 a0 rest o Hf Hmid Ha _ IH
    | ty name sub msg m steps l mid f Hf Hmid
    | ty name sub msg m steps a0 f Hu
    | ty name sub args0 steps l rest o Hf _ IH
    | ty name sub args0 steps l obj a0 rest o Hf Ha _ IH
    | ty name sub args0 steps a0 f Hu
    | method name steps args0 a0 rest o Ha _ IH ];
    intros Hg pre m' args' a' post Ht Hm.
  - destruct pre; discriminate.
  - (* skip *)
    first_or_later Ht Hhd Htl p pre.
    + apply (f_equal fst) in Hhd; cbn [fst] in Hhd. subst r. discriminate Hr.
    + destruct (IH Hg _ _ _ _ _ Htl Hm)
        as (ty & name & sub & msg & xs & l & pre1 & mid & Hin & Hargs & Hp & Hmid & Hf).
      exists ty, name, sub, msg, xs, l, (p :: pre1), mid. subst. auto.
  - apply one_inv in Ht as (_ & Hhd & _). apply (f_equal fst) in Hhd; cbn [fst] in Hhd.
    apply list_is_not_create in Hhd. congruence.
  - (* a free check *)
    inversion Hg as [|? ? _ Hg']; subst.
    first_or_later Ht Hhd Htl p pre.
    + apply (f_equal fst) in Hhd; cbn [fst] in Hhd.
      apply list_is_not_create in Hhd. congruence.
    + destruct (IH Hg' _ _ _ _ _ Htl Hm)
        as (ty' & name' & sub' & msg' & xs & l' & pre1 & mid & Hin & Hargs & Hp & Hmid & Hf').
      exists ty', name', sub', msg', xs, l', (p :: pre1), mid. subst.
      repeat split; auto. now right.
  - apply one_inv in Ht as (_ & Hhd & _). apply (f_equal fst) in Hhd; cbn [fst] in Hhd.
    apply list_is_not_create in Hhd. congruence.
  - apply one_inv in Ht as (_ & Hhd & _). apply (f_equal fst) in Hhd; cbn [fst] in Hhd.
    apply list_is_not_create in Hhd. congruence.
  - (* a creation that went through *)
    inversion Hg as [|? ? _ Hg']; subst.
    first_or_later Ht Hhd Htl p pre.
    + apply (f_equal fst) in Hhd; cbn [fst] in Hhd.
      apply list_is_not_create in Hhd. congruence.
    + destruct (split_around _ _ _ _ _ _ Htl)
        as [(k & Hk & _) | [(<- & Hev & <-) | (k & -> & Hk)]].
      * exfalso. eapply off_panel_has_no_rpc; eauto.
      * injection Hev as <- <- _.
        exists ty, name, sub, msg, args0, l, [], mid. subst. repeat split; auto. now left.
      * destruct (IH Hg' _ _ _ _ _ Hk Hm)
          as (ty' & name' & sub' & msg' & xs & l' & pre1 & mid' & Hin & Hargs & Hp
              & Hmid' & Hf').
        exists ty', name', sub', msg', xs, l',
          (p :: mid ++ (ReqRpc m (VStr ssn :: name :: args0), a0) :: pre1), mid'.
        subst. repeat split; auto; [now right|].
        simpl. now rewrite <- app_assoc.
  - first_or_later Ht Hhd Htl p pre.
    + apply (f_equal fst) in Hhd; cbn [fst] in Hhd.
      apply list_is_not_create in Hhd. congruence.
    + exfalso. eapply off_panel_has_no_rpc; eauto.
  - apply one_inv in Ht as (_ & Hhd & _). apply (f_equal fst) in Hhd; cbn [fst] in Hhd.
    apply list_is_not_create in Hhd. congruence.
  - inversion Hg as [|? ? Hs _]. contradiction.
  - inversion Hg as [|? ? Hs _]. contradiction.
  - inversion Hg as [|? ? Hs _]. contradiction.
  - inversion Hg as [|? ? Hs _]. contradiction.
Qed.


(** ** A check that finds its object ends the run *)

Ltac follows_cases H :=
  induction H as
    [ steps o
    | steps r a0 rest o Hr Hrest IH
    | ty0 name sub msg steps l0 obj0 args0 Hf
    | ty0 name sub msg steps l0 rest o Hf Hrest IH
    | ty0 name sub msg steps a0 f Hu
    | ty0 name sub msg m steps l0 obj0 args0 Hf
    | ty0 name sub msg m steps l0 mid args0 a0 rest o Hf Hmid Ha Hrest IH
    | ty0 name sub msg m steps l0 mid f Hf Hmid
    | ty0 name sub msg m steps a0 f Hu
    | ty0 name sub args0 steps l0 rest o Hf Hrest IH
    | ty0 name sub args0 steps l0 obj0 a0 rest o Hf Ha Hrest IH
    | ty0 name sub args0 steps a0 f Hu
    | method name steps args0 a0 rest o Ha Hrest IH ].

(** The first event is the list call of [ty0] and it is the list call of
    [ty] with the list [l]. *)
Ltac same_list Hhd :=
  let Hr := fresh "Hr" in
  let Ha := fresh "Ha" in
  pose proof (f_equal fst Hhd) as Hr; pose proof (f_equal snd Hhd) as Ha;
  cbn [fst snd] in Hr, Ha; apply list_request_inj in Hr; subst.

Lemma follows_found_stops (ssn : string) (steps : list step) (tr : trace) o :
  follows ssn steps tr o -> Forall guard_step steps ->
  forall pre ty l post,
    tr = pre ++ (list_request ssn ty, AStructs l) :: post ->
    exists name sub msg,
      (In (Check ty name sub msg) steps \/ exists m, In (Create ty name sub msg m) steps) /\
      match find_in ty name sub l with
      | Found _ => post = [] /\ exists args, o = Some (Abort msg args)
      | NotFound => True
      | LookupRaises _ => post = []
      end.
Proof.
  intros H. follows_cases H; intros Hg pre ty l post Ht.
  - destruct pre; discriminate.
  - first_or_later Ht Hhd Htl p pre.
    + apply (f_equal fst) in Hhd; cbn [fst] in Hhd. subst r. discriminate Hr.
    + exact (IH Hg _ _ _ _ Htl).
  - apply one_inv in Ht as (_ & Hhd & ->). same_list Hhd. injection Ha as ->.
    exists name, sub, msg. split; [left; now left|]. rewrite Hf. eauto.
  - inversion Hg as [|? ? _ Hg']; subst. first_or_later Ht Hhd Htl p pre.
    + same_list Hhd. injection Ha as ->.
      exists name, sub, msg. split; [left; now left|]. now rewrite Hf.
    + destruct (IH Hg' _ _ _ _ Htl) as (n & s & g & [Hin | [m Hin]] & Hm);
        exists n, s, g; (split; [|exact Hm]); [left | right; exists m]; now right.
  - apply one_inv in Ht as (_ & Hhd & ->). same_list Hhd.
    exists name, sub, msg. split; [left; now left|].
    destruct Hu as [exc ->]. reflexivity.
  - apply one_inv in Ht as (_ & Hhd & ->). same_list Hhd. injection Ha as ->.
    exists name, sub, msg. split; [right; exists m; now left|]. rewrite Hf. eauto.
  - inversion Hg as [|? ? Hm Hg']; subst. first_or_later Ht Hhd Htl p pre.
    + same_list Hhd. injection Ha0 as ->.
      exists name, sub, msg. split; [right; exists m; now left|]. now rewrite Hf.
    + destruct (split_around _ _ _ _ _ _ Htl)
        as [(k & Hk & _) | [(<- & Hev & <-) | (k & -> & Hk)]].
      * exfalso. unfold list_request in Hk. eapply off_panel_has_no_rpc; eauto.
      * exfalso. apply (f_equal fst) in Hev; cbn [fst] in Hev. symmetry in Hev.
        apply list_starts_with_list in Hev. simpl in Hm. congruence.
      * destruct (IH Hg' _ _ _ _ Hk) as (n & s & g & [Hin | [m' Hin]] & Hm');
          exists n, s, g; (split; [|exact Hm']); [left | right; exists m']; now right.
  - first_or_later Ht Hhd Htl p pre.
    + same_list Hhd. injection Ha as ->.
      exists name, sub, msg. split; [right; exists m; now left|]. now rewrite Hf.
    + exfalso. unfold list_request in Htl. eapply off_panel_has_no_rpc; eauto.
  - apply one_inv in Ht as (_ & Hhd & ->). same_list Hhd.
    exists name, sub, msg. split; [right; exists m; now left|].
    destruct Hu as [exc ->]. reflexivity.
  - inversion Hg as [|? ? Hs _]. contradiction.
  - inversion Hg as [|? ? Hs _]. contradiction.
  - inversion Hg as [|? ? Hs _]. contradiction.
  - inversion Hg as [|? ? Hs _]. contradiction.
Qed.

(** ** The first creation: the database *)

Lemma off_panel_not_create (r : request) : off_panel r -> is_create_call r = false.
Proof. destruct r; try reflexivity. discriminate. Qed.


Lemma list_not_create (ssn ty : string) : is_create_call (list_request ssn ty) = false.
Proof. reflexivity. Qed.


(** Steps that never list [ty] never ask for the list of [ty]. *)
Lemma follows_not_listed (ssn : string) (steps : list step) (tr : trace) o (ty : string) :
  follows ssn steps tr o -> Forall guard_step steps ->
  Forall (fun s => listed s <> Some ty) steps ->
  forall pre a post, tr = pre ++ (list_request ssn ty, a) :: post -> False.
Proof.
  intros H. follows_cases H; intros Hg Hn pre a post Ht.
  - destruct pre; discriminate.
  - first_or_later Ht Hhd Htl p pre.
    + apply (f_equal fst) in Hhd; cbn [fst] in Hhd. subst r. discriminate Hr.
    + exact (IH Hg Hn _ _ _ Htl).
  - apply one_inv in Ht as (_ & Hhd & _). same_list Hhd.
    inversion Hn as [|? ? Hl _]. now apply Hl.
  - inversion Hg as [|? ? _ Hg']; inversion Hn as [|? ? Hl Hn']; subst.
    first_or_later Ht Hhd Htl p pre.
    + same_list Hhd. now apply Hl.
    + exact (IH Hg' Hn' _ _ _ Htl).
  - apply one_inv in Ht as (_ & Hhd & _). same_list Hhd.
    inversion Hn as [|? ? Hl _]. now apply Hl.
  - apply one_inv in Ht as (_ & Hhd & _). same_list Hhd.
    inversion Hn as [|? ? Hl _]. now apply Hl.
  - inversion Hg as [|? ? Hm Hg']; inversion Hn as [|? ? Hl Hn']; subst.
    first_or_later Ht Hhd Htl p pre.
    + same_list Hhd. now apply Hl.
    + destruct (split_around _ _ _ _ _ _ Htl)
        as [(k & Hk & _) | [(<- & Hev & <-) | (k & -> & Hk)]].
      * unfold list_request in Hk. eapply off_panel_has_no_rpc; eauto.
      * apply (f_equal fst) in Hev; cbn [fst] in Hev. symmetry in Hev.
        apply list_starts_with_list in Hev. simpl in Hm. congruence.
      * exact (IH Hg' Hn' _ _ _ Hk).
  - inversion Hn as [|? ? Hl _]; subst. first_or_later Ht Hhd Htl p pre.
    + same_list Hhd. now apply Hl.
    + unfold list_request in Htl. eapply off_panel_has_no_rpc; eauto.
  - apply one_inv in Ht as (_ & Hhd & _). same_list Hhd.
    inversion Hn as [|? ? Hl _]. now apply Hl.
  - inversion Hg as [|? ? Hs _]. contradiction.
  - inversion Hg as [|? ? Hs _]. contradiction.
  - inversion Hg as [|? ? Hs _]. contradiction.
  - inversion Hg as [|? ? Hs _]. contradiction.
Qed.

(** The steps are some checks, then the creation of [ty], then steps that
    do not list [ty] again. *)
Ltac no_checks checks Hs Hc :=
  destruct checks as [|c checks]; simpl in Hs;
  [ injection Hs as ? ? ? ? ? ?; subst
  | exfalso; injection Hs as ? ?; subst; inversion Hc as [|? ? Hc1 _]; exact Hc1 ].

Ltac some_check checks Hs :=
  destruct checks as [|c checks]; simpl in Hs; [discriminate Hs|];
  injection Hs as ? ?; subst.

Lemma follows_first_creation (ssn : string) (steps : list step) (tr : trace) o :
  follows ssn steps tr o ->
  forall checks ty name sub msg m rest,
    steps = checks ++ Create ty name sub msg m :: rest ->
    Forall check_step checks ->
    Forall (fun s => listed s <> Some ty) checks ->
    Forall (fun s => listed s <> Some ty) rest ->
    Forall guard_step rest ->
    startswith "list_" m = false ->
    forall pre l post obj,
      tr = pre ++ (list_request ssn ty, AStructs l) :: post ->
      find_in ty name sub l = Found obj ->
      Forall (fun ev => is_create_call (fst ev) = false) tr /\
      post = [] /\ exists args, o = Some (Abort msg args).
Proof.
  intros H. follows_cases H;
    intros checks ty name' sub' msg' m' rest' Hs Hc Hn Hn' Hg Hm pre l post obj Ht Hfd.
  - destruct pre; discriminate.
  - first_or_later Ht Hhd Htl p pre.
    + apply (f_equal fst) in Hhd; cbn [fst] in Hhd. subst r. discriminate Hr.
    + destruct (IH _ _ _ _ _ _ _ Hs Hc Hn Hn' Hg Hm _ _ _ _ Htl Hfd) as (Hno & Hp & Ho).
      split; [|now split]. constructor; [|exact Hno]. now apply off_panel_not_create.
  - some_check checks Hs. apply one_inv in Ht as (_ & Hhd & _). same_list Hhd.
    exfalso. inversion Hn as [|? ? Hl _]. now apply Hl.
  - some_check checks Hs.
    inversion Hc as [|? ? _ Hc']; inversion Hn as [|? ? Hl Hnn]; subst.
    first_or_later Ht Hhd Htl p pre.
    + same_list Hhd. exfalso. now apply Hl.
    + destruct (IH _ _ _ _ _ _ _ eq_refl Hc' Hnn Hn' Hg Hm _ _ _ _ Htl Hfd) as (Hno & Hp & Ho).
      split; [|now split]. constructor; [|exact Hno]. apply list_not_create.
  - some_check checks Hs. apply one_inv in Ht as (_ & Hhd & _). same_list Hhd.
    exfalso. inversion Hn as [|? ? Hl _]. now apply Hl.
  - no_checks checks Hs Hc. apply one_inv in Ht as (-> & Hhd & ->).
    split; [|split; [reflexivity | eauto]].
    constructor; [apply list_not_create | constructor].
  - no_checks checks Hs Hc. exfalso. first_or_later Ht Hhd Htl p pre.
    + same_list Hhd. injection Ha0 as ->. congruence.
    + destruct (split_around _ _ _ _ _ _ Htl)
        as [(k & Hk & _) | [(<- & Hev & <-) | (k & -> & Hk)]].
      * unfold list_request in Hk. eapply off_panel_has_no_rpc; eauto.
      * apply (f_equal fst) in Hev; cbn [fst] in Hev. symmetry in Hev.
        apply list_starts_with_list in Hev. congruence.
      * exact (follows_not_listed _ _ _ _ _ Hrest Hg Hn' _ _ _ Hk).
  - no_checks checks Hs Hc. exfalso. first_or_later Ht Hhd Htl p pre.
    + same_list Hhd. injection Ha as ->. congruence.
    + unfold list_request in Htl. eapply off_panel_has_no_rpc; eauto.
  - no_checks checks Hs Hc. exfalso. apply one_inv in Ht as (_ & Hhd & _). same_list Hhd.
    destruct Hu as [exc Hu]. congruence.
  - destruct checks; [discriminate Hs|]. injection Hs as ? ?; subst.
    inversion Hc as [|? ? Hc1 _]. contradiction.
  - destruct checks; [discriminate Hs|]. injection Hs as ? ?; subst.
    inversion Hc as [|? ? Hc1 _]. contradiction.
  - destruct checks; [discriminate Hs|]. injection Hs as ? ?; subst.
    inversion Hc as [|? ? Hc1 _]. contradiction.
  - destruct checks; [discriminate Hs|]. injection Hs as ? ?; subst.
    inversion Hc as [|? ? Hc1 _]. contradiction.
Qed.

(** ** Deletions come right after a look that found the object *)





(** ** The session *)

Lemma off_panel_carries (ssn : string) (r : request) : off_panel r -> carries ssn r.
Proof. destruct r; try exact (fun _ => I). discriminate. Qed.

Lemma follows_session (ssn : string) (steps : list step) (tr : trace) o :
  follows ssn steps tr o -> Forall (fun ev => carries ssn (fst ev)) tr.
Proof.
  assert (Hl : forall ty, carries ssn (list_request ssn ty)) by (intros; now exists []).
  assert (Hm : forall mid : trace, Forall (fun ev => off_panel (fst ev)) mid ->
                                   Forall (fun ev => carries ssn (fst ev)) mid).
  { intros mid Hmid. eapply List.Forall_impl; [|exact Hmid].
    intros [r a]. apply off_panel_carries. }
  intros H. follows_cases H; repeat (constructor; cbn [fst]); auto.
  - now apply off_panel_carries.
  - apply Forall_app. split; [now apply Hm|]. constructor; [|exact IH].
    cbn. eauto.
  - cbn. eauto.
  - cbn. eauto.
Qed.

(** ** The steps of [create] and of [remove] *)

Lemma create_steps_guarded (c : Config) : Forall guard_step (create_steps c).
Proof. repeat constructor. Qed.

Lemma remove_steps_sweep (c : Config) : Forall sweep_step (remove_steps c).
Proof.
  unfold remove_steps. apply Forall_app. split.
  - repeat constructor; discriminate.
  - destruct (twitter_period c); repeat constructor.
Qed.


Lemma stopped_result {A} (o : outcome A) (f : failure) : stop_of o = Some f -> o = Stopped f.
Proof. destruct o; simpl; congruence. Qed.

(** ** The virtualenv: ask, then replace *)

Lemma exec_bindM_stopped {W A B} (h : handler W) (p : M A) (k : A -> M B) (e : Env) (w w1 : W)
    (f : failure) (tr : trace) :
  exec h (p e) w = (Stopped f, w1, tr) -> exec h (bindM p k e) w = (Stopped f, w1, tr).
Proof. intros Hp. rewrite exec_bindM, Hp. reflexivity. Qed.

Lemma trace_bindM {W A B} (h : handler W) (p : M A) (k : A -> M B) (e : Env) (w : W) :
  exists rest, trace_of (exec h (bindM p k e) w) = trace_of (exec h (p e) w) ++ rest.
Proof.
  rewrite exec_bindM. destruct (exec h (p e) w) as [[[[a e1] | f] w1] tr1].
  - destruct (exec h (k a e1) w1) as [[o w2] tr2]. now exists tr2.
  - exists []. cbn. now rewrite app_nil_r.
Qed.

Lemma trace_with_cd {W A} (h : handler W) (path : string) (body : M A) (e : Env) (w : W) :
  trace_of (exec h (with_cd path body e) w)
  = trace_of (exec h (body (set_cwd (path :: cwd e) e)) w).
Proof.
  rewrite exec_with_cd. now destruct (exec h _ w) as [[[[a e1] | f] w1] tr].
Qed.

Lemma virtualenv_declined {W} (h : handler W) (e : Env) (w w1 w2 w3 : W) (s : string) :
  h (mkdir_request e) w = (AStr s, w1) ->
  h (venv_request e) w1 = (ABool true, w2) ->
  h (replace_request e) w2 = (ABool false, w3) ->
  exec h (create_virtualenv e) w
  = (Stopped (Raise "TypeError"), w3,
     [(mkdir_request e, AStr s); (venv_request e, ABool true);
      (replace_request e, ABool false)]).
Proof.
  intros H1 H2 H3. unfold create_virtualenv. rewrite exec_get_env_then.
  rewrite exec_bindM. unfold run at 1. rewrite exec_ask. fold (mkdir_request e). rewrite H1.
  cbn [fst snd as_str]. cbn beta iota. rewrite exec_with_cd.
  rewrite exec_bindM. unfold exists_. rewrite exec_ask.
  cbn [cwd command_prefixes set_cwd cfg]. fold (venv_request e). rewrite H2.
  cbn [fst snd as_bool]. cbn beta iota.
  rewrite exec_bindM, exec_bindM. unfold confirm. rewrite exec_ask. fold (replace_request e). rewrite H3.
  cbn [fst snd as_bool]. cbn beta iota. rewrite exec_raise. reflexivity.
Qed.

Lemma virtualenv_replaced {W} (h : handler W) (e : Env) (w w1 w2 w3 : W) (s : string) :
  h (mkdir_request e) w = (AStr s, w1) ->
  h (venv_request e) w1 = (ABool true, w2) ->
  h (replace_request e) w2 = (ABool true, w3) ->
  exists rest,
    trace_of (exec h (create_virtualenv e) w)
    = (mkdir_request e, AStr s) :: (venv_request e, ABool true)
      :: (replace_request e, ABool true)
      :: (clear_request e, fst (h (clear_request e) w3)) :: rest.
Proof.
  intros H1 H2 H3. unfold create_virtualenv. rewrite exec_get_env_then.
  rewrite exec_bindM. unfold run at 1. rewrite exec_ask. fold (mkdir_request e). rewrite H1.
  cbn [fst snd as_str]. cbn beta iota.
  match goal with
  | |- context [exec h (with_cd ?p ?b e) w1] =>
      pose proof (trace_with_cd h p b e w1) as Hcd;
      destruct (exec h (with_cd p b e) w1) as [[o1 w5] tr1]
  end.
  cbn [trace_of snd] in Hcd |- *. subst tr1.
  match goal with
  | |- context [exec h (bindM ?p ?k ?e') w1] =>
      rewrite (exec_bindM h p k e' w1)
  end.
  unfold exists_. rewrite exec_ask.
  cbn [cwd command_prefixes set_cwd cfg]. fold (venv_request e). rewrite H2.
  cbn [fst snd as_bool]. cbn beta iota.
  match goal with
  | |- context [exec h (bindM ?p ?k ?e') w2] =>
      destruct (trace_bindM h p k e' w2) as [rest Hrest];
      destruct (exec h (bindM p k e') w2) as [[o2 w6] tr2]
  end.
  cbn [trace_of snd] in Hrest |- *. subst tr2.
  rewrite exec_bindM. unfold confirm. rewrite exec_ask. fold (replace_request e). rewrite H3.
  cbn [fst snd as_bool]. cbn beta iota.
  rewrite exec_bindM. unfold run at 1. rewrite exec_ask.
  cbn [cwd command_prefixes set_cwd cfg]. fold (clear_request e).
  destruct (h (clear_request e) w3) as [a w4]. cbn [fst snd].
  destruct (as_str a); cbn beta iota; rewrite ?exec_ret; cbn [snd app]; eauto.
Qed.


(** C5: in [create], every call that creates an object of the control
    panel comes after a look for that very object which found nothing,
    with no other call to the panel in between; a look that finds its
    object is the last thing that happens, and the run aborts with the
    message of that object.  In particular, when the database of the
    project is found, the run aborts there and no creation call was made
    at all.  All calls carry the session of the login.  The virtualenv is
    the exception: when it is there the operator is asked, and the run
    clears it and goes on, or stops, by the answer. *)
Theorem create_checks_before_creating {W} (h : handler W) (e : Env) (w : W) :
  let x := exec h (create e) w in
  (exists ssn,
     Forall (fun ev => carries ssn (fst ev)) (trace_of x) /\
     (forall pre m args a post,
        trace_of x = pre ++ (ReqRpc m args, a) :: post ->
        startswith "create_" m = true ->
        exists ty name sub msg xs l pre1 mid,
          In (Create ty name sub msg m) (create_steps e) /\
          args = VStr ssn :: name :: xs /\
          pre = pre1 ++ (list_request ssn ty, AStructs l) :: mid /\
          Forall (fun ev => off_panel (fst ev)) mid /\
          find_in ty name sub l = NotFound) /\
     (forall pre ty l post,
        trace_of x = pre ++ (list_request ssn ty, AStructs l) :: post ->
        exists name sub msg,
          (In (Check ty name sub msg) (create_steps e) \/
           exists m, In (Create ty name sub msg m) (create_steps e)) /\
          forall obj, find_in ty name sub l = Found obj ->
            post = [] /\ exists args, result_of x = Stopped (Abort msg args)) /\
     (forall pre l post obj,
        trace_of x = pre ++ (list_request ssn "db", AStructs l) :: post ->
        find_in "db" (VStr (proj_name e)) None l = Found obj ->
        Forall (fun ev => is_create_call (fst ev) = false) (trace_of x) /\
        post = [] /\
        exists args, result_of x = Stopped (Abort "Databse %s already exists." args))) /\
  (forall s w1 w2 b w3,
     h (mkdir_request e) w = (AStr s, w1) ->
     h (venv_request e) w1 = (ABool true, w2) ->
     h (replace_request e) w2 = (ABool b, w3) ->
     if b
     then exists a rest,
            trace_of x = (mkdir_request e, AStr s) :: (venv_request e, ABool true)
                         :: (replace_request e, ABool true) :: (clear_request e, a) :: rest
     else x = (Stopped (Raise "TypeError"), w3,
               [(mkdir_request e, AStr s); (venv_request e, ABool true);
                (replace_request e, ABool false)])).
Proof.
  intros x. split.
  - destruct (create_follows_steps h e w) as [ssn H]. fold x in H.
    exists ssn. split; [exact (follows_session _ _ _ _ H)|]. split; [|split].
    + intros pre m args a post Ht Hm.
      exact (follows_create_checked _ _ _ _ H (create_steps_guarded e) _ _ _ _ _ Ht Hm).
    + intros pre ty l post Ht.
      destruct (follows_found_stops _ _ _ _ H (create_steps_guarded e) _ _ _ _ Ht)
        as (name & sub & msg & Hin & Hf).
      exists name, sub, msg. split; [exact Hin|]. intros obj Hobj. rewrite Hobj in Hf.
      destruct Hf as [-> [args Ho]]. split; [reflexivity|].
      exists args. now apply stopped_result.
    + intros pre l post obj Ht Hf.
      assert (Hx := follows_first_creation _ _ _ _ H
                  [Check "db_user" (VStr (proj_name e)) None "Database user %s already exists."]
                  "db" (VStr (proj_name e)) None "Databse %s already exists." "create_db" _
                  eq_refl).
      destruct (fun H1 H2 H3 H4 => Hx H1 H2 H3 H4 eq_refl _ _ _ _ Ht Hf)
        as (Hno & Hp & args & Ho).
      * repeat constructor.
      * repeat constructor; discriminate.
      * repeat constructor; discriminate.
      * repeat constructor.
      * split; [exact Hno|]. split; [exact Hp|]. exists args. now apply stopped_result.
  - intros s w1 w2 b w3 H1 H2 H3. subst x. unfold create.
    rewrite exec_get_env_then. destruct b.
    + destruct (virtualenv_replaced h e w w1 w2 w3 s H1 H2 H3) as [rest Hv].
      match goal with
      | |- context [exec h (bindM create_virtualenv ?k e) w] =>
          destruct (trace_bindM h create_virtualenv k e w) as [rest' Hb]
      end.
      rewrite Hb, Hv. cbn [app]. eauto.
    + apply exec_bindM_stopped. exact (virtualenv_declined h e w w1 w2 w3 s H1 H2 H3).
Qed.

Lemma create_checks_before_creating_witness :
  (Forall (fun ev => is_create_call (fst ev) = false)
     (trace_of (exec Sim.host (create Sim.demo_env) Sim.taken_world)) /\
   exists args,
     result_of (exec Sim.host (create Sim.demo_env) Sim.taken_world)
     = Stopped (Abort "Databse %s already exists." args)) /\
  exec Sim.scripted (create Sim.demo_env) [AStr EmptyString; ABool true; ABool false]
  = (Stopped (Raise "TypeError"), [],
     [ (mkdir_request Sim.demo_env, AStr EmptyString);
       (venv_request Sim.demo_env, ABool true);
       (replace_request Sim.demo_env, ABool false) ]).
Proof.
  split.
  - destruct (create_checks_before_creating Sim.host Sim.demo_env Sim.taken_world)
      as [(ssn & Hc & _ & _ & Hdb) _].
    assert (Hs : carries ssn (ReqRpc "list_dbs" [VStr "session"])).
    { apply (proj1 (List.Forall_forall _ _) Hc
               (ReqRpc "list_dbs" [VStr "session"], AStructs [ {[ "name" := VStr "demo" ]} ])).
      vm_compute. tauto. }
    destruct Hs as [xs Hs]. assert (ssn = "session") as -> by congruence.
    destruct (Hdb [ (ReqRun [] [] "mkdir -p /home/bob/.virtualenvs", AStr EmptyString);
                    (ReqExists ["/home/bob/.virtualenvs"] [] "demo", ABool false);
                    (ReqRun ["/home/bob/.virtualenvs"] [] "virtualenv demo", AStr EmptyString);
                    (ReqRun ["/home/bob/.virtualenvs"] []
                       "touch demo/lib/python2.7/sitecustomize.py", AStr EmptyString);
                    (ReqLogin "bob" "pw", AStr "session");
                    (ReqRpc "list_db_users" [VStr "session"], AStructs []) ]
                 [ {[ "name" := VStr "demo" ]} ] [] {[ "name" := VStr "demo" ]})
      as (Hno & _ & Ho).
    + vm_compute. reflexivity.
    + vm_compute. reflexivity.
    + split; [exact Hno | exact Ho].
  - exact (proj2 (create_checks_before_creating Sim.scripted Sim.demo_env
                    [AStr EmptyString; ABool true; ABool false])
             EmptyString [ABool true; ABool false] [ABool false] false []
             eq_refl eq_refl eq_refl).
Defined.

End Panel.

(* ===================================================================== *)
(** * [remove] on the simulated host                                     *)
(* ===================================================================== *)

Module Teardown.
Import Text Script Fabfile ScriptFacts MonadFacts Provisioning Panel.
Local Open Scope list_scope.
Local Open Scope script_scope.























End Teardown.

(* ===================================================================== *)
(** * Looking objects up in the control panel                            *)
(* ===================================================================== *)

Module Lookup.
Import Text Script Fabfile.
Local Open Scope list_scope.

Lemma select_filter (key : string) (name : pyval) (l : list struct) :
  Forall (fun o => is_Some (o !! key)) l ->
  select key name l = Some (List.filter (matches key name) l).
Proof.
  induction 1 as [|o l [v Hv] _ IH]; [reflexivity|].
  simpl. unfold matches at 1. rewrite Hv, IH. now destruct (py_eqb v name).
Qed.

Lemma select_none (key : string) (name : pyval) (l : list struct) :
  select key name l = None <-> Exists (fun o => o !! key = None) l.
Proof.
  induction l as [|o l IH]; simpl.
  - split; [discriminate | intros H; inversion H].
  - destruct (o !! key) as [v|] eqn:Hv.
    + destruct (select key name l) as [f|].
      * split; [discriminate|]. intros H. inversion H as [? ? Ho | ? ? Hl]; subst.
        -- congruence.
        -- apply IH in Hl. discriminate.
      * split; [|reflexivity]. intros _. right. now apply IH.
    + split; [|reflexivity]. intros _. now left.
Qed.

Lemma select_some (key : string) (name : pyval) (l found : list struct) :
  select key name l = Some found ->
  Forall (fun o => is_Some (o !! key)) l /\ found = List.filter (matches key name) l.
Proof.
  intros H. assert (Hk : Forall (fun o => is_Some (o !! key)) l).
  { apply List.Forall_forall. intros o Ho.
    destruct (o !! key) as [v|] eqn:Hv; [eauto|]. exfalso.
    assert (Hn : select key name l = None).
    { apply select_none. apply List.Exists_exists. eauto. }
    congruence. }
  split; [exact Hk|]. rewrite (select_filter _ _ _ Hk) in H. congruence.
Qed.

(** The first element of a filtered list, and what stands before it. *)
Lemma filter_first {A} (f : A -> bool) (l : list A) (x : A) (rest : list A) :
  List.filter f l = x :: rest ->
  exists l1 l2, l = l1 ++ x :: l2 /\ f x = true /\ Forall (fun y => f y = false) l1.
Proof.
  induction l as [|y l IH]; simpl; [discriminate|].
  destruct (f y) eqn:Hy.
  - intros [= -> _]. exists [], l. repeat split; [exact Hy | constructor].
  - intros H. destruct (IH H) as (l1 & l2 & -> & Hx & Hl1).
    exists (y :: l1), l2. repeat split; [exact Hx | now constructor].
Qed.

Lemma filter_skip {A} (f : A -> bool) (l1 l2 : list A) (x : A) :
  Forall (fun y => f y = false) l1 -> f x = true ->
  List.filter f (l1 ++ x :: l2) = x :: List.filter f l2.
Proof.
  induction 1 as [|y l1 Hy _ IH]; intros Hx; simpl.
  - now rewrite Hx.
  - rewrite Hy. now apply IH.
Qed.

Lemma filter_nil {A} (f : A -> bool) (l : list A) :
  List.filter f l = [] <-> Forall (fun y => f y = false) l.
Proof.
  induction l as [|y l IH]; simpl.
  - split; [constructor | reflexivity].
  - destruct (f y) eqn:Hy.
    + split; [discriminate|]. intros H. inversion H; congruence.
    + rewrite IH. split; [now constructor | intros H; now inversion H].
Qed.

(** X1: what [get_webf_obj] returns is the first item of the list whose key
    equals the name asked for: it is in the list, nothing before it
    matches, and when a subdomain of a domain was asked for, the item
    has it. *)
Theorem lookup_returns_first_match (ty : string) (name : pyval) (sub : option string)
    (l : list struct) (obj : struct) :
  find_in ty name sub l = Found obj ->
  exists l1 l2,
    l = l1 ++ obj :: l2 /\
    matches (key_of ty) name obj = true /\
    Forall (fun o => matches (key_of ty) name o = false) l1 /\
    (key_of ty = "domain" -> forall s, sub = Some s -> has_subdomain s obj = true).
Proof.
  unfold find_in. destruct (select (key_of ty) name l) as [[|o rest]|] eqn:Hs; try discriminate.
  apply select_some in Hs as [_ Hs]. symmetry in Hs.
  destruct (filter_first _ _ _ _ Hs) as (l1 & l2 & Hl & Ho & Hl1).
  intros H.
  assert (Hobj : o = obj /\
                 (key_of ty = "domain" -> forall s, sub = Some s -> has_subdomain s obj = true)).
  { unfold has_subdomain.
    destruct (String.eqb (key_of ty) "domain") eqn:Hk, sub as [s|].
    - destruct (o !! "subdomains") as [[| | | x | xs]|] eqn:Hd; try discriminate.
      + destruct (contains s x) eqn:Hc; [|discriminate]. injection H as <-.
        split; [reflexivity|]. intros _ s' [= <-]. now rewrite Hd.
      + destruct (existsb _ xs) eqn:Hc; [|discriminate]. injection H as <-.
        split; [reflexivity|]. intros _ s' [= <-]. now rewrite Hd.
    - injection H as <-. split; [reflexivity | discriminate].
    - injection H as <-. split; [reflexivity|]. intros Hd. apply String.eqb_neq in Hk.
      contradiction.
    - injection H as <-. split; [reflexivity | discriminate]. }
  destruct Hobj as [<- Hsub]. exists l1, l2. now repeat split.
Qed.

Lemma lookup_returns_first_match_witness :
  exists l1 l2,
    [ {[ "name" := VStr "blog" ]}; {[ "name" := VStr "demo"; "port" := VInt 8000 ]} ]
    = l1 ++ {[ "name" := VStr "demo"; "port" := VInt 8000 ]} :: l2 /\
    Forall (fun o => matches "name" (VStr "demo") o = false) l1.
Proof.
  destruct (lookup_returns_first_match "app" (VStr "demo") None
              [ {[ "name" := VStr "blog" ]}; {[ "name" := VStr "demo"; "port" := VInt 8000 ]} ]
              {[ "name" := VStr "demo"; "port" := VInt 8000 ]})
    as (l1 & l2 & Hl & _ & Hl1 & _).
  - vm_compute. reflexivity.
  - exists l1, l2. split; [exact Hl | exact Hl1].
Defined.

(** X2: when no subdomain is asked for, [get_webf_obj] returns [False]
    exactly when every item of the list has the key and none of them
    equals the name. *)
Theorem lookup_false_iff_no_match (ty : string) (name : pyval) (sub : option string)
    (l : list struct) :
  sub = None \/ key_of ty <> "domain" ->
  (find_in ty name sub l = NotFound <->
   Forall (fun o => is_Some (o !! key_of ty)) l /\
   Forall (fun o => matches (key_of ty) name o = false) l).
Proof.
  intros Hsub. unfold find_in. split.
  - destruct (select (key_of ty) name l) as [[|o rest]|] eqn:Hs; try discriminate.
    + intros _. apply select_some in Hs as [Hk Hf]. split; [exact Hk|].
      now apply filter_nil.
    + destruct (String.eqb (key_of ty) "domain") eqn:Hk, sub as [s|]; try discriminate.
      apply String.eqb_eq in Hk. destruct Hsub; [discriminate | contradiction].
  - intros [Hk Hn]. rewrite (select_filter _ _ _ Hk).
    apply filter_nil in Hn. now rewrite Hn.
Qed.

Lemma lookup_false_iff_no_match_witness :
  find_in "db" (VStr "demo") None [ {[ "name" := VStr "blog" ]} ] = NotFound.
Proof.
  apply (lookup_false_iff_no_match "db" (VStr "demo") None [ {[ "name" := VStr "blog" ]} ]).
  - left; reflexivity.
  - split; repeat constructor. vm_compute. eauto.
Defined.

(** X3: one item without the key anywhere in the list makes the lookup
    raise [KeyError], also when an item before it matches: the
    comprehension reads the key of every item. *)
Theorem lookup_missing_key_raises (ty : string) (name : pyval) (sub : option string)
    (l : list struct) (o : struct) :
  In o l -> o !! key_of ty = None -> find_in ty name sub l = LookupRaises "KeyError".
Proof.
  intros Hin Ho. unfold find_in.
  assert (Hn : select (key_of ty) name l = None).
  { apply select_none, List.Exists_exists. eauto. }
  now rewrite Hn.
Qed.

Lemma lookup_missing_key_raises_witness :
  find_in "db_user" (VStr "demo") None
    [ {[ "username" := VStr "demo" ]}; {[ "name" := VStr "other" ]} ]
  = LookupRaises "KeyError".
Proof.
  apply (lookup_missing_key_raises "db_user" (VStr "demo") None _ {[ "name" := VStr "other" ]}).
  - right; left; reflexivity.
  - reflexivity.
Defined.

(** X4: for a subdomain, only the first record of the domain is looked at:
    when that record does not list the subdomain the answer is [False],
    whatever the records after it hold. *)
Theorem lookup_reads_first_record_only (name : pyval) (s : string)
    (l1 l2 : list struct) (obj : struct) (subs : list pyval) :
  Forall (fun o => is_Some (o !! "domain")) (l1 ++ obj :: l2) ->
  Forall (fun o => matches "domain" name o = false) l1 ->
  matches "domain" name obj = true ->
  obj !! "subdomains" = Some (VList subs) ->
  existsb (py_eqb (VStr s)) subs = false ->
  find_in "domain" name (Some s) (l1 ++ obj :: l2) = NotFound.
Proof.
  intros Hk Hl1 Ho Hs Hn. unfold find_in. change (key_of "domain") with "domain".
  rewrite (select_filter _ _ _ Hk), (filter_skip _ _ _ _ Hl1 Ho).
  cbn [String.eqb Ascii.eqb Bool.eqb]. rewrite Hs, Hn. reflexivity.
Qed.

Lemma lookup_reads_first_record_only_witness :
  find_in "domain" (VStr "example.com") (Some "www")
    [ {[ "domain" := VStr "example.com"; "subdomains" := VList [VStr "mail"] ]};
      {[ "domain" := VStr "example.com"; "subdomains" := VList [VStr "www"] ]} ]
  = NotFound.
Proof.
  apply (lookup_reads_first_record_only (VStr "example.com") "www" []
           [ {[ "domain" := VStr "example.com"; "subdomains" := VList [VStr "www"] ]} ]
           {[ "domain" := VStr "example.com"; "subdomains" := VList [VStr "mail"] ]}
           [VStr "mail"]).
  - repeat constructor; vm_compute; eauto.
  - constructor.
  - reflexivity.
  - reflexivity.
  - reflexivity.
Defined.

End Lookup.

(* ===================================================================== *)
(** * The two passwords                                                  *)
(* ===================================================================== *)

Module Passwords.
Import Text Script Fabfile ScriptFacts MonadFacts Provisioning.
Local Open Scope list_scope.
Local Open Scope script_scope.

Lemma exec_session {W} (h : handler W) (e : Env) (w : W) :
  exec h (get_webf_session e) w =
  match password e with
  | Some p =>
      let r := ReqLogin (user e) p in
      (match fst (h r w) with
       | AStr ssn => Done (ssn, e)
       | _ => Stopped (CallFailed r)
       end, snd (h r w), [(r, fst (h r w))])
  | None =>
      let q := session_prompt e in
      match fst (h q w) with
      | AStr typed =>
          let r := ReqLogin (user e) typed in
          let w1 := snd (h q w) in
          (match fst (h r w1) with
           | AStr ssn => Done (ssn, set_password (Some typed) e)
           | _ => Stopped (CallFailed r)
           end, snd (h r w1), [(q, AStr typed); (r, fst (h r w1))])
      | a => (Stopped (CallFailed q), snd (h q w), [(q, a)])
      end
  end.
Proof.
  unfold get_webf_session, session_prompt. rewrite exec_get_env_then. rewrite exec_bindM.
  destruct (password e) as [p|] eqn:Hp.
  - rewrite exec_ret. cbn beta iota. rewrite exec_get_env_then, exec_ask. rewrite Hp.
    cbn [str_opt]. destruct (h (ReqLogin (user e) p) w) as [a w1]. cbn [fst snd].
    destruct a; reflexivity.
  - unfold getpass. rewrite exec_bindM, exec_ask.
    destruct (h _ w) as [a w0]. cbn [fst snd].
    destruct a as [| | typed | |]; cbn beta iota delta [as_str]; try reflexivity.
    rewrite exec_modify. cbn beta iota. rewrite exec_get_env_then, exec_ask.
    cbn [password set_password str_opt user cfg].
    destruct (h (ReqLogin (user e) typed) w0) as [a w1]. cbn [fst snd].
    destruct a; reflexivity.
Qed.

(** X5: a login that succeeds asked for the Webfaction password exactly
    when [env.password] was [None] (an empty password is not asked for
    again), logged in with the password [env] holds afterwards, changed
    nothing else in [env], and left [env] such that a later login asks
    for no password. *)
Theorem session_asks_password_once {W} (h : handler W) (e : Env) (w : W) ssn e1 w1 tr :
  exec h (get_webf_session e) w = (Done (ssn, e1), w1, tr) ->
  (password e = None <-> Exists (fun ev => is_getpass (fst ev) = true) tr) /\
  (exists p, password e1 = Some p /\ In (ReqLogin (user e) p, AStr ssn) tr /\
             (forall p0, password e = Some p0 -> p0 = p)) /\
  cfg e1 = cfg e /\ db_pass e1 = db_pass e /\
  forall w2, Forall (fun ev => is_getpass (fst ev) = false)
               (trace_of (exec h (get_webf_session e1) w2)).
Proof.
  rewrite exec_session. intros H.
  assert (Hlater : forall p e', password e' = Some p -> forall w2,
             Forall (fun ev => is_getpass (fst ev) = false)
               (trace_of (exec h (get_webf_session e') w2))).
  { intros p e' Hp w2. rewrite exec_session, Hp. repeat constructor. }
  destruct (password e) as [p|] eqn:Hp.
  - cbn zeta in H. destruct (fst (h (ReqLogin (user e) p) w)) eqn:Ha; try discriminate.
    injection H as <- <- <- <-. split; [|split; [|split; [|split]]].
    + split; [discriminate|]. intros Hex. inversion Hex as [? ? Hq | ? ? Hq]; subst.
      * discriminate Hq.
      * inversion Hq.
    + exists p. split; [exact Hp|]. split; [now left|]. now intros p0 [= ->].
    + reflexivity.
    + reflexivity.
    + now apply (Hlater p).
  - cbn zeta in H. destruct (fst (h (session_prompt e) w)) as [| | typed | |] eqn:Hq;
      try discriminate.
    destruct (fst (h (ReqLogin (user e) typed) _)) eqn:Ha; try discriminate.
    injection H as <- <- <- <-. split; [|split; [|split; [|split]]].
    + split; [|reflexivity]. intros _. now left.
    + exists typed. split; [reflexivity|]. split; [right; now left | discriminate].
    + reflexivity.
    + reflexivity.
    + now apply (Hlater typed).
Qed.

Lemma session_asks_password_once_witness :
  Exists (fun ev => is_getpass (fst ev) = true)
    [ (session_prompt Sim.demo_env, AStr "typed"); (ReqLogin "bob" "typed", AStr "session") ].
Proof.
  apply (proj1 (proj1 (session_asks_password_once Sim.host
                         (set_password None Sim.demo_env) Sim.demo_world "session"
                         (set_password (Some "typed") Sim.demo_env) Sim.demo_world
                         [ (session_prompt Sim.demo_env, AStr "typed");
                           (ReqLogin "bob" "typed", AStr "session") ]
                         eq_refl))).
  reflexivity.
Defined.

Lemma exec_db_pass_full {W} (h : handler W) (e : Env) (w : W) :
  exec h (db_pass_ e) w =
  if truthy (db_pass e) then (Done (db_pass e, e), w, [])
  else
    (match fst (h db_prompt w) with
     | AStr typed => Done (Some typed, set_db_pass (Some typed) e)
     | _ => Stopped (CallFailed db_prompt)
     end, snd (h db_prompt w), [(db_prompt, fst (h db_prompt w))]).
Proof.
  unfold db_pass_, db_prompt. rewrite exec_get_env_then, exec_bindM.
  destruct (truthy (db_pass e)); cbn [negb].
  - rewrite exec_ret. cbn beta iota. rewrite exec_get_env_then. reflexivity.
  - unfold getpass. rewrite exec_bindM, exec_ask.
    destruct (h _ w) as [a w0]. cbn [fst snd].
    destruct a as [| | typed | |]; reflexivity.
Qed.

(** X6: [db_pass] asks the operator only when [env.db_pass] is [None] or
    empty; what was typed is stored in [env] and returned, and nothing
    else in [env] changes.  After a password that is not empty was typed,
    another call asks nothing and returns the same; an empty answer is
    stored as it is, so the next call asks again. *)
Theorem db_pass_asks_when_unset {W} (h : handler W) (e : Env) (w : W) p e1 w1 tr :
  exec h (db_pass_ e) w = (Done (p, e1), w1, tr) ->
  (truthy (db_pass e) = false <-> Exists (fun ev => is_getpass (fst ev) = true) tr) /\
  p = db_pass e1 /\ cfg e1 = cfg e /\ password e1 = password e /\
  (truthy (db_pass e) = true -> e1 = e /\ tr = []) /\
  (truthy (db_pass e) = false -> tr = [(db_prompt, AStr (str_opt p))] /\ p <> None) /\
  forall w2,
    if truthy p then exec h (db_pass_ e1) w2 = (Done (p, e1), w2, [])
    else trace_of (exec h (db_pass_ e1) w2) = [(db_prompt, fst (h db_prompt w2))].
Proof.
  rewrite exec_db_pass_full. destruct (truthy (db_pass e)) eqn:Ht.
  - intros [= <- <- <- <-]. repeat split; try discriminate.
    + intros Hex. inversion Hex.
    + intros w2. rewrite Ht, exec_db_pass_full, Ht. reflexivity.
  - destruct (fst (h db_prompt w)) as [| | typed | |] eqn:Hq; try discriminate.
    intros [= <- <- <- <-]. repeat split; try discriminate.
    + intros _. now left.
    + intros w2. rewrite exec_db_pass_full. cbn [db_pass set_db_pass].
      destruct (truthy (Some typed)); reflexivity.
Qed.

Lemma db_pass_asks_when_unset_witness :
  exec Sim.host (db_pass_ (set_db_pass (Some "typed") Sim.demo_env)) Sim.demo_world
  = (Done (Some "typed", set_db_pass (Some "typed") Sim.demo_env), Sim.demo_world, []).
Proof.
  exact (proj2 (proj2 (proj2 (proj2 (proj2 (proj2
           (db_pass_asks_when_unset Sim.host (set_db_pass None Sim.demo_env) Sim.demo_world
              (Some "typed") (set_db_pass (Some "typed") Sim.demo_env) Sim.demo_world
              [(db_prompt, AStr "typed")] eq_refl)))))) Sim.demo_world).
Defined.

End Passwords.

(* ===================================================================== *)
(** * Uploading the project                                              *)
(* ===================================================================== *)

Module Upload.
Import Text Script Fabfile ScriptFacts MonadFacts Provisioning.
Local Open Scope list_scope.
Local Open Scope script_scope.

(** X7: with Mercurial as the deploy tool, uploading the project aborts
    with "Mercurial is not currently supported" before anything is asked
    of the host; with any tool that is neither git nor Mercurial, the
    project goes up by one rsync of the working directory to the project
    path, and no remote command is run. *)
Theorem upload_project_by_tool {W} (h : handler W) (e : Env) (w : W) :
  (deploy_tool e = "hg" ->
   exec h (upload_project e) w
   = (Stopped (Abort "Mercurial is not currently supported" []), w, [])) /\
  (deploy_tool e <> "git" -> deploy_tool e <> "hg" ->
   let r := ReqRsync (proj_path e)
              ["*.pyc"; "*.pyo"; "*.db"; ".DS_Store"; ".coverage";
               "local_settings.py"; "/static"; "/.git"; "/.hg"] in
   exec h (upload_project e) w
   = (match fst (h r w) with
      | AFail => Stopped (CallFailed r)
      | _ => Done (tt, e)
      end, snd (h r w), [(r, fst (h r w))])).
Proof.
  unfold upload_project. rewrite exec_get_env_then. split.
  - intros Ht. rewrite Ht. cbn [existsb vcs_tools]. change (String.eqb "hg" "git") with false.
    change (String.eqb "hg" "hg") with true. cbn [orb].
    unfold vcs_upload. rewrite exec_get_env_then, Ht. reflexivity.
  - intros Hg Hh. apply String.eqb_neq in Hg, Hh.
    cbn [existsb vcs_tools]. rewrite Hg, Hh. cbn [orb].
    unfold rsync_upload. rewrite exec_get_env_then, exec_bindM, exec_ask.
    destruct (h _ w) as [a w1]. cbn [fst snd]. destruct a; reflexivity.
Qed.

Lemma upload_project_by_tool_witness :
  exec Sim.host (upload_project Sim.demo_env) Sim.demo_world
  = (Done (tt, Sim.demo_env), Sim.demo_world,
     [(ReqRsync "/home/bob/webapps/demo"
         ["*.pyc"; "*.pyo"; "*.db"; ".DS_Store"; ".coverage";
          "local_settings.py"; "/static"; "/.git"; "/.hg"], AUnit)]).
Proof.
  apply (proj2 (upload_project_by_tool Sim.host Sim.demo_env Sim.demo_world)); discriminate.
Defined.

Lemma set_cwd_back (p : list string) (e : Env) : set_cwd (cwd e) (set_cwd p e) = e.
Proof. destruct e; reflexivity. Qed.

Ltac answer h :=
  rewrite exec_ask;
  match goal with
  | |- context [h ?r ?w] =>
      let a := fresh "a" in let w1 := fresh "w" in
      destruct (h r w) as [a w1]; cbn [fst snd];
      destruct a; cbn beta iota delta [as_str as_bool returned]
  end.

Ltac walk h :=
  repeat first
    [ rewrite exec_bindM
    | rewrite exec_with_cd
    | rewrite exec_ret
    | rewrite set_cwd_back
    | progress unfold run, local_
    | answer h
    | progress cbn beta iota ].

(** X8: with git, whatever the host answers, the upload first asks
    whether the bare repository exists; only when it does not, it creates
    it with [mkdir -p] and initialises it with [git init --bare] inside
    it; then it pushes the local master to it over ssh and, inside the
    repository, checks the pushed tree out into the project path and
    resets it, in this order and with nothing else in between.  It stops
    only when a request is refused, right after that request; when it
    returns, [env] is as before. *)
Theorem git_upload_steps {W} (h : handler W) (e : Env) (w : W) :
  deploy_tool e = "git" ->
  let x := exec h (vcs_upload e) w in
  let check := ReqExists (cwd e) (command_prefixes e) (repo_path e) in
  let plan (there : bool) :=
    check
    :: (if there then []
        else [ ReqRun (cwd e) (command_prefixes e) ("mkdir -p " +:+ repo_path e);
               ReqRun (repo_path e :: cwd e) (command_prefixes e) "git init --bare" ])
    ++ [ ReqLocal ("git push -f "
                   +:+ ("ssh://" +:+ user e +:+ "@" +:+ str_opt (host_string e)
                        +:+ repo_path e) +:+ " master");
         ReqRun (repo_path e :: cwd e) (command_prefixes e)
           ("GIT_WORK_TREE=" +:+ proj_path e +:+ " git checkout -f master");
         ReqRun (repo_path e :: cwd e) (command_prefixes e)
           ("GIT_WORK_TREE=" +:+ proj_path e +:+ " git reset --hard") ] in
  match fst (h check w) with
  | ABool there =>
      map fst (trace_of x) `prefix_of` plan there /\
      match result_of x with
      | Done (_, e1) => e1 = e /\ map fst (trace_of x) = plan there
      | Stopped f => f = CallFailed (List.last (map fst (trace_of x)) check)
      end
  | a => x = (Stopped (CallFailed check), snd (h check w), [(check, a)])
  end.
Proof.
  intros Ht x check plan. subst x plan. unfold vcs_upload.
  rewrite exec_get_env_then, Ht.
  change (String.eqb "git" "git") with true. cbn beta iota.
  rewrite exec_bindM. unfold exists_. rewrite exec_ask. fold check.
  destruct (h check w) as [a w1]. cbn [fst snd].
  destruct a as [| there | | |]; cbn beta iota delta [as_bool]; try reflexivity.
  destruct there; cbn beta iota; walk h.
  all: cbn [result_of trace_of fst snd map app List.last cwd command_prefixes set_cwd cfg].
  all: split; [repeat apply prefix_cons; apply prefix_nil |].
  all: try reflexivity.
  all: split; reflexivity.
Qed.

Lemma git_upload_steps_witness :
  map fst (trace_of (exec Sim.host (vcs_upload Sim.git_env) Sim.demo_world))
  = [ ReqExists [] [] "/home/bob/webapps/git_app/repos/demo.git";
      ReqRun [] [] "mkdir -p /home/bob/webapps/git_app/repos/demo.git";
      ReqRun ["/home/bob/webapps/git_app/repos/demo.git"] [] "git init --bare";
      ReqLocal "git push -f ssh://bob@web1.example.com/home/bob/webapps/git_app/repos/demo.git master";
      ReqRun ["/home/bob/webapps/git_app/repos/demo.git"] []
        "GIT_WORK_TREE=/home/bob/webapps/demo git checkout -f master";
      ReqRun ["/home/bob/webapps/git_app/repos/demo.git"] []
        "GIT_WORK_TREE=/home/bob/webapps/demo git reset --hard" ].
Proof.
  exact (proj2 (proj2 (git_upload_steps Sim.host Sim.git_env Sim.demo_world eq_refl))).
Defined.
End Upload.

(* ===================================================================== *)
(** * Commands in the project's context                                  *)
(* ===================================================================== *)

Module Context.
Import Text Script Fabfile ScriptFacts MonadFacts Provisioning.
Local Open Scope list_scope.
Local Open Scope script_scope.

Lemma exec_project {W A} (h : handler W) (body : M A) (e : Env) (w : W) :
  exec h (project body e) w =
  match exec h (body (in_project e)) w with
  | (Done (a, e1), w1, tr) =>
      (Done (a, set_cwd (cwd e) (set_command_prefixes (command_prefixes e) e1)), w1, tr)
  | (Stopped f, w1, tr) => (Stopped f, w1, tr)
  end.
Proof.
  unfold project. rewrite exec_virtualenv, exec_get_env_then, exec_with_cd.
  cbn [cwd command_prefixes set_cwd set_command_prefixes cfg db_pass password].
  unfold in_project, set_cwd, set_command_prefixes.
  cbn [cwd command_prefixes cfg db_pass password].
  destruct (exec h _ w) as [[[[a e1] | f] w1] tr]; reflexivity.
Qed.

(** X9: [with project(): body] runs the body with the project directory
    (inside the virtualenv directory) as working directory and the
    activation of the virtualenv as command prefix; when the body
    returns, the directories and prefixes are again what they were before
    the block, whatever the body did to them, and everything else in
    [env] is as the body left it.  When the body stops, the block stops
    the same way. *)
Theorem project_restores_context {W A} (h : handler W) (body : M A) (e : Env) (w : W) :
  let inner := exec h (body (in_project e)) w in
  let outer := exec h (project body e) w in
  world_of outer = world_of inner /\ trace_of outer = trace_of inner /\
  match result_of inner with
  | Done (a, e1) =>
      exists e2, result_of outer = Done (a, e2) /\
                 cwd e2 = cwd e /\ command_prefixes e2 = command_prefixes e /\
                 cfg e2 = cfg e1 /\ db_pass e2 = db_pass e1 /\ password e2 = password e1
  | Stopped f => result_of outer = Stopped f
  end.
Proof.
  intros inner outer. subst inner outer. rewrite exec_project.
  destruct (exec h (body (in_project e)) w) as [[[[a e1] | f] w1] tr];
    cbn [world_of trace_of result_of fst snd]; repeat split.
  eexists. repeat split.
Qed.

Lemma exec_python {W} (h : handler W) (code : string) (e : Env) (w : W) :
  let r := ReqRun (cwd (in_project e)) (command_prefixes (in_project e))
             (python_command e code) in
  exec h (python code e) w =
  (match fst (h r w) with
   | AStr out => Done (out, e)
   | _ => Stopped (CallFailed r)
   end, snd (h r w), [(r, fst (h r w))]).
Proof.
  intros r. unfold python. rewrite exec_get_env_then, exec_project.
  unfold run. rewrite exec_ask. fold (python_command e code). fold r.
  destruct (h r w) as [a w1]. cbn [fst snd].
  destruct a; cbn beta iota delta [as_str]; try reflexivity.
  unfold in_project, set_cwd, set_command_prefixes.
  cbn [cwd command_prefixes cfg db_pass password]. destruct e; reflexivity.
Qed.

Lemma replace_absent (c : ascii) (by_ s : string) :
  has_char c s = false -> replace_char c by_ s = s.
Proof.
  induction s as [|d s IH]; [reflexivity|]. simpl.
  rewrite (Ascii.eqb_sym c d). destruct (Ascii.eqb d c); [discriminate|].
  simpl. intros H. now rewrite IH.
Qed.

(** X10: [python(code)] sends one command, [python -c "..."] with the
    Django setup before the code, in the project's context, and returns
    what it printed with [env] as it was; when the command fails the
    task stops there.  Code without a backquote is passed as it is. *)
Theorem python_runs_in_project {W} (h : handler W) (code : string) (e : Env) (w : W) :
  let r := ReqRun (proj_path e :: venv_path e :: cwd e)
             (("source " +:+ venv_path e +:+ "/bin/activate") :: command_prefixes e)
             (python_command e code) in
  exec h (python code e) w =
  (match fst (h r w) with
   | AStr out => Done (out, e)
   | _ => Stopped (CallFailed r)
   end, snd (h r w), [(r, fst (h r w))]) /\
  (has_char "`" code = false ->
   python_command e code =
   "python -c " +:+ DQ
   +:+ ("import os;os.environ['DJANGO_SETTINGS_MODULE']='" +:+ proj_app e
        +:+ ".settings';import django;django.setup();")
   +:+ code +:+ DQ).
Proof.
  intros r. split; [exact (exec_python h code e w)|].
  intros Hc. unfold python_command. now rewrite replace_absent.
Qed.

Lemma python_runs_in_project_witness :
  python_command Sim.demo_env "print(1)"
  = "python -c " +:+ DQ
    +:+ ("import os;os.environ['DJANGO_SETTINGS_MODULE']='" +:+ "site"
         +:+ ".settings';import django;django.setup();")
    +:+ "print(1)" +:+ DQ.
Proof.
  apply (proj2 (python_runs_in_project Sim.host "print(1)" Sim.demo_env Sim.demo_world)).
  reflexivity.
Defined.

(** ** The last line *)

Lemma split_on_nonempty (sep : ascii) (s : string) : split_on sep s <> [].
Proof.
  destruct s as [|c r]; simpl; [discriminate|].
  destruct (Ascii.eqb c sep); [discriminate|]. destruct (split_on sep r); discriminate.
Qed.

Lemma last_cons {A} (x : A) (l : list A) (d : A) : l <> [] -> List.last (x :: l) d = List.last l d.
Proof. destruct l; [congruence | reflexivity]. Qed.

Lemma split_on_absent (sep : ascii) (s : string) :
  has_char sep s = false -> split_on sep s = [s].
Proof.
  induction s as [|d r IH]; [reflexivity|]. simpl.
  rewrite (Ascii.eqb_sym sep d). destruct (Ascii.eqb d sep); [discriminate|].
  simpl. intros H. now rewrite IH.
Qed.

Lemma split_on_present (sep : ascii) (s : string) :
  has_char sep s = true -> exists f g t, split_on sep s = f :: g :: t.
Proof.
  induction s as [|d r IH]; [discriminate|]. simpl.
  rewrite (Ascii.eqb_sym sep d). destruct (Ascii.eqb d sep); simpl.
  - intros _. destruct (split_on sep r) as [|g t] eqn:Hs; [now apply split_on_nonempty in Hs|].
    now exists EmptyString, g, t.
  - intros H. destruct (IH H) as (f & g & t & ->). now exists (String d f), g, t.
Qed.

Lemma last_line_cons (c : ascii) (s : string) :
  last_line (String c s) =
  if Ascii.eqb c LF then last_line s
  else if has_char LF s then last_line s else String c s.
Proof.
  unfold last_line. simpl. destruct (Ascii.eqb c LF).
  - apply last_cons, split_on_nonempty.
  - destruct (has_char LF s) eqn:Hs.
    + destruct (split_on_present _ _ Hs) as (f & g & t & ->). reflexivity.
    + now rewrite (split_on_absent _ _ Hs).
Qed.

Lemma last_line_suffix (s : string) :
  has_char LF (last_line s) = false /\
  (s = last_line s \/ exists pre, s = pre +:+ String LF (last_line s)).
Proof.
  induction s as [|c s [IH1 IH2]]; [split; [reflexivity | now left]|].
  rewrite last_line_cons. destruct (Ascii.eqb c LF) eqn:Hc.
  - apply Ascii.eqb_eq in Hc. subst c. split; [exact IH1|]. right.
    destruct IH2 as [IH2 | [pre IH2]].
    + exists EmptyString. now rewrite <- IH2.
    + exists (String LF pre). now rewrite TextFacts.append_cons, <- IH2.
  - destruct (has_char LF s) eqn:Hs.
    + split; [exact IH1|]. right. destruct IH2 as [IH2 | [pre IH2]].
      * rewrite <- IH2 in IH1. congruence.
      * exists (String c pre). now rewrite TextFacts.append_cons, <- IH2.
    + split; [|now left].
      change (has_char LF (String c s)) with (Ascii.eqb LF c || has_char LF s).
      rewrite (Ascii.eqb_sym LF c), Hc. exact Hs.
Qed.

(** X11: [static()] asks the project's settings for STATIC_ROOT with one
    [python] call and returns the last line of what was printed: a text
    without a line feed that ends the output, after a line feed when the
    output has more than one line.  An output that ends in a line feed
    gives the empty path. *)
Theorem static_takes_last_line {W} (h : handler W) (e : Env) (w : W) :
  let r := ReqRun (proj_path e :: venv_path e :: cwd e)
             (("source " +:+ venv_path e +:+ "/bin/activate") :: command_prefixes e)
             (python_command e ("from django.conf import settings;"
                                +:+ "print(settings.STATIC_ROOT)")) in
  exec h (static e) w =
  (match fst (h r w) with
   | AStr out => Done (last_line out, e)
   | _ => Stopped (CallFailed r)
   end, snd (h r w), [(r, fst (h r w))]) /\
  (forall out,
     has_char LF (last_line out) = false /\
     (out = last_line out \/ exists pre, out = pre +:+ String LF (last_line out))) /\
  (forall out, last_line (out +:+ String LF EmptyString) = EmptyString).
Proof.
  intros r. split; [|split].
  - unfold static. rewrite exec_bindM, exec_python.
    change (ReqRun (cwd (in_project e)) (command_prefixes (in_project e)) (python_command e _))
      with r.
    destruct (h r w) as [a w1]. cbn [fst snd]. destruct a; reflexivity.
  - exact last_line_suffix.
  - intros out. induction out as [|c out IH]; [reflexivity|].
    rewrite TextFacts.append_cons, last_line_cons, IH.
    destruct (Ascii.eqb c LF); [reflexivity|].
    assert (Hh : has_char LF (out +:+ String LF EmptyString) = true).
    { clear. induction out as [|d out IH]; [reflexivity|].
      rewrite TextFacts.append_cons. simpl. now rewrite IH, orb_true_r. }
    now rewrite Hh.
Qed.

End Context.

(* ===================================================================== *)
(** * Where the guard and the renderer stop                              *)
(* ===================================================================== *)

Module Edges.
Import Text Script Fabfile ScriptFacts MonadFacts Provisioning.
Local Open Scope list_scope.
Local Open Scope script_scope.

(** X12: when the action inside [with update_changed_requirements():]
    fails, the guard fails the same way right there: the manifest is not
    read again and nothing is reinstalled. *)
Theorem guard_passes_failure_on {W} (h : handler W) (body : M unit) (e : Env) (w : W)
    saved e1 w1 tr1 f w2 tr2 :
  exec h (read_old_reqs e) w = (Done (saved, e1), w1, tr1) ->
  exec h (body e1) w1 = (Stopped f, w2, tr2) ->
  exec h (update_changed_requirements body e) w = (Stopped f, w2, tr1 ++ tr2).
Proof.
  intros H1 H2. rewrite Requirements.exec_guard, H1. destruct saved as [path old].
  now rewrite H2.
Qed.

Lemma guard_passes_failure_on_witness :
  exec Sim.host (update_changed_requirements (abort "no" []) (Sim.set_reqs_empty Sim.demo_env))
    Sim.demo_world
  = (Stopped (Abort "no" []), Sim.demo_world, []).
Proof.
  exact (guard_passes_failure_on Sim.host (abort "no" []) (Sim.set_reqs_empty Sim.demo_env)
           Sim.demo_world ("/home/bob/webapps/demo/", EmptyString)
           (Sim.set_reqs_empty Sim.demo_env) Sim.demo_world [] (Abort "no" []) Sim.demo_world []
           eq_refl eq_refl).
Defined.

(** X13: without REQUIREMENTS_PATH in the settings, [rollback] and the
    push of [deploy] stop with [AttributeError] before anything is sent
    to the host: both enter the requirements guard first, and the guard
    joins the project path with [None]. *)
Theorem guarded_tasks_need_requirements_path {W} (h : handler W) (e : Env) (w : W) :
  reqs_path e = None ->
  exec h (rollback e) w = (Stopped (Raise "AttributeError"), w, []) /\
  exec h (push_latest e) w = (Stopped (Raise "AttributeError"), w, []).
Proof.
  intros Hp.
  assert (Hg : forall body, exec h (update_changed_requirements body e) w
                            = (Stopped (Raise "AttributeError"), w, [])).
  { intros body. rewrite Requirements.exec_guard, Requirements.exec_read_old_reqs, Hp.
    reflexivity. }
  split.
  - unfold rollback. rewrite exec_bindM, Hg. reflexivity.
  - unfold push_latest. rewrite exec_bindM, Hg. reflexivity.
Qed.

Lemma guarded_tasks_need_requirements_path_witness :
  exec Sim.host (rollback Sim.bare_env) Sim.demo_world
  = (Stopped (Raise "AttributeError"), Sim.demo_world, []).
Proof.
  exact (proj1 (guarded_tasks_need_requirements_path Sim.host Sim.bare_env Sim.demo_world
                  eq_refl)).
Defined.

Lemma lookup_unknown (name : string) (e : Env) :
  name <> "supervisor" -> name <> "gunicorn" -> name <> "settings" ->
  lookup_template name (injected e) = None.
Proof.
  intros H1 H2 H3. unfold injected. cbn [lookup_template].
  apply not_eq_sym, String.eqb_neq in H1.
  apply not_eq_sym, String.eqb_neq in H2.
  apply not_eq_sym, String.eqb_neq in H3.
  now rewrite H1, H2, H3.
Qed.

(** X14: asked for a template that is not one of [supervisor],
    [gunicorn] and [settings], the renderer stops with [KeyError] before
    it asks anything of the host or of the local disk. *)
Theorem unknown_template_raises {W} (h : handler W) (name : string) (e : Env) (w : W) :
  name <> "supervisor" -> name <> "gunicorn" -> name <> "settings" ->
  exec h (upload_template_and_reload name e) w = (Stopped (Raise "KeyError"), w, []).
Proof.
  intros H1 H2 H3. unfold upload_template_and_reload, read_template.
  rewrite exec_bindM, exec_bindM, exec_get_templates. cbn beta iota.
  rewrite (lookup_unknown name e H1 H2 H3). reflexivity.
Qed.

Lemma unknown_template_raises_witness :
  exec Sim.host (upload_template_and_reload "nginx" Sim.demo_env) Sim.demo_world
  = (Stopped (Raise "KeyError"), Sim.demo_world, []).
Proof.
  apply unknown_template_raises; discriminate.
Defined.

(** ** How a script can stop *)

Lemma fails_weaken {A} (P Q : failure -> Prop) (p : Prog A) :
  (forall f, P f -> Q f) -> fails_only P p -> fails_only Q p.
Proof. intros HPQ. induction 1; constructor; auto. Qed.

Lemma fails_bind {A B} (P : failure -> Prop) (p : Prog A) (k : A -> Prog B) :
  fails_only P p -> (forall a, fails_only P (k a)) -> fails_only P (bind p k).
Proof.
  intros Hp Hk. induction Hp as [a | f Hf | r k' _ IH]; simpl.
  - apply Hk.
  - now constructor.
  - constructor. exact IH.
Qed.

Lemma fails_bindM {A B} (P : failure -> Prop) (p : M A) (k : A -> M B) (e : Env) :
  fails_only P (p e) -> (forall a e1, fails_only P (k a e1)) -> fails_only P (bindM p k e).
Proof. intros Hp Hk. unfold bindM. apply fails_bind; [exact Hp | intros [a e1]; apply Hk]. Qed.

Lemma fails_ret {A} (P : failure -> Prop) (a : A) (e : Env) : fails_only P (ret a e).
Proof. constructor. Qed.

Lemma fails_ask {A} (P : failure -> Prop) (r : Env -> request) (d : answer -> option A)
    (e : Env) :
  (forall q, P (CallFailed q)) -> fails_only P (ask r d e).
Proof. intros HP. constructor. intros a. destruct (d a); constructor. apply HP. Qed.

Lemma fails_result {W A} (P : failure -> Prop) (h : handler W) (p : Prog A) (w : W)
    (f : failure) :
  fails_only P p -> result_of (exec h p w) = Stopped f -> P f.
Proof.
  intros Hp. revert w. induction Hp as [a | f' Hf | r k _ IH]; intros w; simpl.
  - discriminate.
  - now intros [= <-].
  - destruct (h r w) as [a w1]. specialize (IH a w1).
    destruct (exec h (k a) w1) as [[o w2] tr]. exact IH.
Qed.

Lemma db_pass_fails (P : failure -> Prop) (e : Env) :
  (forall q, P (CallFailed q)) -> fails_only P (db_pass_ e).
Proof.
  intros HP. unfold db_pass_. apply fails_bindM; [constructor|]. intros e0 e1.
  apply fails_bindM.
  - destruct (negb _); [|apply fails_ret].
    apply fails_bindM; [now apply fails_ask|]. intros; constructor.
  - intros _ e2. apply fails_bindM; [constructor|]. intros; apply fails_ret.
Qed.

Lemma render_fails (lp : string) (e : Env) :
  fails_only (call_failed_or "KeyError") (render_local lp e).
Proof.
  unfold render_local. apply fails_bindM; [now apply fails_ask|].
  intros text e1. apply fails_bindM.
  - destruct (contains _ _); [|apply fails_ret].
    apply fails_bindM; [now apply db_pass_fails|]. intros; constructor.
  - intros _ e2. unfold format_env. apply fails_bindM; [constructor|]. intros e3 e4.
    rewrite TextFacts.render_is_substitution.
    destruct (TextFacts.substitute_spec_outcome (env_item e3) text)
      as [[out ->] | [key [-> _]]]; constructor. reflexivity.
Qed.

Lemma read_template_fails (name : string) (e : Env) :
  fails_only (call_failed_or "KeyError") (read_template name e).
Proof.
  unfold read_template. apply fails_bindM.
  { rewrite get_templates_eq. constructor. }
  intros ts e1. destruct (lookup_template name ts) as [template|]; [|now constructor].
  destruct (assoc "local_path" template) as [lp|]; [|now constructor].
  destruct (assoc "remote_path" template) as [rp|]; [|now constructor].
  apply fails_bindM.
  { unfold locate_template. apply fails_bindM; [now apply fails_ask|].
    intros [] e2; [apply fails_ret|].
    apply fails_bindM; [now apply fails_ask | intros; apply fails_ret]. }
  intros lp' e2. apply fails_bindM.
  { unfold fetch_remote. apply fails_bindM; [now apply fails_ask|].
    intros [] e3; [now apply fails_ask | apply fails_ret]. }
  intros remote e3. apply fails_bindM; [apply render_fails | intros; apply fails_ret].
Qed.

Lemma push_template_fails (t : template_state) (e : Env) :
  fails_only call_failed (push_template t e).
Proof.
  unfold push_template. destruct (String.eqb _ _); [apply fails_ret|].
  apply fails_bindM; [now apply fails_ask|]. intros _ e1.
  destruct (truthy _); [|apply fails_ret].
  apply fails_bindM; [now apply fails_ask | intros; apply fails_ret].
Qed.

(** X15: the read phase of the renderer (lines 259-276: the descriptor,
    the remote copy, the local template and its substitution) stops only
    on a request that the host or the local disk refuses, or with
    [KeyError]: for a template name it does not know or a placeholder
    [env] has no entry for.  The escaping of line 273 rules out every
    other error of the renderer's own [local_data %= env].  When the
    read phase stops, the renderer stops the same way there, with nothing
    uploaded and nothing asked of the control panel.  This says nothing
    of [upload_template] at line 280, which formats the raw file again,
    unescaped. *)
Theorem read_phase_stops_cleanly {W} (h : handler W) (name : string) (e : Env) (w : W)
    (f : failure) :
  let rd := exec h (read_template name e) w in
  result_of rd = Stopped f ->
  call_failed_or "KeyError" f /\
  exec h (upload_template_and_reload name e) w = (Stopped f, world_of rd, trace_of rd) /\
  uploads (trace_of rd) = [] /\ rpcs (trace_of rd) = [].
Proof.
  intros rd. subst rd. unfold upload_template_and_reload. rewrite exec_bindM.
  pose proof (Renderer.read_template_quiet h name e w) as Hq.
  pose proof (fails_result _ h _ w f (read_template_fails name e)) as Hr.
  destruct (exec h (read_template name e) w) as [[[[t e1] | f1] w1] tr1];
    cbn [result_of world_of trace_of fst snd] in *; [discriminate|].
  intros [= ->]. split; [now apply Hr|]. split; [reflexivity|].
  destruct (Hq _ _ _ eq_refl) as (U & R & _). split; assumption.
Qed.

Lemma read_phase_stops_cleanly_witness :
  exec Sim.host (upload_template_and_reload "gunicorn" Sim.demo_env) Sim.port_world
  = (Stopped (Raise "KeyError"), Sim.port_world,
     [ (ReqLocalExists "deploy/gunicorn.conf.py.template", ABool true);
       (ReqExists [] [] "/home/bob/webapps/demo/gunicorn.conf.py", ABool false);
       (ReqReadLocal "deploy/gunicorn.conf.py.template",
        AStr "bind = '127.0.0.1:%(gunicorn_port)s'") ]).
Proof.
  exact (proj1 (proj2 (read_phase_stops_cleanly Sim.host "gunicorn" Sim.demo_env
                         Sim.port_world (Raise "KeyError") eq_refl))).
Defined.

End Edges.

(* ===================================================================== *)
(** * The cron job and the installation                                  *)
(* ===================================================================== *)

Module Tasks.
Import Text Script Fabfile ScriptFacts MonadFacts Provisioning.
Local Open Scope list_scope.
Local Open Scope script_scope.

Lemma off_panel_cron (c : Config) (r : request) : off_panel r -> cron_call c r.
Proof. destruct r; try exact (fun _ => I). discriminate. Qed.

Lemma quiet_cron {A} (c : Config) (p : Prog A) :
  issues_only off_panel p -> issues_only (cron_call c) p.
Proof. apply only_weaken, off_panel_cron. Qed.

Lemma lookup_cron (c : Config) (ssn ty : string) (name : pyval) (sub : option string)
    (e : Env) :
  issues_only (cron_call c) (get_webf_obj ssn ty name sub e).
Proof.
  unfold get_webf_obj. apply only_bindM.
  - apply only_ask. cbn. intros [H | H]; exfalso; revert H;
      rewrite TextFacts.append_cons; discriminate.
  - intros l e1. destruct (find_in ty name sub l); constructor.
Qed.

Lemma delete_cron (c : Config) (ssn ty : string) (name : pyval) (xs : list pyval) (e : Env) :
  ty <> "cronjob" -> issues_only (cron_call c) (del_webf_obj ssn ty name xs e).
Proof.
  intros Hty. unfold del_webf_obj, rpc. apply only_ask. cbn. intros [H | H].
  - exfalso. revert H. rewrite TextFacts.append_cons. discriminate.
  - exfalso. apply Hty. change "delete_cronjob" with ("delete_" +:+ "cronjob") in H.
    now apply (inj (String.app "delete_")) in H.
Qed.

Lemma remove_if_found_cron (c : Config) (ssn ty : string) (name : pyval)
    (sub : option string) (xs : list pyval) (e : Env) :
  ty <> "cronjob" -> issues_only (cron_call c) (remove_if_found ssn ty name sub xs e).
Proof.
  intros Hty. unfold remove_if_found. apply only_bindM; [apply lookup_cron|].
  intros obj e1. destruct (found obj); [|apply only_ret].
  apply only_bindM; [now apply delete_cron | intros; apply only_ret].
Qed.

Lemma only_get_env_then {A} (P : request -> Prop) (k : Env -> M A) (e : Env) :
  issues_only P (k e e) -> issues_only P (bindM get_env k e).
Proof. intros H. exact H. Qed.

Lemma remove_cron (e : Env) : issues_only (cron_call e) (remove e).
Proof.
  unfold remove. apply only_get_env_then.
  apply only_bindM; [apply quiet_cron, session_off_panel|]. intros ssn e2.
  apply only_bindM; [now apply remove_if_found_cron|]. intros _ e3.
  apply only_bindM; [now apply remove_if_found_cron|]. intros _ e4.
  apply only_bindM.
  { unfold remove_main_app. apply only_bindM; [apply lookup_cron|].
    intros [obj|] e5; [|apply only_ret]. destruct (found (Some obj)); [|apply only_ret].
    apply only_bindM; [unfold item; destruct (obj !! "name"); constructor|].
    intros name e6. apply only_bindM; [now apply delete_cron | intros; apply only_ret]. }
  intros _ e5.
  apply only_bindM; [now apply remove_if_found_cron|]. intros _ e6.
  apply only_bindM; [now apply remove_if_found_cron|]. intros _ e7.
  apply only_bindM; [now apply remove_if_found_cron|]. intros _ e8.
  apply only_bindM; [|intros; apply quiet_cron, remove_files_off_panel].
  unfold remove_cronjob. destruct (twitter_period e) as [n|] eqn:Hn; [|apply only_ret].
  apply only_bindM; [|intros; apply only_ret].
  unfold rpc. apply only_ask. cbn. intros _. now exists n, ssn.
Qed.

Lemma setup_twitter_cron (e : Env) : issues_only (cron_call e) (setup_twitter e).
Proof.
  unfold setup_twitter. apply only_get_env_then.
  destruct (twitter_period e) as [n|] eqn:Hn; [|constructor].
  apply only_bindM; [apply quiet_cron, session_off_panel|]. intros ssn e2.
  apply only_bindM.
  { unfold rpc. apply only_ask. cbn. intros _. now exists n, ssn. }
  intros _ e3. apply only_bindM; [apply quiet_cron, manage_off_panel | intros; apply only_ret].
Qed.

(** X16: the cron job that [setup_twitter] creates is the one that
    [remove] deletes: both calls carry a session and the same cron line,
    built from TWITTER_PERIOD and the manage command, and nothing else.
    Without an integer TWITTER_PERIOD, [setup_twitter] aborts before it
    asks anything, and [remove] makes no such call. *)
Theorem cron_job_round_trip {W1 W2} (h1 : handler W1) (h2 : handler W2) (e : Env)
    (w1 : W1) (w2 : W2) :
  let made := trace_of (exec h1 (setup_twitter e) w1) in
  let swept := trace_of (exec h2 (remove e) w2) in
  (forall args a args' a',
     In (ReqRpc "create_cronjob" args, a) made ->
     In (ReqRpc "delete_cronjob" args', a') swept ->
     exists n ssn ssn',
       twitter_period e = Some n /\
       args = [VStr ssn; VStr (cron_line e n)] /\
       args' = [VStr ssn'; VStr (cron_line e n)]) /\
  (twitter_period e = None ->
   exec h1 (setup_twitter e) w1
   = (Stopped (Abort "TWITTER_PERIOD not set correctly in deployment settings." []), w1, []) /\
   forall args a, ~ In (ReqRpc "delete_cronjob" args, a) swept).
Proof.
  intros made swept.
  pose proof (only_trace _ h1 _ w1 (setup_twitter_cron e)) as H1. fold made in H1.
  pose proof (only_trace _ h2 _ w2 (remove_cron e)) as H2. fold swept in H2.
  split.
  - intros args a args' a' Hmade Hswept.
    apply (proj1 (List.Forall_forall _ _) H1) in Hmade.
    apply (proj1 (List.Forall_forall _ _) H2) in Hswept.
    destruct (Hmade (or_introl eq_refl)) as (n & ssn & Hn & ->).
    destruct (Hswept (or_intror eq_refl)) as (n' & ssn' & Hn' & ->).
    assert (n' = n) as -> by congruence. now exists n, ssn, ssn'.
  - intros Hn. split.
    + unfold setup_twitter. rewrite exec_get_env_then, Hn. reflexivity.
    + intros args a Hin. apply (proj1 (List.Forall_forall _ _) H2) in Hin.
      destruct (Hin (or_intror eq_refl)) as (n & _ & Hn' & _). congruence.
Qed.

Lemma cron_job_round_trip_witness :
  (exists n ssn ssn',
     twitter_period Sim.git_env = Some n /\
     [VStr "session"; VStr ("*/5 * * * * /home/bob/.virtualenvs/demo/bin/python "
                            +:+ "/home/bob/webapps/demo/manage.py poll_twitter")]
     = [VStr ssn; VStr (cron_line Sim.git_env n)] /\
     [VStr "session"; VStr ("*/5 * * * * /home/bob/.virtualenvs/demo/bin/python "
                            +:+ "/home/bob/webapps/demo/manage.py poll_twitter")]
     = [VStr ssn'; VStr (cron_line Sim.git_env n)]) /\
  exec Sim.host (setup_twitter Sim.demo_env) Sim.demo_world
  = (Stopped (Abort "TWITTER_PERIOD not set correctly in deployment settings." []),
     Sim.demo_world, []).
Proof.
  split.
  - apply (proj1 (cron_job_round_trip Sim.host Sim.host Sim.git_env
                    Sim.demo_world Sim.demo_world) _ AUnit _ AUnit).
    + vm_compute. tauto.
    + vm_compute. tauto.
  - exact (proj1 (proj2 (cron_job_round_trip Sim.host Sim.host Sim.demo_env
                           Sim.demo_world Sim.demo_world) eq_refl)).
Defined.

Lemma session_signs_in (e : Env) : issues_only signs_in (get_webf_session e).
Proof.
  unfold get_webf_session, getpass. apply only_bindM; [constructor|]. intros e0 e1.
  apply only_bindM.
  - destruct (password e0); [apply only_ret|].
    apply only_bindM; [apply only_ask; exact I | intros; constructor].
  - intros _ e2. apply only_bindM; [constructor|]. intros e3 e4. apply only_ask. exact I.
Qed.

(** X17: [install] talks to the control panel once: after the login it
    creates the app [git_app] without looking whether it is there, and
    everything after that call is a command or an upload on the host.
    When the panel refuses the call, [install] stops with nothing run on
    the host. *)
Theorem install_calls_panel_once {W} (h : handler W) (e : Env) (w : W) :
  let x := exec h (install e) w in
  exists tr0,
    Forall (fun ev => signs_in (fst ev)) tr0 /\
    ((trace_of x = tr0 /\ exists f, result_of x = Stopped f) \/
     exists ssn pw a tr1,
       trace_of x = tr0 ++ (git_app_call ssn pw, a) :: tr1 /\
       Forall (fun ev => off_panel (fst ev)) tr1 /\
       (a = AFail -> tr1 = [] /\ exists f, result_of x = Stopped f)).
Proof.
  intros x. subst x. unfold install. rewrite exec_bindM.
  pose proof (only_trace _ h _ w (session_signs_in e)) as H0.
  destruct (exec h (get_webf_session e) w) as [[[[ssn e1] | f] w1] tr0];
    cbn [trace_of snd] in H0; exists tr0; (split; [exact H0|]).
  2:{ left. split; [reflexivity | now exists f]. }
  right. rewrite exec_get_env_then, exec_bindM, exec_rpc.
  fold (git_app_call ssn (of_opt (password e1))).
  destruct (h (git_app_call ssn (of_opt (password e1))) w1) as [a w2]. cbn [fst snd].
  exists ssn, (of_opt (password e1)), a.
  destruct a; cbn beta iota;
    try (match goal with
         | |- context [exec h ?p w2] =>
             assert (Hq : issues_only off_panel p) by (unfold run; quiet);
             pose proof (only_trace _ h _ w2 Hq) as H1;
             destruct (exec h p w2) as [[o w3] tr1]
         end;
         cbn [trace_of snd] in H1;
         exists tr1; cbn [trace_of result_of fst snd];
         split; [reflexivity | split; [exact H1 | discriminate]]).
  exists []. cbn [trace_of result_of fst snd]. split; [reflexivity|].
  split; [constructor|]. intros _. split; [reflexivity | eauto].
Qed.

End Tasks.

(* ===================================================================== *)
(** * What the tasks leave of [env]                                      *)
(* ===================================================================== *)

Module Invariants.
Import Text Script Fabfile ScriptFacts MonadFacts Provisioning.
Local Open Scope list_scope.
Local Open Scope script_scope.

Lemma returns_weaken {A} (Q R : A -> Prop) (p : Prog A) :
  (forall a, Q a -> R a) -> returns_only Q p -> returns_only R p.
Proof. intros HQR. induction 1; constructor; auto. Qed.

Lemma returns_bind {A B} (Q : A -> Prop) (R : B -> Prop) (p : Prog A) (k : A -> Prog B) :
  returns_only Q p -> (forall a, Q a -> returns_only R (k a)) -> returns_only R (bind p k).
Proof.
  intros Hp Hk. induction Hp as [a Ha | f | r k' _ IH]; simpl.
  - now apply Hk.
  - constructor.
  - constructor. exact IH.
Qed.

Lemma returns_result {W A} (Q : A -> Prop) (h : handler W) (p : Prog A) (w : W) (a : A) :
  returns_only Q p -> result_of (exec h p w) = Done a -> Q a.
Proof.
  intros Hp. revert w. induction Hp as [a' Ha | f | r k _ IH]; intros w; simpl.
  - now intros [= <-].
  - discriminate.
  - destruct (h r w) as [x w1]. specialize (IH x w1).
    destruct (exec h (k x) w1) as [[o w2] tr]. exact IH.
Qed.

Lemma same_refl (e : Env) : same_but_passwords e e.
Proof. now repeat split. Qed.

Lemma same_trans (e e1 e2 : Env) :
  same_but_passwords e e1 -> same_but_passwords e1 e2 -> same_but_passwords e e2.
Proof. intros (A1 & B1 & C1) (A2 & B2 & C2). repeat split; congruence. Qed.

Lemma keeps_from {A} (e e1 : Env) (p : Prog (A * Env)) :
  same_but_passwords e e1 -> keeps_env e1 p -> keeps_env e p.
Proof.
  intros He. apply returns_weaken. intros [a e2] H. cbn [snd] in *. now apply (same_trans e e1).
Qed.

Lemma keeps_bindM {A B} (p : M A) (k : A -> M B) (e : Env) :
  keeps_env e (p e) -> (forall a e1, keeps_env e1 (k a e1)) -> keeps_env e (bindM p k e).
Proof.
  intros Hp Hk. unfold bindM. eapply returns_bind; [exact Hp|].
  intros [a e1] He. cbn [fst snd] in *. now apply (keeps_from e e1).
Qed.

Lemma keeps_ret {A} (a : A) (e : Env) : keeps_env e (ret a e).
Proof. constructor. apply same_refl. Qed.

Lemma keeps_stop {A} (f : failure) (e : Env) : keeps_env e (@stop A f e).
Proof. constructor. Qed.

Lemma keeps_ask {A} (r : Env -> request) (d : answer -> option A) (e : Env) :
  keeps_env e (ask r d e).
Proof. constructor. intros a. destruct (d a); constructor. apply same_refl. Qed.

Lemma keeps_set_db_pass (p : option string) (e : Env) : keeps_env e (modify (set_db_pass p) e).
Proof. constructor. now repeat split. Qed.

Lemma keeps_set_password (p : option string) (e : Env) :
  keeps_env e (modify (set_password p) e).
Proof. constructor. now repeat split. Qed.

Lemma keeps_with_cd {A} (path : string) (body : M A) (e : Env) :
  (forall e', keeps_env e' (body e')) -> keeps_env e (with_cd path body e).
Proof.
  intros Hb. unfold with_cd, bindM, get_env, modify. cbn [bind fst snd].
  eapply returns_bind; [apply (Hb (set_cwd (path :: cwd e) e))|].
  intros [a e1] (H1 & H2 & H3). cbn [bind fst snd ret]. constructor.
  cbn [snd set_cwd cfg cwd command_prefixes] in *. now repeat split.
Qed.

Lemma keeps_with_prefix {A} (c : string) (body : M A) (e : Env) :
  (forall e', keeps_env e' (body e')) -> keeps_env e (with_prefix c body e).
Proof.
  intros Hb. unfold with_prefix, bindM, get_env, modify. cbn [bind fst snd].
  eapply returns_bind; [apply (Hb (set_command_prefixes (c :: command_prefixes e) e))|].
  intros [a e1] (H1 & H2 & H3). cbn [bind fst snd ret]. constructor.
  cbn [snd set_command_prefixes cfg cwd command_prefixes] in *. now repeat split.
Qed.

Lemma keeps_virtualenv {A} (body : M A) (e : Env) :
  (forall e', keeps_env e' (body e')) -> keeps_env e (virtualenv body e).
Proof.
  intros Hb. unfold virtualenv. apply keeps_bindM; [apply keeps_ret|]. intros e0 e1.
  apply keeps_with_cd. intros e2. now apply keeps_with_prefix.
Qed.

Lemma keeps_project {A} (body : M A) (e : Env) :
  (forall e', keeps_env e' (body e')) -> keeps_env e (project body e).
Proof.
  intros Hb. unfold project. apply keeps_virtualenv. intros e1.
  apply keeps_bindM; [apply keeps_ret|]. intros e2 e3. now apply keeps_with_cd.
Qed.

Ltac keeps_step :=
  lazymatch goal with
  | |- keeps_env _ (ret _ _) => apply keeps_ret
  | |- keeps_env _ (stop _ _) => apply keeps_stop
  | |- keeps_env _ (raise _ _) => apply keeps_stop
  | |- keeps_env _ (abort _ _ _) => apply keeps_stop
  | |- keeps_env _ (get_env _) => apply keeps_ret
  | |- keeps_env _ (modify (set_db_pass _) _) => apply keeps_set_db_pass
  | |- keeps_env _ (modify (set_password _) _) => apply keeps_set_password
  | |- keeps_env _ (ask _ _ _) => apply keeps_ask
  | |- keeps_env _ (bindM _ _ _) => apply keeps_bindM
  | |- keeps_env _ (with_cd _ _ _) => apply keeps_with_cd
  | |- keeps_env _ (with_prefix _ _ _) => apply keeps_with_prefix
  | |- keeps_env _ (virtualenv _ _) => apply keeps_virtualenv
  | |- keeps_env _ (project _ _) => apply keeps_project
  | |- keeps_env _ ((if ?b then _ else _) _) => destruct b
  | |- keeps_env _ (match ?x with _ => _ end _) => destruct x
  | |- keeps_env _ _ => solve [auto 1 with keeps nocore]
  end.

Ltac keeps := repeat (intros; lazy beta; keeps_step).

Create HintDb keeps discriminated.

Lemma keeps_session (e : Env) : keeps_env e (get_webf_session e).
Proof. unfold get_webf_session, getpass. keeps. Qed.

Lemma keeps_run (c : string) (e : Env) : keeps_env e (run c e).
Proof. apply keeps_ask. Qed.

Lemma keeps_exists (p : string) (e : Env) : keeps_env e (exists_ p e).
Proof. apply keeps_ask. Qed.

Lemma keeps_rpc (m : string) (args : list pyval) (e : Env) : keeps_env e (rpc m args e).
Proof. apply keeps_ask. Qed.

Lemma keeps_db_pass (e : Env) : keeps_env e (db_pass_ e).
Proof. unfold db_pass_, getpass. keeps. Qed.

#[local] Hint Resolve keeps_session keeps_run keeps_exists keeps_rpc keeps_db_pass : keeps.

Lemma keeps_pip (p : string) (e : Env) : keeps_env e (pip p e).
Proof. unfold pip. keeps. Qed.

Lemma keeps_python (c : string) (e : Env) : keeps_env e (python c e).
Proof. unfold python. keeps. Qed.

Lemma keeps_manage (c : string) (e : Env) : keeps_env e (manage c e).
Proof. unfold manage. keeps. Qed.

Lemma keeps_get_templates (e : Env) : keeps_env e (get_templates e).
Proof. rewrite get_templates_eq. constructor. apply same_refl. Qed.

Lemma keeps_lookup (ssn ty : string) (name : pyval) (sub : option string) (e : Env) :
  keeps_env e (get_webf_obj ssn ty name sub e).
Proof. unfold get_webf_obj. keeps. Qed.

#[local] Hint Resolve keeps_pip keeps_python keeps_manage keeps_get_templates keeps_lookup
  : keeps.

Lemma keeps_renderer (name : string) (e : Env) :
  keeps_env e (upload_template_and_reload name e).
Proof.
  unfold upload_template_and_reload, read_template, locate_template, fetch_remote,
    render_local, format_env, push_template.
  keeps.
Qed.

Lemma keeps_upload_project (e : Env) : keeps_env e (upload_project e).
Proof. unfold upload_project, vcs_upload, rsync_upload, local_. keeps. Qed.

Lemma keeps_restart (e : Env) : keeps_env e (restart e).
Proof. unfold restart. keeps. Qed.

#[local] Hint Resolve keeps_renderer keeps_upload_project keeps_restart : keeps.

Lemma keeps_create (e : Env) : keeps_env e (create e).
Proof.
  unfold create, create_virtualenv, confirm, create_database, create_custom_app,
    create_static_app, create_domain, create_site, abort_if_found, item,
    install_and_bootstrap.
  keeps.
Qed.

Lemma keeps_run_if_exists (p c : string) (e : Env) : keeps_env e (run_if_exists p c e).
Proof. unfold run_if_exists. keeps. Qed.

#[local] Hint Resolve keeps_run_if_exists : keeps.

Lemma keeps_remove_templates ts (e : Env) : keeps_env e (remove_templates ts e).
Proof.
  revert e. induction ts as [|[n t] ts IH]; intros e; cbn [remove_templates].
  - apply keeps_ret.
  - destruct (assoc "remote_path" t); [|apply keeps_stop].
    apply keeps_bindM; [apply keeps_run_if_exists | intros; apply IH].
Qed.

#[local] Hint Resolve keeps_remove_templates : keeps.

Lemma keeps_remove (e : Env) : keeps_env e (remove e).
Proof.
  unfold remove, remove_if_found, remove_main_app, remove_cronjob, del_webf_obj, item,
    remove_files.
  keeps.
Qed.

Lemma keeps_install (e : Env) : keeps_env e (install e).
Proof. unfold install. keeps. Qed.

Lemma keeps_setup_twitter (e : Env) : keeps_env e (setup_twitter e).
Proof. unfold setup_twitter. keeps. Qed.

Lemma keeps_static (e : Env) : keeps_env e (static e).
Proof. unfold static. keeps. Qed.

#[local] Hint Resolve keeps_static : keeps.

Lemma keeps_guard (body : M unit) (e : Env) :
  (forall e', keeps_env e' (body e')) -> keeps_env e (update_changed_requirements body e).
Proof.
  intros Hb. unfold update_changed_requirements, read_old_reqs, check_new_reqs.
  apply keeps_bindM; [keeps|]. intros saved e1.
  apply keeps_bindM; [apply Hb|]. keeps.
Qed.

Lemma keeps_rollback (e : Env) : keeps_env e (rollback e).
Proof.
  unfold rollback. apply keeps_bindM.
  - apply keeps_guard. intros e'. unfold revert_files. keeps.
  - unfold restore. keeps.
Qed.

Lemma keeps_result {W A} (h : handler W) (p : Prog (A * Env)) (e : Env) (w : W) a e1 :
  keeps_env e p -> result_of (exec h p w) = Done (a, e1) -> same_but_passwords e e1.
Proof. intros Hp Hr. exact (returns_result _ h p w (a, e1) Hp Hr). Qed.

(** X18: a task that returns has changed nothing in [env] but, at most,
    the two passwords it asked for: the configuration is as it was, and
    so are the directories and prefixes of the enclosing [cd] and
    [prefix] blocks.  This holds for [create], [remove], [install],
    [rollback], [setup_twitter], [restart] and the renderer. *)
Theorem tasks_keep_env {W} (h : handler W) (e : Env) (w : W) :
  (forall b e1, result_of (exec h (create e) w) = Done (b, e1) -> same_but_passwords e e1) /\
  (forall e1, result_of (exec h (remove e) w) = Done (tt, e1) -> same_but_passwords e e1) /\
  (forall e1, result_of (exec h (install e) w) = Done (tt, e1) -> same_but_passwords e e1) /\
  (forall e1, result_of (exec h (rollback e) w) = Done (tt, e1) -> same_but_passwords e e1) /\
  (forall e1, result_of (exec h (setup_twitter e) w) = Done (tt, e1) ->
              same_but_passwords e e1) /\
  (forall e1, result_of (exec h (restart e) w) = Done (tt, e1) -> same_but_passwords e e1) /\
  (forall name e1, result_of (exec h (upload_template_and_reload name e) w) = Done (tt, e1) ->
                   same_but_passwords e e1).
Proof.
  repeat split; intros; eapply keeps_result; eauto.
  all: first [ apply keeps_create | apply keeps_remove | apply keeps_install
             | apply keeps_rollback | apply keeps_setup_twitter | apply keeps_restart
             | apply keeps_renderer ].
Qed.

(** ** Scripts that cannot return *)

Lemma never_bind_l {A B} (p : Prog A) (k : A -> Prog B) :
  never_returns p -> never_returns (bind p k).
Proof. intros Hp. eapply returns_bind; [exact Hp|]. intros a []. Qed.

Lemma never_bind_r {A B} (p : Prog A) (k : A -> Prog B) :
  (forall a, never_returns (k a)) -> never_returns (bind p k).
Proof.
  intros Hk. induction p as [a | f | r k' IH]; simpl.
  - apply Hk.
  - constructor.
  - constructor. exact IH.
Qed.

Lemma never_bindM_l {A B} (p : M A) (k : A -> M B) (e : Env) :
  never_returns (p e) -> never_returns (bindM p k e).
Proof. apply never_bind_l. Qed.

Lemma never_bindM_r {A B} (p : M A) (k : A -> M B) (e : Env) :
  (forall a e1, never_returns (k a e1)) -> never_returns (bindM p k e).
Proof. intros Hk. apply never_bind_r. intros [a e1]. apply Hk. Qed.

Lemma never_with_cd {A} (path : string) (body : M A) (e : Env) :
  (forall e', never_returns (body e')) -> never_returns (with_cd path body e).
Proof.
  intros Hb. unfold with_cd. apply never_bindM_r. intros e0 e1.
  apply never_bindM_r. intros _ e2. apply never_bindM_l, Hb.
Qed.

Lemma never_with_prefix {A} (c : string) (body : M A) (e : Env) :
  (forall e', never_returns (body e')) -> never_returns (with_prefix c body e).
Proof.
  intros Hb. unfold with_prefix. apply never_bindM_r. intros e0 e1.
  apply never_bindM_r. intros _ e2. apply never_bindM_l, Hb.
Qed.

Lemma never_project {A} (body : M A) (e : Env) :
  (forall e', never_returns (body e')) -> never_returns (project body e).
Proof.
  intros Hb. unfold project, virtualenv. apply never_bindM_r. intros e0 e1.
  apply never_with_cd. intros e2. apply never_with_prefix. intros e3.
  apply never_bindM_r. intros e4 e5. apply never_with_cd, Hb.
Qed.

Lemma never_result {W A} (h : handler W) (p : Prog A) (w : W) :
  never_returns p -> exists f, result_of (exec h p w) = Stopped f.
Proof.
  intros Hp. destruct (result_of (exec h p w)) as [a | f] eqn:Hr; [|now exists f].
  destruct (returns_result _ h p w a Hp Hr).
Qed.

Lemma bootstrap_needs_host (e : Env) :
  live_host e = None -> never_returns (install_and_bootstrap e).
Proof.
  intros Hl. unfold install_and_bootstrap.
  unfold bindM at 1. unfold get_env. cbn [bind fst snd].
  apply never_bindM_r. intros _ e1. apply never_project. intros e2.
  apply never_bindM_r. intros _ e3.
  apply never_bindM_r. intros _ e4.
  apply never_bindM_r. intros _ e5.
  apply never_bindM_l. rewrite Hl. constructor.
Qed.

(** Running [k] after [p], which keeps [env]: when [k] cannot return from
    any [env] like the first one, the whole cannot return. *)
Lemma never_after {A B} (p : M A) (k : A -> M B) (e0 e : Env) :
  same_but_passwords e0 e -> keeps_env e (p e) ->
  (forall a e1, same_but_passwords e0 e1 -> never_returns (k a e1)) ->
  never_returns (bindM p k e).
Proof.
  intros H0 Hp Hk. unfold bindM. eapply returns_bind; [exact Hp|].
  intros [a e1] He. cbn [fst snd] in *. apply Hk. now apply (same_trans e0 e).
Qed.

Lemma same_live_host (e e1 : Env) : same_but_passwords e e1 -> live_host e1 = live_host e.
Proof. intros (H & _). unfold live_host. now rewrite H. Qed.

(** X19: without LIVE_DOMAIN and LIVE_SUBDOMAIN in the settings [create]
    cannot succeed: whatever the host and the control panel answer, it
    stops at the latest when it builds the code that sets the site's
    domain, which adds [None] to a string. *)
Theorem create_needs_live_host {W} (h : handler W) (e : Env) (w : W) :
  live_host e = None -> exists f, result_of (exec h (create e) w) = Stopped f.
Proof.
  intros Hl. apply never_result. unfold create.
  unfold bindM at 1. unfold get_env. cbn [bind fst snd].
  apply (never_after _ _ e e (same_refl e)).
  { unfold create_virtualenv, confirm. keeps. }
  intros _ e1 H1. apply (never_after _ _ e e1 H1); [apply keeps_session|].
  intros ssn e2 H2. apply (never_after _ _ e e2 H2).
  { unfold create_database. keeps.
    all: unfold abort_if_found, item; keeps. }
  intros _ e3 H3. apply (never_after _ _ e e3 H3).
  { unfold create_custom_app, abort_if_found, item. keeps. }
  intros _ e4 H4. apply (never_after _ _ e e4 H4).
  { unfold create_static_app, abort_if_found, item. keeps. }
  intros _ e5 H5. apply (never_after _ _ e e5 H5).
  { unfold create_domain. keeps. }
  intros _ e6 H6. apply (never_after _ _ e e6 H6).
  { unfold create_site, abort_if_found, item. keeps. }
  intros _ e7 H7. apply (never_after _ _ e e7 H7); [apply keeps_upload_project|].
  intros _ e8 H8. apply never_bindM_l, bootstrap_needs_host.
  now rewrite (same_live_host e e8 H8).
Qed.

Lemma create_needs_live_host_witness :
  exists f, result_of (exec Sim.host (create Sim.no_host_env) Sim.demo_world) = Stopped f.
Proof.
  apply create_needs_live_host. reflexivity.
Defined.

End Invariants.

(* ===================================================================== *)
(** * How [create] and [remove] can stop                                 *)
(* ===================================================================== *)

Module Stops.
Import Text Script Fabfile ScriptFacts MonadFacts Provisioning Edges.
Local Open Scope list_scope.
Local Open Scope script_scope.

Lemma fails_stop {A} (P : failure -> Prop) (f : failure) (e : Env) :
  P f -> fails_only P (@stop A f e).
Proof. now constructor. Qed.

Lemma fails_with_cd {A} (P : failure -> Prop) (path : string) (body : M A) (e : Env) :
  (forall e', fails_only P (body e')) -> fails_only P (with_cd path body e).
Proof.
  intros Hb. unfold with_cd. apply fails_bindM; [constructor|]. intros e0 e1.
  apply fails_bindM; [constructor|]. intros _ e2.
  apply fails_bindM; [apply Hb|]. intros a e3.
  apply fails_bindM; [constructor | intros; apply fails_ret].
Qed.

Lemma fails_with_prefix {A} (P : failure -> Prop) (c : string) (body : M A) (e : Env) :
  (forall e', fails_only P (body e')) -> fails_only P (with_prefix c body e).
Proof.
  intros Hb. unfold with_prefix. apply fails_bindM; [constructor|]. intros e0 e1.
  apply fails_bindM; [constructor|]. intros _ e2.
  apply fails_bindM; [apply Hb|]. intros a e3.
  apply fails_bindM; [constructor | intros; apply fails_ret].
Qed.

Lemma fails_virtualenv {A} (P : failure -> Prop) (body : M A) (e : Env) :
  (forall e', fails_only P (body e')) -> fails_only P (virtualenv body e).
Proof.
  intros Hb. unfold virtualenv. apply fails_bindM; [constructor|]. intros e0 e1.
  apply fails_with_cd. intros e2. now apply fails_with_prefix.
Qed.

Lemma fails_project {A} (P : failure -> Prop) (body : M A) (e : Env) :
  (forall e', fails_only P (body e')) -> fails_only P (project body e).
Proof.
  intros Hb. unfold project. apply fails_virtualenv. intros e1.
  apply fails_bindM; [constructor|]. intros e2 e3. now apply fails_with_cd.
Qed.

Create HintDb fails discriminated.

Ltac fails_step :=
  lazymatch goal with
  | |- fails_only _ (ret _ _) => apply fails_ret
  | |- fails_only _ (get_env _) => apply fails_ret
  | |- fails_only _ (modify _ _) => apply fails_ret
  | |- fails_only _ (stop _ _) => apply fails_stop; cbn; tauto
  | |- fails_only _ (raise _ _) => apply fails_stop; cbn; tauto
  | |- fails_only _ (abort _ _ _) => apply fails_stop; cbn; tauto
  | |- fails_only _ (ask _ _ _) => apply fails_ask; intros; exact I
  | |- fails_only _ (bindM _ _ _) => apply fails_bindM
  | |- fails_only _ (with_cd _ _ _) => apply fails_with_cd
  | |- fails_only _ (with_prefix _ _ _) => apply fails_with_prefix
  | |- fails_only _ (virtualenv _ _) => apply fails_virtualenv
  | |- fails_only _ (project _ _) => apply fails_project
  | |- fails_only _ ((if ?b then _ else _) _) => destruct b
  | |- fails_only _ (match ?x with _ => _ end _) => destruct x
  | |- fails_only _ _ => solve [auto 1 with fails nocore]
  end.

Ltac fails := repeat (intros; lazy beta; fails_step).

Lemma find_in_raises (ty : string) (name : pyval) (sub : option string) (l : list struct)
    (exc : string) :
  find_in ty name sub l = LookupRaises exc -> exc = "KeyError" \/ exc = "TypeError".
Proof.
  unfold find_in. destruct (select _ _ _) as [[|o rest]|]; try discriminate.
  - destruct (String.eqb _ _), sub as [s|]; try discriminate.
    destruct (o !! "subdomains") as [[| | | x | xs]|]; try discriminate;
      try (intros [= <-]; tauto).
    + destruct (contains s x); discriminate.
    + destruct (existsb _ xs); discriminate.
  - intros [= <-]. tauto.
Qed.

Lemma lookup_fails (P : failure -> Prop) (ssn ty : string) (name : pyval)
    (sub : option string) (e : Env) :
  (forall f, lookup_failure f -> P f) -> fails_only P (get_webf_obj ssn ty name sub e).
Proof.
  intros HP. unfold get_webf_obj. apply fails_bindM.
  - apply fails_ask. intros q. now apply HP.
  - intros l e1. destruct (find_in ty name sub l) as [obj| |exc] eqn:Hf;
      [apply fails_ret | apply fails_ret |].
    apply fails_stop, HP. cbn. exact (find_in_raises _ _ _ _ _ Hf).
Qed.

Lemma lookup_is_create_failure (f : failure) : lookup_failure f -> create_failure f.
Proof. destruct f; cbn; tauto. Qed.

Lemma renderer_fails_create (name : string) (e : Env) :
  fails_only create_failure (upload_template_and_reload name e).
Proof.
  unfold upload_template_and_reload. apply fails_bindM.
  - eapply fails_weaken; [|apply read_template_fails].
    intros [] H; cbn in *; tauto.
  - intros t e1. eapply fails_weaken; [|apply push_template_fails].
    intros [] H; cbn in *; tauto.
Qed.

#[local] Hint Resolve renderer_fails_create : fails.

Lemma create_fails (e : Env) : fails_only create_failure (create e).
Proof.
  assert (Hl : forall ssn ty name sub e', fails_only create_failure
                                            (get_webf_obj ssn ty name sub e')).
  { intros. apply lookup_fails, lookup_is_create_failure. }
  unfold create, create_virtualenv, confirm, create_database, create_custom_app,
    create_static_app, create_domain, create_site, abort_if_found, item,
    upload_project, vcs_upload, rsync_upload, local_, install_and_bootstrap,
    db_pass_, get_webf_session, pip, manage, python, getpass, run, exists_, rpc.
  fails; try apply Hl.
Qed.

Lemma remove_templates_fails ts (e : Env) :
  fails_only lookup_failure (remove_templates ts e).
Proof.
  revert e. induction ts as [|[n t] ts IH]; intros e; cbn [remove_templates].
  - apply fails_ret.
  - destruct (assoc "remote_path" t); [|apply fails_stop; cbn; tauto].
    apply fails_bindM; [unfold run_if_exists, exists_, run; fails | intros; apply IH].
Qed.

Lemma remove_fails (e : Env) : fails_only lookup_failure (remove e).
Proof.
  assert (Hl : forall ssn ty name sub e', fails_only lookup_failure
                                            (get_webf_obj ssn ty name sub e')).
  { intros. now apply lookup_fails. }
  assert (Ht : forall e', fails_only lookup_failure (get_templates e')).
  { intros. rewrite get_templates_eq. constructor. }
  unfold remove, remove_if_found, remove_main_app, remove_cronjob, del_webf_obj, item,
    remove_files, run_if_exists, get_webf_session, getpass, run, exists_, rpc.
  fails; try apply Hl; try apply Ht; try apply remove_templates_fails.
Qed.

(** X20: [create] stops only in these ways: a request is refused; an
    object it is about to create is found and it aborts with that
    object's message (or with the message about Mercurial); or an
    exception, [KeyError] or [TypeError], from a list of the control
    panel that cannot be read, a template placeholder [env] lacks, the
    bare [abort()] of the virtualenv question, or a missing live host.
    [remove] never aborts: it stops only on a refused request or on
    [KeyError] or [TypeError] from a list it cannot read. *)
Theorem create_and_remove_stop_by {W} (h : handler W) (e : Env) (w : W) :
  (forall f, result_of (exec h (create e) w) = Stopped f -> create_failure f) /\
  (forall f, result_of (exec h (remove e) w) = Stopped f -> lookup_failure f).
Proof.
  split; intros f Hf.
  - exact (fails_result _ h _ w f (create_fails e) Hf).
  - exact (fails_result _ h _ w f (remove_fails e) Hf).
Qed.

End Stops.

(* ===================================================================== *)
(** * Deploying, rolling back and the files of [remove]                  *)
(* ===================================================================== *)

Module Deploy.
Import Text Script Fabfile ScriptFacts MonadFacts Provisioning Invariants.
Local Open Scope list_scope.
Local Open Scope script_scope.

(** X21: [deploy] creates the project only after asking.  When the
    project directory is there, nothing else is asked; when it is not and
    the operator declines, the task stops (the bare [abort()] raises
    [TypeError]) and [create] is not run; when the operator agrees,
    [create] runs next. *)
Theorem deploy_asks_before_creating {W} (h : handler W) (e : Env) (w w1 : W) (there : bool) :
  h (project_request e) w = (ABool there, w1) ->
  let x := exec h (ensure_created e) w in
  if there then x = (Done (tt, e), w1, [(project_request e, ABool true)])
  else forall w2 yes,
    h (create_request e) w1 = (ABool yes, w2) ->
    if yes
    then trace_of x = (project_request e, ABool false) :: (create_request e, ABool true)
                      :: trace_of (exec h (create e) w2) /\
         world_of x = world_of (exec h (create e) w2) /\
         match result_of (exec h (create e) w2) with
         | Done (_, e1) => result_of x = Done (tt, e1)
         | Stopped f => result_of x = Stopped f
         end
    else x = (Stopped (Raise "TypeError"), w2,
              [(project_request e, ABool false); (create_request e, ABool false)]).
Proof.
  intros H1 x. subst x. unfold ensure_created. rewrite exec_get_env_then, exec_bindM.
  unfold exists_. rewrite exec_ask. fold (project_request e). rewrite H1.
  cbn [fst snd as_bool]. cbn beta iota. destruct there.
  - rewrite exec_ret. reflexivity.
  - intros w2 yes H2. rewrite exec_bindM. unfold confirm. rewrite exec_ask.
    fold (create_request e). rewrite H2. cbn [fst snd as_bool]. cbn beta iota.
    destruct yes.
    + rewrite exec_bindM. destruct (exec h (create e) w2) as [[[[b e1] | f] w3] tr].
      * rewrite exec_ret. cbn. rewrite app_nil_r. repeat split.
      * cbn. repeat split.
    + rewrite exec_raise. reflexivity.
Qed.

Lemma deploy_asks_before_creating_witness :
  exec Sim.host (ensure_created Sim.demo_env) Sim.demo_world
  = (Stopped (Raise "TypeError"), Sim.demo_world,
     [(project_request Sim.demo_env, ABool false); (create_request Sim.demo_env, ABool false)]).
Proof.
  exact (deploy_asks_before_creating Sim.host Sim.demo_env Sim.demo_world Sim.demo_world false
           eq_refl Sim.demo_world false eq_refl).
Defined.

#[local] Hint Resolve keeps_run keeps_exists keeps_static keeps_restart : keeps.

Lemma keeps_revert_files (e : Env) : keeps_env e (revert_files e).
Proof. unfold revert_files. keeps. Qed.

(** X22: the database dump that [deploy] writes first is the one that
    [rollback] restores last before the restart: [pg_dump] and
    [pg_restore] are run in the project directory, for the database named
    after the project, on the file [last.db].  A [rollback] that returns
    has reverted the files under the requirements guard, then restored
    the database, then restarted. *)
Theorem rollback_restores_the_dump {W} (h : handler W) (e : Env) (w : W) :
  (exists a rest, trace_of (exec h (backup_current e) w) = (dump_request e, a) :: rest) /\
  (forall e2, result_of (exec h (rollback e) w) = Done (tt, e2) ->
     exists e1 w1 out w2,
       exec h (update_changed_requirements revert_files e) w
       = (Done (tt, e1), w1, trace_of (exec h (update_changed_requirements revert_files e) w)) /\
       h (restore_request e) w1 = (AStr out, w2) /\
       trace_of (exec h (rollback e) w)
       = trace_of (exec h (update_changed_requirements revert_files e) w)
         ++ (restore_request e, AStr out) :: trace_of (exec h (restart e1) w2)).
Proof.
  split.
  - unfold backup_current. rewrite exec_get_env_then.
    match goal with
    | |- context [exec h (bindM ?p ?k e) w] =>
        destruct (Panel.trace_bindM h p k e w) as [rest ->]
    end.
    rewrite Panel.trace_with_cd. unfold backup. rewrite exec_get_env_then.
    unfold run. rewrite exec_ask.
    cbn [cwd command_prefixes set_cwd cfg]. fold (dump_request e).
    destruct (h (dump_request e) w) as [a w1]. cbn [fst snd].
    exists a, rest. destruct (as_str a); reflexivity.
  - intros e2. unfold rollback. rewrite exec_bindM.
    pose proof (keeps_result h (update_changed_requirements revert_files e) e w tt) as Hk.
    destruct (exec h (update_changed_requirements revert_files e) w)
      as [[[[[] e1] | f] w1] tr1]; [|discriminate].
    specialize (Hk e1 (keeps_guard _ e keeps_revert_files) eq_refl).
    destruct Hk as (Hc & Hd & Hp).
    rewrite exec_get_env_then, exec_bindM, exec_with_cd.
    unfold restore. rewrite exec_get_env_then. unfold run. rewrite exec_ask.
    cbn [cwd command_prefixes set_cwd cfg].
    replace (ReqRun (proj_path e1 :: cwd e1) (command_prefixes e1) _)
      with (restore_request e) by (unfold restore_request; now rewrite Hc, Hd, Hp).
    destruct (h (restore_request e) w1) as [a w2] eqn:Hh. cbn [fst snd].
    destruct a as [| | out | |]; cbn beta iota delta [as_str]; try discriminate.
    cbn beta iota. rewrite Upload.set_cwd_back.
    destruct (exec h (restart e1) w2) as [[o w3] tr3] eqn:Hr.
    cbn [result_of trace_of fst snd]. intros _.
    exists e1, w1, out, w2. split; [reflexivity|]. split; [exact Hh|].
    rewrite ?Hr. reflexivity.
Qed.

(** ** Splitting at the last slash *)

Lemma split_on_app (sep : ascii) (a b : string) :
  split_on sep (a +:+ String sep b) = split_on sep a ++ split_on sep b.
Proof.
  induction a as [|c a IH].
  - rewrite TextFacts.append_nil_l. simpl. now rewrite Ascii.eqb_refl.
  - rewrite TextFacts.append_cons. simpl. rewrite IH.
    destruct (Ascii.eqb c sep); [reflexivity|].
    destruct (split_on sep a) as [|f fs] eqn:Hs; [now apply Context.split_on_nonempty in Hs|].
    reflexivity.
Qed.

Lemma join_split (sep : ascii) (s : string) :
  join_with (String sep EmptyString) (split_on sep s) = s.
Proof.
  induction s as [|c s IH]; [reflexivity|]. simpl.
  destruct (Ascii.eqb c sep) eqn:Hc.
  - apply Ascii.eqb_eq in Hc. subst c.
    destruct (split_on sep s) as [|f fs] eqn:Hs; [now apply Context.split_on_nonempty in Hs|].
    cbn [join_with]. cbn [join_with] in IH.
    rewrite TextFacts.append_nil_l, TextFacts.append_cons, TextFacts.append_nil_l.
    now rewrite IH.
  - destruct (split_on sep s) as [|f fs] eqn:Hs; [now apply Context.split_on_nonempty in Hs|].
    destruct fs as [|g gs].
    + cbn [join_with] in *. now rewrite IH.
    + cbn [join_with] in *. rewrite TextFacts.append_cons. now rewrite IH.
Qed.

Lemma rsplit_head_app (a b : string) :
  has_char "/" b = false -> rsplit_head (a +:+ String "/" b) = a.
Proof.
  intros Hb. unfold rsplit_head. rewrite split_on_app, (Context.split_on_absent _ _ Hb).
  rewrite rev_app_distr. cbn [rev app].
  destruct (split_on "/" a) as [|f fs] eqn:Hs; [now apply Context.split_on_nonempty in Hs|].
  destruct (rev (f :: fs)) as [|x xs] eqn:Hr.
  - apply (f_equal (@length _)) in Hr. rewrite length_rev in Hr. discriminate.
  - rewrite <- Hr, rev_involutive, <- Hs. apply join_split.
Qed.

(** X23: with a deploy tool that is neither git nor Mercurial and a
    project name without a slash, [rollback] reverts the files in the
    directory that holds the project directory, [/home/<user>/webapps]:
    there it deletes the project directory and, when that command
    succeeded, unpacks [<project>.tar]. *)
Theorem rollback_unpacks_in_parent {W} (h : handler W) (e : Env) (w : W) :
  deploy_tool e <> "git" -> deploy_tool e <> "hg" -> has_char "/" (proj_name e) = false ->
  let parent := "/home/" +:+ user e +:+ "/webapps" in
  let clear := ReqRun (parent :: cwd e) (command_prefixes e) ("rm -rf " +:+ proj_name e) in
  let unpack := ReqRun (parent :: cwd e) (command_prefixes e)
                  ("tar -xf " +:+ proj_name e +:+ ".tar") in
  rsplit_head (proj_path e) = parent /\
  trace_of (exec h (revert_files e) w)
  = (clear, fst (h clear w))
    :: match fst (h clear w) with
       | AStr _ => [(unpack, fst (h unpack (snd (h clear w))))]
       | _ => []
       end.
Proof.
  intros Hg Hh Hn parent clear unpack.
  assert (Hp : rsplit_head (proj_path e) = parent).
  { unfold proj_path, parent.
    replace ("/home/" +:+ user e +:+ "/webapps/" +:+ proj_name e)
      with (("/home/" +:+ user e +:+ "/webapps") +:+ String "/" (proj_name e)).
    - now apply rsplit_head_app.
    - rewrite !TextFacts.append_assoc. reflexivity. }
  split; [exact Hp|].
  unfold revert_files. rewrite exec_get_env_then.
  apply String.eqb_neq in Hg, Hh. cbn [existsb vcs_tools]. rewrite Hg, Hh. cbn [orb].
  rewrite Panel.trace_with_cd, Hp, exec_bindM. unfold run at 1. rewrite exec_ask.
  cbn [cwd command_prefixes set_cwd cfg]. fold clear.
  destruct (h clear w) as [a w1]. cbn [fst snd].
  destruct a; cbn beta iota delta [as_str]; try reflexivity.
  cbn beta iota. rewrite exec_bindM. unfold run. rewrite exec_ask.
  cbn [cwd command_prefixes set_cwd cfg]. fold unpack.
  destruct (h unpack w1) as [a w2]. cbn [fst snd].
  destruct (as_str a); reflexivity.
Qed.

Lemma rollback_unpacks_in_parent_witness :
  rsplit_head (proj_path Sim.demo_env) = "/home/bob/webapps".
Proof.
  apply (rollback_unpacks_in_parent Sim.host Sim.demo_env Sim.demo_world);
    [discriminate | discriminate | reflexivity].
Defined.

End Deploy.

(* ===================================================================== *)
(** * The renderer run twice                                             *)
(* ===================================================================== *)

Module Idempotence.
Import Text Script Fabfile ScriptFacts MonadFacts Provisioning.
Local Open Scope list_scope.
Local Open Scope script_scope.

Lemma remote_paths_absolute (e : Env) (name rp : string) (template : list (string * string)) :
  lookup_template name (injected e) = Some template ->
  assoc "remote_path" template = Some rp ->
  startswith "/" rp = true.
Proof.
  unfold injected, lookup_template.
  destruct (String.eqb "supervisor" name); [intros [= <-] [= <-]; reflexivity|].
  destruct (String.eqb "gunicorn" name); [intros [= <-] [= <-]; reflexivity|].
  destruct (String.eqb "settings" name); [intros [= <-] [= <-]; reflexivity|].
  discriminate.
Qed.

Lemma reloads_are_not_reads (e : Env) (name : string) (template : list (string * string)) :
  lookup_template name (injected e) = Some template ->
  startswith "cat " (str_opt (assoc "reload_command" template)) = false.
Proof.
  unfold injected, lookup_template.
  destruct (String.eqb "supervisor" name); [intros [= <-]; reflexivity|].
  destruct (String.eqb "gunicorn" name); [intros [= <-]; reflexivity|].
  destruct (String.eqb "settings" name); [intros [= <-]; reflexivity|].
  discriminate.
Qed.

Lemma host_run_world (cwd prefixes : list string) (c : string) (w : Sim.world) :
  snd (Sim.host (ReqRun cwd prefixes c) w) = w.
Proof.
  unfold Sim.host. destruct (startswith "cat " c); [|reflexivity].
  destruct (Sim.remote_files w !! _); reflexivity.
Qed.

Lemma host_cat (cwd prefixes : list string) (rp r : string) (w : Sim.world) :
  startswith "/" rp = true -> Sim.remote_files w !! rp = Some r ->
  Sim.host (ReqRun cwd prefixes ("cat " +:+ rp)) w = (AStr r, w).
Proof.
  intros Ha Hr. unfold Sim.host. rewrite Panel.startswith_app.
  change (Sim.drop_chars 4 ("cat " +:+ rp)) with rp.
  unfold Sim.resolve. now rewrite Ha, Hr.
Qed.

Section OnHost.
Variables (e : Env) (name lp rp text out : string) (template : list (string * string)).
Hypothesis Hl : lookup_template name (injected e) = Some template.
Hypothesis Hlp : assoc "local_path" template = Some lp.
Hypothesis Hrp : assoc "remote_path" template = Some rp.
Hypothesis Hesc : escape_percent text = text.
Hypothesis Hdb : contains "%(db_pass)s" text = false.
Hypothesis Hfmt : py_format text (env_item e) = FmtOk out.

Lemma read_on_host (w : Sim.world) :
  Sim.local_files w !! lp = Some text ->
  exists tr,
    exec Sim.host (read_template name e) w
    = (Done ({| local_path := lp; remote_path := rp;
                reload_command := assoc "reload_command" template;
                remote_data := default EmptyString (Sim.remote_files w !! rp);
                local_data := out |}, e), w, tr).
Proof using Hdb Hesc Hfmt Hl Hlp Hrp.
  intros Hfile. pose proof (remote_paths_absolute _ _ _ _ Hl Hrp) as Habs.
  unfold read_template. rewrite exec_bindM, exec_get_templates. cbn beta iota.
  rewrite Hl, Hlp, Hrp.
  rewrite exec_bindM. unfold locate_template. rewrite exec_bindM, exec_ask.
  assert (Hle : Sim.host (ReqLocalExists lp) w = (ABool true, w)).
  { unfold Sim.host. now rewrite Hfile, bool_decide_eq_true_2 by (eexists; reflexivity). }
  rewrite Hle.
  cbn [fst snd as_bool]. cbn beta iota. rewrite exec_ret. cbn beta iota.
  rewrite exec_bindM. unfold fetch_remote. rewrite exec_bindM. unfold exists_.
  assert (Hex : Sim.host (ReqExists (cwd e) (command_prefixes e) rp) w
                = (ABool (bool_decide (is_Some (Sim.remote_files w !! rp))), w)).
  { unfold Sim.host, Sim.resolve. now rewrite Habs. }
  rewrite exec_ask, Hex.
  cbn [fst snd as_bool]. cbn beta iota.
  assert (Hrender : forall remote,
    exec Sim.host
      (bindM (render_local lp)
         (fun rendered =>
            ret {| local_path := lp; remote_path := rp;
                   reload_command := assoc "reload_command" template;
                   remote_data := remote; local_data := rendered |}) e) w
    = (Done ({| local_path := lp; remote_path := rp;
                reload_command := assoc "reload_command" template;
                remote_data := remote; local_data := out |}, e), w,
       [(ReqReadLocal lp, AStr text)])).
  { intros remote. rewrite exec_bindM. unfold render_local. rewrite exec_bindM, exec_ask.
    assert (Hrd : Sim.host (ReqReadLocal lp) w = (AStr text, w)).
    { unfold Sim.host. now rewrite Hfile. }
    rewrite Hrd. cbn [fst snd as_str]. cbn beta iota zeta. rewrite Hesc, Hdb.
    rewrite exec_bindM, exec_ret. cbn beta iota.
    rewrite Renderer.exec_format_env, Hfmt. cbn beta iota.
    rewrite exec_ret. reflexivity. }
  destruct (Sim.remote_files w !! rp) as [r|] eqn:Hr.
  - rewrite bool_decide_eq_true_2 by (eexists; reflexivity).
    unfold run. rewrite exec_ask, (host_cat _ _ _ _ _ Habs Hr).
    cbn [fst snd as_str]. cbn beta iota. rewrite Hrender. eexists. reflexivity.
  - rewrite bool_decide_eq_false_2 by (intros [? ?]; discriminate).
    rewrite exec_ret. cbn beta iota. rewrite Hrender. eexists. reflexivity.
Qed.

(** One run: the renderer returns, and either the remote copy already
    equals the rendering and the host is as before, or the host now
    holds the rendering at the remote path. *)
Lemma run_on_host (w : Sim.world) :
  Sim.local_files w !! lp = Some text ->
  let x := exec Sim.host (upload_template_and_reload name e) w in
  result_of x = Done (tt, e) /\
  Sim.local_files (world_of x) = Sim.local_files w /\
  ((clean (default EmptyString (Sim.remote_files w !! rp)) = clean out /\
    world_of x = w /\ uploads (trace_of x) = [] /\
    (commands (trace_of x) = [] \/ commands (trace_of x) = ["cat " +:+ rp])) \/
   (clean (default EmptyString (Sim.remote_files w !! rp)) <> clean out /\
    Sim.remote_files (world_of x) !! rp = Some out /\
    uploads (trace_of x) = [(lp, rp)])).
Proof using Hdb Hesc Hfmt Hl Hlp Hrp.
  intros Hfile x. subst x. destruct (read_on_host w Hfile) as [tr Hread].
  destruct (Renderer.read_template_quiet Sim.host name e w _ _ _ Hread) as (U & _ & C).
  cbn [remote_path] in C.
  unfold upload_template_and_reload. rewrite exec_bindM, Hread.
  set (t := {| local_path := lp; remote_path := rp;
               reload_command := assoc "reload_command" template;
               remote_data := default EmptyString (Sim.remote_files w !! rp);
               local_data := out |}).
  destruct (String.eqb (clean (remote_data t)) (clean (local_data t))) eqn:Hc.
  - apply String.eqb_eq in Hc. rewrite (Renderer.push_template_same Sim.host t e w Hc).
    cbn [result_of world_of trace_of fst snd]. rewrite app_nil_r.
    split; [reflexivity|]. split; [reflexivity|]. left. now repeat split.
  - rewrite (Renderer.push_template_differ Sim.host t e w Hc).
    assert (Hup : Sim.host (ReqUploadTemplate lp rp (env_item e) false false) w
                  = (AUnit, Sim.set_remote_files (<[rp := out]> (Sim.remote_files w)) w)).
    { unfold Sim.host. now rewrite Hfile, Hfmt. }
    cbn [local_path remote_path reload_command t]. rewrite Hup. cbn [fst snd].
    apply String.eqb_neq in Hc. cbn [remote_data local_data t] in Hc.
    destruct (truthy (assoc "reload_command" template)).
    + rewrite host_run_world.
      assert (Hrun : fst (Sim.host (ReqRun (cwd e) (command_prefixes e)
                                      (str_opt (assoc "reload_command" template)))
                            (Sim.set_remote_files (<[rp := out]> (Sim.remote_files w)) w))
                     = AStr EmptyString).
      { unfold Sim.host. now rewrite (reloads_are_not_reads _ _ _ Hl). }
      rewrite Hrun. cbn [result_of world_of trace_of fst snd].
      split; [reflexivity|]. split; [reflexivity|]. right.
      split; [exact Hc|]. split; [apply lookup_insert_eq|].
      rewrite uploads_app, U. reflexivity.
    + cbn [result_of world_of trace_of fst snd].
      split; [reflexivity|]. split; [reflexivity|]. right.
      split; [exact Hc|]. split; [apply lookup_insert_eq|].
      rewrite uploads_app, U. reflexivity.
Qed.

End OnHost.

(** X24: on the simulated host, for a template with no percent sign but
    those of its placeholders and no database password in it, the
    renderer is idempotent: a second run right after the first, with the
    local template and [env] unchanged, uploads nothing, runs no reload
    command and leaves the host as the first run left it. *)
Theorem second_run_is_quiet (e : Env) (w : Sim.world) (name lp rp text out : string)
    (template : list (string * string)) :
  lookup_template name (injected e) = Some template ->
  assoc "local_path" template = Some lp ->
  assoc "remote_path" template = Some rp ->
  Sim.local_files w !! lp = Some text ->
  escape_percent text = text ->
  contains "%(db_pass)s" text = false ->
  py_format text (env_item e) = FmtOk out ->
  let run1 := exec Sim.host (upload_template_and_reload name e) w in
  let run2 := exec Sim.host (upload_template_and_reload name e) (world_of run1) in
  result_of run1 = Done (tt, e) /\ result_of run2 = Done (tt, e) /\
  world_of run2 = world_of run1 /\
  uploads (trace_of run2) = [] /\
  (commands (trace_of run2) = [] \/ commands (trace_of run2) = ["cat " +:+ rp]).
Proof.
  intros Hl Hlp Hrp Hfile Hesc Hdb Hfmt run1 run2.
  destruct (run_on_host e name lp rp text out template Hl Hlp Hrp Hesc Hdb Hfmt w Hfile)
    as (R1 & L1 & H1). fold run1 in R1, L1, H1.
  assert (Hfile1 : Sim.local_files (world_of run1) !! lp = Some text) by now rewrite L1.
  destruct (run_on_host e name lp rp text out template Hl Hlp Hrp Hesc Hdb Hfmt
              (world_of run1) Hfile1) as (R2 & _ & H2). fold run2 in R2, H2.
  split; [exact R1|]. split; [exact R2|].
  destruct H2 as [(_ & W2 & U2 & C2) | (Hne & _)]; [now repeat split|].
  exfalso. apply Hne. destruct H1 as [(Heq & W1 & _) | (_ & Hr & _)].
  - now rewrite W1.
  - now rewrite Hr.
Qed.

Lemma second_run_is_quiet_witness :
  uploads (trace_of (exec Sim.host (upload_template_and_reload "gunicorn" Sim.demo_env)
                       (world_of (exec Sim.host
                                    (upload_template_and_reload "gunicorn" Sim.demo_env)
                                    Sim.plain_world))))
  = [].
Proof.
  apply (second_run_is_quiet Sim.demo_env Sim.plain_world "gunicorn"
           "deploy/gunicorn.conf.py.template" "/home/bob/webapps/demo/gunicorn.conf.py"
           "proc_name = '%(proj_name)s'" "proc_name = 'demo'"
           [ ("local_path", "deploy/gunicorn.conf.py.template");
             ("remote_path", "/home/bob/webapps/demo/gunicorn.conf.py") ]);
    vm_compute; reflexivity.
Defined.

End Idempotence.

(* ===================================================================== *)
(** * The template descriptors                                           *)
(* ===================================================================== *)

Module Descriptors.
Import Text Script Fabfile ScriptFacts MonadFacts.
Local Open Scope list_scope.
Local Open Scope script_scope.

(** X25: [get_templates] cannot fail and asks nothing of anybody: the
    placeholders of the three descriptors are entries [env] always has.
    Whatever the configuration, the supervisor file goes to
    [/home/<user>/etc/supervisor/conf.d/<project>.conf] and is reloaded
    with [supervisorctl update gunicorn_<project>], and the gunicorn and
    settings files go under the project path. *)
Theorem templates_always_render {W} (h : handler W) (e : Env) (w : W) :
  exec h (get_templates e) w
  = (Done ([ ("supervisor",
               [ ("local_path", "deploy/supervisor.conf.template");
                 ("remote_path",
                  "/home/" +:+ user e +:+ "/etc/supervisor/conf.d/" +:+ proj_name e +:+ ".conf");
                 ("reload_command", "supervisorctl update gunicorn_" +:+ proj_name e) ]);
             ("gunicorn",
               [ ("local_path", "deploy/gunicorn.conf.py.template");
                 ("remote_path", proj_path e +:+ "/gunicorn.conf.py") ]);
             ("settings",
               [ ("local_path", "deploy/local_settings.py.template");
                 ("remote_path",
                  proj_path e +:+ "/" +:+ proj_app e +:+ "/local_settings.py") ]) ], e),
     w, []).
Proof. rewrite get_templates_eq. reflexivity. Qed.

End Descriptors.

(* ===================================================================== *)
(** * The order of creations and deletions                               *)
(* ===================================================================== *)

Module Order.
Import Text Script Fabfile ScriptFacts MonadFacts Provisioning Panel.
Local Open Scope list_scope.
Local Open Scope script_scope.

Lemma calls_skip (p : request -> bool) (r : request) (a : answer) (rest : trace) :
  off_panel r -> calls_of p ((r, a) :: rest) = calls_of p rest.
Proof. destruct r; try reflexivity. discriminate. Qed.

Lemma calls_quiet (p : request -> bool) (mid rest : trace) :
  Forall (fun ev => off_panel (fst ev)) mid -> calls_of p (mid ++ rest) = calls_of p rest.
Proof.
  induction 1 as [|[r a] mid Hr _ IH]; [reflexivity|].
  cbn [app]. now rewrite calls_skip.
Qed.

Lemma calls_list_create (ssn ty : string) (a : answer) (rest : trace) :
  calls_of is_create_call ((list_request ssn ty, a) :: rest) = calls_of is_create_call rest.
Proof. reflexivity. Qed.

Lemma calls_list_delete (ssn ty : string) (a : answer) (rest : trace) :
  calls_of is_delete_method ((list_request ssn ty, a) :: rest)
  = calls_of is_delete_method rest.
Proof. reflexivity. Qed.

Lemma follows_creates_in_order (ssn : string) (steps : list step) (tr : trace) o :
  follows ssn steps tr o -> Forall creating_step steps ->
  calls_of is_create_call tr `prefix_of` creations steps.
Proof.
  intros H. follows_cases H; intros Hg.
  - apply prefix_nil.
  - rewrite calls_skip by exact Hr. now apply IH.
  - rewrite calls_list_create. apply prefix_nil.
  - rewrite calls_list_create. inversion Hg; subst. now apply IH.
  - rewrite calls_list_create. apply prefix_nil.
  - rewrite calls_list_create. apply prefix_nil.
  - inversion Hg as [|? ? Hm Hg']; subst. cbn in Hm.
    rewrite calls_list_create, calls_quiet by exact Hmid.
    cbn [calls_of is_create_call creations nth]. rewrite Hm.
    apply prefix_cons, IH, Hg'.
  - rewrite calls_list_create. rewrite <- (app_nil_r mid), calls_quiet by exact Hmid.
    apply prefix_nil.
  - rewrite calls_list_create. apply prefix_nil.
  - inversion Hg as [|? ? Hs _]. contradiction.
  - inversion Hg as [|? ? Hs _]. contradiction.
  - inversion Hg as [|? ? Hs _]. contradiction.
  - inversion Hg as [|? ? Hs _]. contradiction.
Qed.

Lemma follows_deletes_in_order (ssn : string) (steps : list step) (tr : trace) o :
  follows ssn steps tr o -> Forall sweep_step steps ->
  calls_of is_delete_method tr `sublist_of` deletions steps.
Proof.
  intros H. follows_cases H; intros Hg.
  - apply sublist_nil_l.
  - rewrite calls_skip by exact Hr. now apply IH.
  - inversion Hg as [|? ? Hs _]. contradiction.
  - inversion Hg as [|? ? Hs _]. contradiction.
  - inversion Hg as [|? ? Hs _]. contradiction.
  - inversion Hg as [|? ? Hs _]. contradiction.
  - inversion Hg as [|? ? Hs _]. contradiction.
  - inversion Hg as [|? ? Hs _]. contradiction.
  - inversion Hg as [|? ? Hs _]. contradiction.
  - inversion Hg as [|? ? _ Hg']; subst. rewrite calls_list_delete.
    cbn [deletions]. apply sublist_cons, IH, Hg'.
  - inversion Hg as [|? ? _ Hg']; subst. rewrite calls_list_delete.
    unfold delete_request. cbn [calls_of is_delete_method deletions nth].
    rewrite startswith_app. apply sublist_skip, IH, Hg'.
  - rewrite calls_list_delete. apply sublist_nil_l.
  - inversion Hg as [|? ? Hm Hg']; subst. cbn in Hm. subst method.
    cbn [calls_of is_delete_method deletions nth].
    change (startswith "delete_" "delete_cronjob") with true. cbn iota.
    apply sublist_skip, IH, Hg'.
Qed.

(** X26: [create] makes its creation calls in one fixed order and skips
    none: the database, the main app, the static app, the domain, the
    website.  Whatever the answers, what a run has created is a prefix of
    that list. *)
Theorem create_creates_in_order {W} (h : handler W) (e : Env) (w : W) :
  calls_of is_create_call (trace_of (exec h (create e) w))
  `prefix_of` [ ("create_db", VStr (proj_name e));
                ("create_app", VStr (proj_name e));
                ("create_app", VStr (static_name e));
                ("create_domain", of_opt (live_domain e));
                ("create_website", VStr (proj_name e)) ].
Proof.
  destruct (create_follows_steps h e w) as [ssn H].
  apply (follows_creates_in_order _ _ _ _ H). repeat constructor.
Qed.

(** X27: [remove] deletes in one fixed order, each object at most once:
    the website, the domain, the main app, the static app, the database,
    the database user and, with TWITTER_PERIOD set, the cron job.  What
    a run has deleted is that list with the objects left out that were
    not found or not reached. *)
Theorem remove_deletes_in_order {W} (h : handler W) (e : Env) (w : W) :
  calls_of is_delete_method (trace_of (exec h (remove e) w))
  `sublist_of` [ ("delete_website", VStr (proj_name e));
                 ("delete_domain", of_opt (live_domain e));
                 ("delete_app", VStr (proj_name e));
                 ("delete_app", VStr (static_name e));
                 ("delete_db", VStr (proj_name e));
                 ("delete_db_user", VStr (proj_name e)) ]
               ++ match twitter_period e with
                  | Some n => [("delete_cronjob", VStr (cron_line e n))]
                  | None => []
                  end.
Proof.
  destruct (remove_follows_steps h e w) as [ssn H].
  pose proof (follows_deletes_in_order _ _ _ _ H (remove_steps_sweep e)) as Hs.
  unfold remove_steps, remove_sweeps in Hs.
  destruct (twitter_period e); exact Hs.
Qed.

End Order.
